(** * Emoly / Aire chatbot: phase state machine, strategy decision and
      fuzzy command matcher of [python_chatbot/refractored_bot.py]

    The development embeds the Flask handler [chat], the strategy engine
    [decide_strategy], the two classifier wrappers and the command matcher
    [is_endphase_command] as Rocq functions, and states the properties of
    the natural-language specification over them.

    Conventions of the embedding.
    - A Python [str] is a [string]; every character stands for one code
      point below 256, which is the range in which [strip] and [lower] are
      modelled.
    - Python integers used as indices are [Z].
    - A Python float that only takes part in a comparison of quotients of
      integers is a rational [Q].
    - A dictionary is a [gmap]; the SQL table of interventions is a [gmap]
      from the key (participant id, intervention id) to a record.
    - A call to a hosted model is the outcome the environment gives it:
      either it raises or it returns a text. *)

From Stdlib Require Import ZArith QArith Ascii String List Lia.
From stdpp Require Import gmap strings list.

(** ** Python string helpers *)

(** [str.isspace] on a single code point below 256. *)
Definition py_isspace (c : ascii) : bool :=
  let n := N_of_ascii c in
  ((9 <=? n) && (n <=? 13) || (28 <=? n) && (n <=? 32)
   || (n =? 133) || (n =? 160))%N.

(** [str.lower] on a single code point below 256: A-Z and the Latin-1
    capitals (192-222 without the multiplication sign 215) move up by 32. *)
Definition py_lower_char (c : ascii) : ascii :=
  let n := N_of_ascii c in
  if ((65 <=? n) && (n <=? 90)
      || (192 <=? n) && (n <=? 222) && negb (n =? 215))%N
  then ascii_of_N (n + 32) else c.

Fixpoint lstrip (s : string) : string :=
  match s with
  | String c s' => if py_isspace c then lstrip s' else s
  | EmptyString => EmptyString
  end.

Fixpoint rstrip (s : string) : string :=
  match s with
  | String c s' =>
      match rstrip s' with
      | EmptyString => if py_isspace c then EmptyString else String c EmptyString
      | r => String c r
      end
  | EmptyString => EmptyString
  end.

(** [s.strip()] *)
Definition strip (s : string) : string := rstrip (lstrip s).

(** [s.lower()] *)
Fixpoint lower (s : string) : string :=
  match s with
  | String c s' => String (py_lower_char c) (lower s')
  | EmptyString => EmptyString
  end.

(** ** [difflib.SequenceMatcher(None, a, b)]

    The standard-library matcher the command matcher calls. No junk
    predicate is given, and the popularity heuristic of [__chain_b] only
    applies to a second sequence of 200 elements or more, so for the
    sequences compared here [b2j] holds every index of every element and
    the junk set is empty (the two junk-extension loops at the end of
    [find_longest_match] then do nothing and are left out). *)
Module difflib.
Section SequenceMatcher.
Context {A : Type} `{EqDecision A}.
Variables a b : list A.

(** [b2j[x]]: the indices [j] with [b[j] == x], ascending. *)
Fixpoint indices_from (j : Z) (l : list A) (x : A) : list Z :=
  match l with
  | [] => []
  | y :: l' =>
      if decide (y = x) then j :: indices_from (j + 1) l' x
      else indices_from (j + 1) l' x
  end.

Definition b2j (x : A) : list Z := indices_from 0 b x.

(** A match [(i, j, k)]: [a[i:i+k] == b[j:j+k]]. *)
Definition Match : Type := Z * Z * Z.

(** The inner loop [for j in b2j.get(a[i], nothing)] of
    [find_longest_match]; [continue] below [blo], [break] from [bhi]. *)
Fixpoint scan_js (i blo bhi : Z) (j2len : gmap Z Z) (js : list Z)
    (newj2len : gmap Z Z) (best : Match) : gmap Z Z * Match :=
  match js with
  | [] => (newj2len, best)
  | j :: js' =>
      if (j <? blo)%Z then scan_js i blo bhi j2len js' newj2len best
      else if (bhi <=? j)%Z then (newj2len, best)
      else
        let k := (default 0 (j2len !! (j - 1)) + 1)%Z in
        let newj2len' := <[j := k]> newj2len in
        let '(_, _, bestsize) := best in
        let best' :=
          if (bestsize <? k)%Z then (i - k + 1, j - k + 1, k)%Z else best in
        scan_js i blo bhi j2len js' newj2len' best'
  end.

(** The outer loop [for i in range(alo, ahi)], run for [n] more rounds. *)
Fixpoint scan_is (n : nat) (i blo bhi : Z) (j2len : gmap Z Z)
    (best : Match) : Match :=
  match n with
  | O => best
  | S n' =>
      let js := match a !! Z.to_nat i with Some x => b2j x | None => [] end in
      let '(newj2len, best') := scan_js i blo bhi j2len js ∅ best in
      scan_is n' (i + 1)%Z blo bhi newj2len best'
  end.

Definition find_longest_match (alo ahi blo bhi : Z) : Match :=
  scan_is (Z.to_nat (ahi - alo)) alo blo bhi ∅ (alo, blo, 0%Z).

(** The work list of [get_matching_blocks]: [queue.pop()] takes the last
    element appended, so the list is used as a stack with its head last
    appended. One round of the [while queue] loop: *)
Definition queue_step (queue : list (Z * Z * Z * Z)) (blocks : list Match)
    : list (Z * Z * Z * Z) * list Match :=
  match queue with
  | [] => ([], blocks)
  | (alo, ahi, blo, bhi) :: queue' =>
      let '(i, j, k) := find_longest_match alo ahi blo bhi in
      if (k =? 0)%Z then (queue', blocks)
      else
        let q1 :=
          if ((alo <? i) && (blo <? j))%Z
          then (alo, i, blo, j) :: queue' else queue' in
        let q2 :=
          if ((i + k <? ahi) && (j + k <? bhi))%Z
          then ((i + k)%Z, ahi, (j + k)%Z, bhi) :: q1 else q1 in
        (q2, blocks ++ [(i, j, k)])
  end.

Fixpoint queue_loop (rounds : nat) (queue : list (Z * Z * Z * Z))
    (blocks : list Match) : list (Z * Z * Z * Z) * list Match :=
  match rounds with
  | O => (queue, blocks)
  | S r =>
      match queue with
      | [] => ([], blocks)
      | _ => let '(queue', blocks') := queue_step queue blocks in
             queue_loop r queue' blocks'
      end
  end.

Definition la : Z := Z.of_nat (length a).
Definition lb : Z := Z.of_nat (length b).

(** Rounds given to the work list; [queue_loop_exhausts] below shows that
    the queue is always empty after them. *)
Definition rounds : nat := 2 * length a + 2.

(** The blocks in the order found. Python then sorts them, merges adjacent
    ones and appends the sentinel [(la, lb, 0)]; none of this changes the
    sum of the sizes, which is all [ratio] reads. *)
Definition get_matching_blocks : list Match :=
  snd (queue_loop rounds [(0%Z, la, 0%Z, lb)] []).

Definition matches : Z :=
  fold_right (fun m acc => (snd m + acc)%Z) 0%Z get_matching_blocks.

(** [_calculate_ratio(matches, len(a) + len(b))]:
    [2.0 * matches / length] if [length] else [1.0]. *)
Definition ratio : Q :=
  let length := (la + lb)%Z in
  if (length =? 0)%Z then 1%Q
  else Qmake (2 * matches) (Z.to_pos length).

End SequenceMatcher.
End difflib.

(** *** Measures used to show that the work list empties *)

(** A match lies in the window of [a] that was searched. *)
Definition in_window (alo hi : Z) (m : difflib.Match) : Prop :=
  let '(bi, _, bs) := m in (0 <= bs /\ alo <= bi /\ bi + bs <= hi)%Z.

Definition lens_below (bound : Z) (j2len : gmap Z Z) : Prop :=
  forall j v, j2len !! j = Some v -> (1 <= v <= bound)%Z.

(** The measure that every round of the work list decreases. *)
Definition weight (q : Z * Z * Z * Z) : nat :=
  let '(alo, ahi, _, _) := q in 2 * Z.to_nat (ahi - alo) + 1.

Definition total (queue : list (Z * Z * Z * Z)) : nat :=
  fold_right (fun q acc => weight q + acc) 0 queue.

(** ** The command matcher *)

Definition default_threshold : Q := 7 # 10.
Definition default_break_sentence : string := "endphase()".

(** [is_endphase_command(user_input, threshold, break_sentence)].
    The comparison [ratio() >= threshold] is between the float quotient
    [2.0 * matches / length] and the float [threshold]; for a threshold that
    is a quotient of small integers, as 0.7 is, correctly rounded division
    gives the same answer as the comparison of the rationals. *)
Definition is_endphase_command (user_input : string) (threshold : Q)
    (break_sentence : string) : bool :=
  let t := lower (strip user_input) in
  Qle_bool threshold
    (difflib.ratio (list_ascii_of_string t) (list_ascii_of_string break_sentence)).

(** The call with the defaults, [is_endphase_command(user_input)]. *)
Definition is_endphase_command_default (user_input : string) : bool :=
  is_endphase_command user_input default_threshold default_break_sentence.

(** ** Python values, exceptions and calls to the hosted models *)

#[local] Set Warnings "-register-all".

(** The values that reach the engine from JSON answers and from the error
    returns of the wrappers. *)
Inductive pyval : Type :=
  | PNone
  | PBool (b : bool)
  | PNum (q : Q)
  | PStr (s : string)
  | PList (l : list pyval)
  | PTuple (l : list pyval)
  | PDict (d : list (string * pyval)).

Inductive exn : Type :=
  | KeyError | TypeError | AttributeError | RuntimeError
  | APIError    (* raised by a client of a hosted model *)
  | DBError.    (* raised by the database session *)

(** A computation that returns or raises. *)
Inductive result (A : Type) : Type :=
  | Ok (x : A)
  | Raise (e : exn).
Arguments Ok {A} x.
Arguments Raise {A} e.

Global Instance result_ret : MRet result := fun A x => Ok x.
Global Instance result_bind : MBind result := fun A B f m =>
  match m with Ok x => f x | Raise e => Raise e end.

(** What a call to a hosted model does. *)
Inductive outcome (A : Type) : Type :=
  | Raises (e : exn)
  | Returns (x : A).
Arguments Raises {A} e.
Arguments Returns {A} x.

(** [v == s] for a string literal [s]. *)
Definition py_eq_str (v : pyval) (s : string) : bool :=
  match v with PStr t => String.eqb t s | _ => false end.

(** [v in [s1, ..., sn]] for a list of string literals. *)
Definition py_in (v : pyval) (l : list string) : bool :=
  existsb (py_eq_str v) l.

(** [bool(v)] *)
Definition py_truthy (v : pyval) : bool :=
  match v with
  | PNone => false
  | PBool b => b
  | PNum q => negb (Qeq_bool q 0)
  | PStr s => negb (String.eqb s "")
  | PList l | PTuple l => match l with [] => false | _ => true end
  | PDict d => match d with [] => false | _ => true end
  end.

(** [hash(v)] succeeds: lists and dicts are unhashable. *)
Fixpoint py_hashable (v : pyval) : bool :=
  match v with
  | PList _ | PDict _ => false
  | PTuple l => forallb py_hashable l
  | _ => true
  end.

(** [d.get(k)] on a dict that came from JSON, whose keys are strings. *)
Fixpoint assoc_get (d : list (string * pyval)) (k : string) : option pyval :=
  match d with
  | [] => None
  | (k', v) :: d' => if String.eqb k' k then Some v else assoc_get d' k
  end.

(** ** Messages and prompt texts

    The prompt texts of the source are long literals and f-strings. Each is
    kept as a constructor that carries exactly the values its f-string
    interpolates, so two prompts are equal iff they are the same template
    with the same values. *)

(** The values of the [strategies] dictionary of [decide_strategy]. The
    templates of Attentional Deployment and Response Modulation are
    f-strings over [primary_emotion]; the other four are plain literals. *)
Inductive instruction : Type :=
  | AttentionalDeploymentPrompt (primary_emotion : pyval)
  | SituationModificationPrompt
  | AgencyCognitiveChangePrompt
  | PositiveCognitiveChangePrompt
  | ResponseModulationPrompt (primary_emotion : pyval)
  | SituationSelectionPrompt.

Inductive content : Type :=
  | PyNone
  | Text (s : string)
  | InitialSystemPrompt (current_heart_rate : option Z)
  | Phase2SystemPrompt (primary_emotion primary_trigger first_strat : pyval)
      (first_prompt : instruction)
  | Phase2bSystemPrompt (primary_emotion primary_trigger second_strat : pyval)
      (second_prompt : instruction)
  | Phase3SystemPrompt
  | SessionEndSystemPrompt.

(** [bool(c)]: every prompt template is a non-empty text. *)
Definition content_truthy (c : content) : bool :=
  match c with
  | PyNone => false
  | Text s => negb (String.eqb s "")
  | _ => true
  end.

Record message : Type := Message { role : string; body : content }.

Definition system (c : content) : message := Message "system" c.
Definition user (s : string) : message := Message "user" (Text s).
Definition assistant (s : string) : message := Message "assistant" (Text s).

(** The [phase] argument of [context_builder]: [1], ["2a"], ["2b"], [3]. *)
Inductive phase_tag : Type := Tag1 | Tag2a | Tag2b | Tag3.

(** The places of [chat] that call [db_session.commit()]. *)
Inductive commit_site : Type :=
  | CommitNewSession      (* line 1071 *)
  | CommitRecovery        (* line 1090 *)
  | CommitInitialMarker   (* line 1160 *)
  | CommitExit            (* lines 1201, 1299, 1379, 1439 *)
  | CommitPrompts         (* lines 1246 *)
  | CommitContinueMarker. (* lines 1544, 1663 *)

(** ** The environment of one request

    The module-level clients, the answers of the hosted models to the
    conversation they are sent, the JSON parser, the clock, and the parts
    of the deployment that are declared outside [refractored_bot.py]. *)
Record env : Type := Env {
  (** [openai_client] and [gemini_client] are initialised. *)
  openai_client : bool;
  gemini_client : bool;
  (** [openai_client.chat.completions.create(...)] for each of the four
      prompts, as a function of the conversation sent; the value returned
      is [resp.choices[0].message.content], which the API allows to be
      [None]. *)
  emotion_completion : list message -> outcome (option string);
  trigger_completion : list message -> outcome (option string);
  subtype_completion : list message -> outcome (option string);
  reply_completion : list message -> outcome (option string);
  (** [gemini_client.generate_content(...)], read through [.text]. *)
  generate_content :
    phase_tag -> list message -> pyval -> pyval -> pyval -> pyval -> outcome string;
  (** [json.loads]; [None] when it raises. *)
  json_loads : string -> option pyval;
  (** [db_session.commit()] succeeds at this place. *)
  commit_ok : commit_site -> bool;
  (** [datetime.datetime.now(...)] in seconds. *)
  now : Z;
  (** The heart rate of the latest biometric row of the participant. *)
  latest_heart_rate : option Z;
  (** [request.environ] has the key ['werkzeug.server.shutdown']. *)
  werkzeug_shutdown : bool;
  (** The timestamps read back from the table carry no time zone, so that
      [datetime.datetime.now() - conversation_start_time] is defined. *)
  stored_times_naive : bool;
  (** The defaults the table gives to the columns [current_phase] and
      [insert_system_prompt] of a row created without them. The table is
      declared in the module [data_base], which the handler imports. *)
  default_current_phase : option string;
  default_insert_system_prompt : option string
}.

(** ** The classifier wrappers *)

Definition error_openai_not_init : pyval :=
  PTuple [PStr "error_openai_not_init"; PNum 0].

(** [identify_emotion_plutchik(chat_history)]. The model is sent
    [str(chat_history[1:])]. The call is made before the [try]; only
    [json.loads] and the two [data.get] are inside it, under a bare
    [except]. *)
Definition identify_emotion_plutchik (E : env) (chat_history : list message)
    : result (pyval * pyval) :=
  if negb (openai_client E) then Ok (PStr "error_openai_not_init", PNum 0)
  else
    match emotion_completion E (tail chat_history) with
    | Raises e => Raise e
    | Returns None => Ok (PStr "neutral", PNum (1 # 2))
    | Returns (Some text) =>
        match json_loads E text with
        | Some (PDict data) =>
            Ok (default (PStr "neutral") (assoc_get data "emotion"),
                default (PNum (1 # 2)) (assoc_get data "confidence"))
        | _ => Ok (PStr "neutral", PNum (1 # 2))
        end
    end.

(** [s.replace]: every apostrophe becomes a double quote (code point 34). *)
Fixpoint replace_quotes (s : string) : string :=
  match s with
  | String c s' =>
      String (if Ascii.eqb c "'"%char then ascii_of_N 34 else c) (replace_quotes s')
  | EmptyString => EmptyString
  end.

(** [extract_trigger_types(chat_history)]. The client check and the call
    come before the [try]; [.strip()], [.replace] and [json.loads] are
    inside it. *)
Definition extract_trigger_types (E : env) (chat_history : list message)
    : result pyval :=
  if negb (openai_client E) then Ok error_openai_not_init
  else
    match trigger_completion E chat_history with
    | Raises e => Raise e
    | Returns None => Ok (PList [])
    | Returns (Some text) =>
        match json_loads E (replace_quotes (strip text)) with
        | Some trigger_list => Ok trigger_list
        | None => Ok (PList [])
        end
    end.

(** [decide_reappraisal_subtype(chat_history)]: no [try] at all. *)
Definition decide_reappraisal_subtype (E : env) (chat_history : list message)
    : result pyval :=
  if negb (openai_client E) then Ok error_openai_not_init
  else
    match subtype_completion E chat_history with
    | Raises e => Raise e
    | Returns None => Raise AttributeError
    | Returns (Some text) => Ok (PStr (strip text))
    end.

(** ** The strategy decision engine *)

(** The dictionary [strategies] built at the top of [decide_strategy]. *)
Definition strategies (primary_emotion : pyval) : gmap string instruction :=
  <["Attentional Deployment" := AttentionalDeploymentPrompt primary_emotion]>
  (<["Situation Modification" := SituationModificationPrompt]>
  (<["Agency Cognitive Change" := AgencyCognitiveChangePrompt]>
  (<["Positive Cognitive Change" := PositiveCognitiveChangePrompt]>
  (<["Response Modulation" := ResponseModulationPrompt primary_emotion]>
  (<["Situation Selection" := SituationSelectionPrompt]> ∅))))).

(** [d[k]]: [KeyError] for a hashable key that is absent, [TypeError] for
    an unhashable one. *)
Definition dict_getitem (d : gmap string instruction) (k : pyval)
    : result instruction :=
  if negb (py_hashable k) then Raise TypeError
  else
    match k with
    | PStr s => match d !! s with Some v => Ok v | None => Raise KeyError end
    | _ => Raise KeyError
    end.

(** "Map emotion to basic category", lines 606-624. *)
Definition base_category (primary_emotion : pyval) : string :=
  if py_in primary_emotion ["rage"; "anger"; "annoyance"] then "anger"
  else if py_in primary_emotion ["vigilance"; "anticipation"; "interest"] then "anticipation"
  else if py_in primary_emotion ["ecstasy"; "joy"; "serenity"] then "joy"
  else if py_in primary_emotion ["admiration"; "trust"; "acceptance"] then "trust"
  else if py_in primary_emotion ["terror"; "fear"; "apprehension"; "shame"; "guilt"] then "fear"
  else if py_in primary_emotion ["amazement"; "surprise"; "distraction"] then "surprise"
  else if py_in primary_emotion ["grief"; "sadness"; "pensiveness"] then "sadness"
  else if py_in primary_emotion ["loathing"; "disgust"; "boredom"] then "disgust"
  else "neutral".

(** "Choose first and second strategies", lines 625-637. *)
Definition choose_strategies (E : env) (base : string)
    (chat_history : list message) : result (pyval * pyval) :=
  if existsb (String.eqb base) ["fear"; "surprise"; "sadness"; "anger"] then
    second ← decide_reappraisal_subtype E chat_history;
    mret (PStr "Attentional Deployment", second)
  else if existsb (String.eqb base) ["joy"; "trust"] then
    mret (PStr "Attentional Deployment", PStr "Response Modulation")
  else if String.eqb base "disgust" then
    second ← decide_reappraisal_subtype E chat_history;
    mret (PStr "Situation Modification", second)
  else
    second ← decide_reappraisal_subtype E chat_history;
    mret (PStr "Attentional Deployment", second).

(** [decide_strategy(primary_emotion, primary_trigger, chat_history)].
    The last line is
    [return first, strategies[first], second, strategies.get(second, strategies[second])]:
    the default argument [strategies[second]] is evaluated before [get]
    is called. *)
Definition decide_strategy (E : env) (primary_emotion primary_trigger : pyval)
    (chat_history : list message)
    : result (pyval * instruction * pyval * instruction) :=
  let strategies := strategies primary_emotion in
  let base := base_category primary_emotion in
  '(first, second) ← choose_strategies E base chat_history;
  first_prompt ← dict_getitem strategies first;
  fallback ← dict_getitem strategies second;
  let second_prompt :=
    match second with
    | PStr s => default fallback (strategies !! s)
    | _ => fallback
    end in
  mret (first, first_prompt, second, second_prompt).

(** [context_builder(chat_history, primary_emotion, primary_trigger,
    first_strategy, second_strategy, phase)] for the four phase tags [chat]
    passes. The call to Gemini is not inside any [try]. *)
Definition context_builder (E : env) (chat_history : list message)
    (primary_emotion primary_trigger first_strategy second_strategy : pyval)
    (phase : phase_tag) : result string :=
  if negb (gemini_client E) then Ok "Error: Gemini model not initialized."
  else
    match generate_content E phase chat_history primary_emotion primary_trigger
            first_strategy second_strategy with
    | Raises e => Raise e
    | Returns summary => Ok summary
    end.

(** ** The table of interventions *)

(** What is written to the column [triggers]: a joined text, or [str(v)]. *)
Inductive rendered : Type :=
  | Plain (s : string)
  | Repr (v : pyval).

(** A row of [Intervention], with the columns [chat] reads or writes. The
    float statistic [avg_user_input_length_words], written together with
    [chat_transcript] at the last exit, is computed from the rendered texts
    and is not kept. Columns hold [None], [PNone] or [PyNone] for NULL. *)
Record Intervention : Type := {
  conversation_start_time : option Z;
  current_phase : option string;
  insert_system_prompt : option string;
  summary_phase1 : option string;
  emotion_before : pyval;
  triggers : option rendered;
  primary_trigger : pyval;
  first_strategy : pyval;
  second_strategy : pyval;
  phase2a_start_time : option Z;
  phase2_prompt : content;
  phase2b_prompt : content;
  summary_phase2a : option string;
  emotion_after_phase2a : pyval;
  phase2b_start_time : option Z;
  phase3_start_time : option Z;
  summary_phase2b : option string;
  phase3_prompt : content;
  emotion_after_phase2b : pyval;
  summary_phase3 : option string;
  emotion_after_phase3 : pyval;
  conversation_end_time : option Z;
  conversation_duration_seconds : option Z;
  chat_transcript : option (list message)
}.

(** The table, keyed by (participant id, intervention id). *)
Abbreviation store := (gmap (string * Z) Intervention).

(** [Intervention(participant_id=..., intervention_id=...,
    conversation_start_time=..., current_phase=..., insert_system_prompt=...)]:
    every other column is NULL. *)
Definition new_intervention (start : Z) (phase marker : option string)
    : Intervention :=
  {| conversation_start_time := Some start;
     current_phase := phase;
     insert_system_prompt := marker;
     summary_phase1 := None; emotion_before := PNone; triggers := None;
     primary_trigger := PNone; first_strategy := PNone; second_strategy := PNone;
     phase2a_start_time := None; phase2_prompt := PyNone; phase2b_prompt := PyNone;
     summary_phase2a := None; emotion_after_phase2a := PNone;
     phase2b_start_time := None; phase3_start_time := None;
     summary_phase2b := None; phase3_prompt := PyNone;
     emotion_after_phase2b := PNone; summary_phase3 := None;
     emotion_after_phase3 := PNone; conversation_end_time := None;
     conversation_duration_seconds := None; chat_transcript := None |}.

(** [row.insert_system_prompt = marker] *)
Definition set_insert_system_prompt (marker : string) (row : Intervention)
    : Intervention :=
  {| conversation_start_time := conversation_start_time row;
     current_phase := current_phase row;
     insert_system_prompt := Some marker;
     summary_phase1 := summary_phase1 row; emotion_before := emotion_before row;
     triggers := triggers row; primary_trigger := primary_trigger row;
     first_strategy := first_strategy row; second_strategy := second_strategy row;
     phase2a_start_time := phase2a_start_time row;
     phase2_prompt := phase2_prompt row; phase2b_prompt := phase2b_prompt row;
     summary_phase2a := summary_phase2a row;
     emotion_after_phase2a := emotion_after_phase2a row;
     phase2b_start_time := phase2b_start_time row;
     phase3_start_time := phase3_start_time row;
     summary_phase2b := summary_phase2b row; phase3_prompt := phase3_prompt row;
     emotion_after_phase2b := emotion_after_phase2b row;
     summary_phase3 := summary_phase3 row;
     emotion_after_phase3 := emotion_after_phase3 row;
     conversation_end_time := conversation_end_time row;
     conversation_duration_seconds := conversation_duration_seconds row;
     chat_transcript := chat_transcript row |}.

(** The assignments of lines 1191-1200. *)
Definition update_phase1 (E : env) (summary1 : string)
    (primary_emotion : pyval) (joined : rendered)
    (primary_trigger first_strat second_strat : pyval) (row : Intervention)
    : Intervention :=
  {| conversation_start_time := conversation_start_time row;
     current_phase := Some "2a";
     insert_system_prompt := Some "phase2a";
     summary_phase1 := Some summary1; emotion_before := primary_emotion;
     triggers := Some joined; primary_trigger := primary_trigger;
     first_strategy := first_strat; second_strategy := second_strat;
     phase2a_start_time := Some (now E);
     phase2_prompt := phase2_prompt row; phase2b_prompt := phase2b_prompt row;
     summary_phase2a := summary_phase2a row;
     emotion_after_phase2a := emotion_after_phase2a row;
     phase2b_start_time := phase2b_start_time row;
     phase3_start_time := phase3_start_time row;
     summary_phase2b := summary_phase2b row; phase3_prompt := phase3_prompt row;
     emotion_after_phase2b := emotion_after_phase2b row;
     summary_phase3 := summary_phase3 row;
     emotion_after_phase3 := emotion_after_phase3 row;
     conversation_end_time := conversation_end_time row;
     conversation_duration_seconds := conversation_duration_seconds row;
     chat_transcript := chat_transcript row |}.

(** The assignments of lines 1244-1245. *)
Definition store_prompts (phase2 phase2b : content) (row : Intervention)
    : Intervention :=
  {| conversation_start_time := conversation_start_time row;
     current_phase := current_phase row;
     insert_system_prompt := insert_system_prompt row;
     summary_phase1 := summary_phase1 row; emotion_before := emotion_before row;
     triggers := triggers row; primary_trigger := primary_trigger row;
     first_strategy := first_strategy row; second_strategy := second_strategy row;
     phase2a_start_time := phase2a_start_time row;
     phase2_prompt := phase2; phase2b_prompt := phase2b;
     summary_phase2a := summary_phase2a row;
     emotion_after_phase2a := emotion_after_phase2a row;
     phase2b_start_time := phase2b_start_time row;
     phase3_start_time := phase3_start_time row;
     summary_phase2b := summary_phase2b row; phase3_prompt := phase3_prompt row;
     emotion_after_phase2b := emotion_after_phase2b row;
     summary_phase3 := summary_phase3 row;
     emotion_after_phase3 := emotion_after_phase3 row;
     conversation_end_time := conversation_end_time row;
     conversation_duration_seconds := conversation_duration_seconds row;
     chat_transcript := chat_transcript row |}.

(** The assignments of lines 1292-1297. *)
Definition update_phase2a (E : env) (summary2a : string)
    (emotion_after_p2a : pyval) (row : Intervention) : Intervention :=
  {| conversation_start_time := conversation_start_time row;
     current_phase := Some "2b";
     insert_system_prompt := Some "phase2b";
     summary_phase1 := summary_phase1 row; emotion_before := emotion_before row;
     triggers := triggers row; primary_trigger := primary_trigger row;
     first_strategy := first_strategy row; second_strategy := second_strategy row;
     phase2a_start_time := phase2a_start_time row;
     phase2_prompt := phase2_prompt row; phase2b_prompt := phase2b_prompt row;
     summary_phase2a := Some summary2a;
     emotion_after_phase2a := emotion_after_p2a;
     phase2b_start_time := Some (now E);
     phase3_start_time := phase3_start_time row;
     summary_phase2b := summary_phase2b row; phase3_prompt := phase3_prompt row;
     emotion_after_phase2b := emotion_after_phase2b row;
     summary_phase3 := summary_phase3 row;
     emotion_after_phase3 := emotion_after_phase3 row;
     conversation_end_time := conversation_end_time row;
     conversation_duration_seconds := conversation_duration_seconds row;
     chat_transcript := chat_transcript row |}.

(** The assignments of lines 1371-1377. *)
Definition update_phase2b (E : env) (summary2b : string)
    (emotion_after_p2b : pyval) (row : Intervention) : Intervention :=
  {| conversation_start_time := conversation_start_time row;
     current_phase := Some "3";
     insert_system_prompt := Some "phase3";
     summary_phase1 := summary_phase1 row; emotion_before := emotion_before row;
     triggers := triggers row; primary_trigger := primary_trigger row;
     first_strategy := first_strategy row; second_strategy := second_strategy row;
     phase2a_start_time := phase2a_start_time row;
     phase2_prompt := phase2_prompt row; phase2b_prompt := phase2b_prompt row;
     summary_phase2a := summary_phase2a row;
     emotion_after_phase2a := emotion_after_phase2a row;
     phase2b_start_time := phase2b_start_time row;
     phase3_start_time := Some (now E);
     summary_phase2b := Some summary2b; phase3_prompt := Phase3SystemPrompt;
     emotion_after_phase2b := emotion_after_p2b;
     summary_phase3 := summary_phase3 row;
     emotion_after_phase3 := emotion_after_phase3 row;
     conversation_end_time := conversation_end_time row;
     conversation_duration_seconds := conversation_duration_seconds row;
     chat_transcript := chat_transcript row |}.

(** The assignments of lines 1412-1427. *)
Definition update_phase3 (E : env) (summary3 : string)
    (emotion_after_p3 : pyval) (duration : option Z)
    (transcript : list message) (row : Intervention) : Intervention :=
  {| conversation_start_time := conversation_start_time row;
     current_phase := Some "4";
     insert_system_prompt := insert_system_prompt row;
     summary_phase1 := summary_phase1 row; emotion_before := emotion_before row;
     triggers := triggers row; primary_trigger := primary_trigger row;
     first_strategy := first_strategy row; second_strategy := second_strategy row;
     phase2a_start_time := phase2a_start_time row;
     phase2_prompt := phase2_prompt row; phase2b_prompt := phase2b_prompt row;
     summary_phase2a := summary_phase2a row;
     emotion_after_phase2a := emotion_after_phase2a row;
     phase2b_start_time := phase2b_start_time row;
     phase3_start_time := phase3_start_time row;
     summary_phase2b := summary_phase2b row; phase3_prompt := phase3_prompt row;
     emotion_after_phase2b := emotion_after_phase2b row;
     summary_phase3 := Some summary3;
     emotion_after_phase3 := emotion_after_p3;
     conversation_end_time := Some (now E);
     conversation_duration_seconds := duration;
     chat_transcript := Some transcript |}.

(** [func.max(Intervention.intervention_id)] over the rows of a
    participant; [None] when there is none. *)
Definition max_intervention_id (db : store) (participant_id : string)
    : option Z :=
  foldr (fun (kv : string * Z * Intervention) acc =>
           if decide (kv.1.1 = participant_id)
           then Some (match acc with Some m => Z.max m kv.1.2 | None => kv.1.2 end)
           else acc)
        None (map_to_list db).

(** [try: db_session.commit() except: db_session.rollback()] with the
    pending changes [row] of the one row the session holds. After a
    rollback the object is expired and reads the stored row again. *)
Definition commit_or_rollback (E : env) (site : commit_site) (db : store)
    (key : string * Z) (row : Intervention) : store * Intervention :=
  if commit_ok E site then (<[key := row]> db, row)
  else (db, default row (db !! key)).

(** ** The request handler [chat] *)

(** The JSON body of a request: the keys ['message'], ['history'],
    ['participant_id'], ['is_new_session'] and ['intervention_id']. A
    missing participant id is the empty string and a missing intervention
    id is [0], the values Python finds falsy. *)
Record request : Type := Request {
  req_message : string;
  req_history : list message;
  req_participant_id : string;
  req_is_new_session : bool;
  req_intervention_id : Z
}.

(** The answers of [chat], by the [return] that produces them. *)
Inductive response : Type :=
  | BadRequest (error : string)
  | ExitReply (bot_response : list string) (history : list message)
      (participant_id : string) (intervention_id : Z)
  | ClientNotInitialized (bot_response : list string) (history : list message)
      (participant_id : string) (intervention_id : Z)
  | ContinueReply (bot_response : list string) (history : list message)
      (participant_id : string) (intervention_id : Z)
  | CompletionFailed (reply : string) (history : list message)
      (participant_id : string) (intervention_id : Z)
  | ServerShuttingDown
  | UnhandledError (details : exn) (participant_id : string).

(** The HTTP status of each answer. *)
Definition status (r : response) : Z :=
  match r with
  | BadRequest _ => 400
  | ClientNotInitialized _ _ _ _ | UnhandledError _ _ => 500
  | _ => 200
  end.

Definition lost_my_place : string :=
  "I seem to have lost my place in our conversation. Could we try starting this section again?".

Definition doing_great : string :=
  "You're doing great! Ready to get into the next strategy?".

Definition sorry_issue : string :=
  "Sorry, I encountered an issue trying to process that.".

(** [triggers[0] if triggers else "unknown"] *)
Definition first_trigger (triggers : pyval) : result pyval :=
  if negb (py_truthy triggers) then Ok (PStr "unknown")
  else
    match triggers with
    | PList (x :: _) | PTuple (x :: _) => Ok x
    | PStr (String c _) => Ok (PStr (String c EmptyString))
    | PDict _ => Raise KeyError
    | _ => Raise TypeError
    end.

Fixpoint all_strings (l : list pyval) : option (list string) :=
  match l with
  | [] => Some []
  | PStr s :: l' => option_map (cons s) (all_strings l')
  | _ => None
  end.

(** [", ".join(triggers) if isinstance(triggers, list) else str(triggers)] *)
Definition join_triggers (triggers : pyval) : result rendered :=
  match triggers with
  | PList l =>
      match all_strings l with
      | Some ss => Ok (Plain (String.concat ", " ss))
      | None => Raise TypeError
      end
  | v => Ok (Repr v)
  end.

(** [l.insert(-1, x)]: before the last element. *)
Fixpoint insert_before_last {A : Type} (x : A) (l : list A) : list A :=
  match l with
  | [] => [x]
  | [y] => [x; y]
  | y :: l' => y :: insert_before_last x l'
  end.

Definition is_system (m : message) : bool := String.eqb (role m) "system".

(** The loop of lines 1530-1540 (and 1649-1659): on the first system
    message the prompt is inserted at index 0, and when there is none it is
    inserted at index 0 as well. *)
Definition insert_prompt (prompt : content) (api : list message)
    : list message :=
  if existsb is_system api then system prompt :: api
  else system prompt :: api.

(** [api[i] = {"role": "system", "content": prompt}] at the first [i] whose
    message is a system message. *)
Fixpoint replace_first_system (prompt : content) (api : list message)
    : list message :=
  match api with
  | [] => []
  | m :: api' =>
      if is_system m then system prompt :: api'
      else m :: replace_first_system prompt api'
  end.

(** The loop of lines 1593-1603: the first system message is replaced, and
    when there is none the prompt is inserted at index 0. *)
Definition replace_prompt (prompt : content) (api : list message)
    : list message :=
  if existsb is_system api then replace_first_system prompt api
  else system prompt :: api.

Definition newline : ascii := ascii_of_N 10.

(** [s.split(sep)] for a non-empty separator. [skip] counts the characters
    of a separator just found that are still to be dropped. *)
Fixpoint split_go (sep : string) (skip : nat) (piece : string) (s : string)
    : list string :=
  match s with
  | EmptyString => [piece]
  | String c s' =>
      match skip with
      | S k => split_go sep k piece s'
      | O =>
          if String.prefix sep s
          then piece :: split_go sep (String.length sep - 1) EmptyString s'
          else split_go sep 0 (piece +:+ String c EmptyString) s'
      end
  end.

Definition split (sep s : string) : list string := split_go sep 0 EmptyString s.

(** The non-empty stripped chunks of a split. *)
Definition stripped_chunks (chunks : list string) : list string :=
  List.filter (fun c => negb (String.eqb c "")) (map strip chunks).

(** "Split long messages into chunks", lines 1689-1705. *)
Definition message_chunks (bot_reply : string) : list string :=
  let paragraph := String newline (String newline EmptyString) in
  let line := String newline EmptyString in
  let chunks :=
    if (1 <? length (split paragraph bot_reply))%nat
    then stripped_chunks (split paragraph bot_reply)
    else if ((3 <? length (split line bot_reply))%nat
             || (200 <? String.length bot_reply)%nat)
    then stripped_chunks (split line bot_reply)
    else [] in
  match chunks with [] => [bot_reply] | _ => chunks end.

(** The exit of phase "1", lines 1177-1262. *)
Definition exit_phase1 (E : env) (db : store) (key : string * Z)
    (row : Intervention) (api to_send : list message)
    : store * result response :=
  let prefix :=
    triggers ← extract_trigger_types E api;
    primary_trigger ← first_trigger triggers;
    '(primary_emotion, confidence) ← identify_emotion_plutchik E api;
    '(first_strat, first_prompt, second_strat, second_prompt) ←
      decide_strategy E primary_emotion primary_trigger api;
    summary1 ← context_builder E api primary_emotion primary_trigger
                 first_strat second_strat Tag1;
    mret (triggers, primary_trigger, primary_emotion,
          (first_strat, first_prompt, second_strat, second_prompt), summary1) in
  match prefix with
  | Raise e => (db, Raise e)
  | Ok (triggers, primary_trigger, primary_emotion,
        (first_strat, first_prompt, second_strat, second_prompt), summary1) =>
      let '(db1, row1) :=
        match join_triggers triggers with
        | Ok joined =>
            commit_or_rollback E CommitExit db key
              (update_phase1 E summary1 primary_emotion joined primary_trigger
                 first_strat second_strat row)
        | Raise _ => (db, default row (db !! key))
        end in
      let bot_reply := summary1 in
      let phase2_system_prompt_content :=
        Phase2SystemPrompt primary_emotion primary_trigger first_strat first_prompt in
      let phase2b_system_prompt_content :=
        Phase2bSystemPrompt primary_emotion primary_trigger second_strat second_prompt in
      let to_send := to_send ++ [assistant bot_reply] in
      let row2 :=
        store_prompts phase2_system_prompt_content phase2b_system_prompt_content row1 in
      let db2 := if commit_ok E CommitPrompts then <[key := row2]> db1 else db1 in
      (db2, Ok (ExitReply [bot_reply] to_send key.1 key.2))
  end.

(** The exit of phase "2a", lines 1266-1303. *)
Definition exit_phase2a (E : env) (db : store) (key : string * Z)
    (row : Intervention) (api to_send : list message)
    : store * result response :=
  match context_builder E api (emotion_before row) (primary_trigger row)
          (first_strategy row) (second_strategy row) Tag2a with
  | Raise e => (db, Raise e)
  | Ok summary2a =>
      let bot_reply := doing_great in
      let api := api ++ [system (phase2b_prompt row)] in
      let to_send := to_send ++ [assistant bot_reply] in
      match identify_emotion_plutchik E api with
      | Raise e => (db, Raise e)
      | Ok (emotion_after_p2a, _) =>
          let '(db1, _) :=
            commit_or_rollback E CommitExit db key
              (update_phase2a E summary2a emotion_after_p2a row) in
          (db1, Ok (ExitReply [bot_reply] to_send key.1 key.2))
      end
  end.

(** The exit of phase "2b", lines 1305-1383. *)
Definition exit_phase2b (E : env) (db : store) (key : string * Z)
    (row : Intervention) (api to_send : list message)
    : store * result response :=
  match context_builder E api (emotion_before row) (primary_trigger row)
          (first_strategy row) (second_strategy row) Tag2b with
  | Raise e => (db, Raise e)
  | Ok summary2b =>
      let bot_reply := summary2b in
      let api := api ++ [system Phase3SystemPrompt] in
      let to_send := to_send ++ [assistant bot_reply] in
      match identify_emotion_plutchik E api with
      | Raise e => (db, Raise e)
      | Ok (emotion_after_p2b, _) =>
          let '(db1, _) :=
            commit_or_rollback E CommitExit db key
              (update_phase2b E summary2b emotion_after_p2b row) in
          (db1, Ok (ExitReply [bot_reply] to_send key.1 key.2))
      end
  end.

(** The exit of phase "3", lines 1385-1450. *)
Definition exit_phase3 (E : env) (db : store) (key : string * Z)
    (row : Intervention) (api to_send : list message)
    : store * result response :=
  match context_builder E api (emotion_before row) (primary_trigger row)
          (first_strategy row) (second_strategy row) Tag3 with
  | Raise e => (db, Raise e)
  | Ok summary3 =>
      let bot_reply := summary3 in
      let to_send := insert_before_last (system SessionEndSystemPrompt) to_send in
      let to_send := to_send ++ [assistant bot_reply] in
      match identify_emotion_plutchik E api with
      | Raise e => (db, Raise e)
      | Ok (emotion_after_p3, _) =>
          let duration :=
            match conversation_start_time row with
            | Some start =>
                if stored_times_naive E then Ok (Some (now E - start)%Z)
                else Raise TypeError
            | None => Ok None
            end in
          match duration with
          | Raise e => (db, Raise e)
          | Ok duration =>
              let '(db1, _) :=
                commit_or_rollback E CommitExit db key
                  (update_phase3 E summary3 emotion_after_p3 duration to_send row) in
              if werkzeug_shutdown E then (db1, Ok ServerShuttingDown)
              else (db1, Raise RuntimeError)
          end
      end
  end.

(** The [if is_endphase_command(user_message)] branch, lines 1172-1467. *)
Definition end_phase (E : env) (db : store) (key : string * Z)
    (row : Intervention) (api to_send : list message)
    : store * result response :=
  let current_phase := current_phase row in
  if decide (current_phase = Some "1") then exit_phase1 E db key row api to_send
  else if decide (current_phase = Some "2a") then exit_phase2a E db key row api to_send
  else if decide (current_phase = Some "2b") then exit_phase2b E db key row api to_send
  else if decide (current_phase = Some "3") then exit_phase3 E db key row api to_send
  else
    let bot_reply := lost_my_place in
    (db, Ok (ExitReply [bot_reply] (to_send ++ [assistant bot_reply]) key.1 key.2)).

(** The pending system prompt of a turn that is not a command, lines
    1491-1673. The columns [phase2_prompt], [phase2b_prompt] and
    [phase3_prompt] are taken to be declared by the table, so that the
    [hasattr] tests succeed. *)
Definition pending_prompt (E : env) (db : store) (key : string * Z)
    (row : Intervention) (insert_system_prompt : option string)
    (api : list message) : store * list message :=
  if decide (insert_system_prompt = Some "phase2a") then
    let api := if content_truthy (phase2_prompt row)
               then insert_prompt (phase2_prompt row) api else api in
    let '(db1, _) :=
      commit_or_rollback E CommitContinueMarker db key
        (set_insert_system_prompt "phase2a" row) in
    (db1, api)
  else if decide (insert_system_prompt = Some "phase2b") then
    let api := if content_truthy (phase2b_prompt row)
               then replace_prompt (phase2b_prompt row) api else api in
    (db, api)
  else if decide (insert_system_prompt = Some "phase3") then
    let api := if content_truthy (phase3_prompt row)
               then insert_prompt (phase3_prompt row) api else api in
    let '(db1, _) :=
      commit_or_rollback E CommitContinueMarker db key
        (set_insert_system_prompt "phase3" row) in
    (db1, api)
  else (db, api).

(** The conversation that a turn that is not a command sends to the reply
    model. *)
Definition outgoing_request (E : env) (db : store) (key : string * Z)
    (row : Intervention) (insert_system_prompt : option string)
    (api : list message) : list message :=
  snd (pending_prompt E db key row insert_system_prompt api).

(** The answer built from what the reply model did, lines 1677-1739: the
    stripped reply in chunks, or the apology of the [except] branch. *)
Definition reply_of (completion : outcome (option string))
    (to_send : list message) (key : string * Z) : response :=
  match completion with
  | Returns (Some text) =>
      let bot_reply := strip text in
      ContinueReply (message_chunks bot_reply)
        (to_send ++ [assistant bot_reply]) key.1 key.2
  | _ =>
      CompletionFailed sorry_issue (to_send ++ [assistant sorry_issue]) key.1 key.2
  end.

(** The last [else] branch of [chat], lines 1488-1739. *)
Definition continue_turn (E : env) (db : store) (key : string * Z)
    (row : Intervention) (insert_system_prompt : option string)
    (api to_send : list message) : store * response :=
  let '(db1, api) := pending_prompt E db key row insert_system_prompt api in
  (db1, reply_of (reply_completion E api) to_send key).

(** "Session & Intervention Handling", lines 1055-1094: the table after it
    and the intervention id of the request, or the answer that ends the
    request there. *)
Definition session_handling (E : env) (db : store) (req : request)
    : response + store * Z :=
  let participant_id := req_participant_id req in
  if req_is_new_session req then
    let last_id := max_intervention_id db participant_id in
    let current_intervention_id := (default 0 last_id + 1)%Z in
    if commit_ok E CommitNewSession then
      inr (<[(participant_id, current_intervention_id) :=
               new_intervention (now E) (Some "1") (Some "initial")]> db,
           current_intervention_id)
    else inl (UnhandledError DBError participant_id)
  else
    let current_intervention_id := req_intervention_id req in
    if (current_intervention_id =? 0)%Z then
      inl (BadRequest "'intervention_id' is required for an ongoing session.")
    else
      match db !! (participant_id, current_intervention_id) with
      | Some _ => inr (db, current_intervention_id)
      | None =>
          if commit_ok E CommitRecovery then
            inr (<[(participant_id, current_intervention_id) :=
                     new_intervention (now E) (default_current_phase E)
                       (default_insert_system_prompt E)]> db,
                 current_intervention_id)
          else inl (UnhandledError DBError participant_id)
      end.

(** The system prompt that opens the conversation for the model when the
    marker reads "initial", lines 1113-1156. *)
Definition initial_prefix (E : env) (row : Intervention) : list message :=
  if decide (insert_system_prompt row = Some "initial")
  then [system (InitialSystemPrompt (latest_heart_rate E))]
  else [].

(** The rest of the block, lines 1157-1164: the marker is written again
    with the same value and committed. *)
Definition initial_block (E : env) (db : store) (key : string * Z)
    (row : Intervention) : store * Intervention :=
  if decide (insert_system_prompt row = Some "initial") then
    commit_or_rollback E CommitInitialMarker db key
      (set_insert_system_prompt "initial" row)
  else (db, row).

(** The three-way branch of lines 1172, 1469 and 1488: an end-of-phase
    command, a missing OpenAI client, or an ordinary turn. What is raised
    in the first branch reaches the outer [except] of [chat]. *)
Definition dispatch (E : env) (db : store) (key : string * Z)
    (row : Intervention) (insert_system_prompt : option string)
    (api to_send : list message) (user_message : string) : store * response :=
  if is_endphase_command_default user_message then
    match end_phase E db key row api to_send with
    | (db, Ok resp) => (db, resp)
    | (db, Raise e) => (db, UnhandledError e key.1)
    end
  else if negb (openai_client E) then
    (db, ClientNotInitialized ["Error: OpenAI client not initialized."]
           (to_send ++ [assistant "Error: OpenAI client not initialized."])
           key.1 key.2)
  else continue_turn E db key row insert_system_prompt api to_send.

(** [chat()]: the table before the request and the request give the table
    after it and the answer. Whatever is raised and not caught inside
    reaches the outer [except], which rolls back what is not committed and
    answers with status 500. Queries of the table are taken not to raise;
    commits raise where the environment says so. *)
Definition chat (E : env) (db : store) (req : request) : store * response :=
  let user_message := req_message req in
  let chat_history_from_client := req_history req in
  let participant_id := req_participant_id req in
  if String.eqb participant_id "" then
    (db, BadRequest "Participant ID is required.")
  else
    match session_handling E db req with
    | inl resp => (db, resp)
    | inr (db, current_intervention_id) =>
        let key := (participant_id, current_intervention_id) in
        let chat_history_to_send := chat_history_from_client ++ [user user_message] in
        match db !! key with
        | None => (db, UnhandledError AttributeError participant_id)
        | Some intervention_record =>
            let insert_system_prompt := insert_system_prompt intervention_record in
            let current_history_for_api :=
              initial_prefix E intervention_record
                ++ chat_history_from_client ++ [user user_message] in
            let '(db, intervention_record) :=
              initial_block E db key intervention_record in
            dispatch E db key intervention_record insert_system_prompt
              current_history_for_api chat_history_to_send user_message
        end
    end.

(** The table after a request, and after a sequence of requests each
    served in its own environment, by one run of the server or, after a
    shutdown, by the next. *)
Definition chat_store (E : env) (db : store) (req : request) : store :=
  fst (chat E db req).

Fixpoint serve (db : store) (reqs : list (env * request)) : store :=
  match reqs with
  | [] => db
  | (E, req) :: reqs' => serve (chat_store E db req) reqs'
  end.

(** ** The order of the phases *)

(** The code values of the five phases, in order. *)
Definition phases : list string := ["1"; "2a"; "2b"; "3"; "4"].

(** The phase written by the exit of each phase: the [current_phase]
    assigned in the branch of that phase. *)
Definition next_phase (phase : option string) : option string :=
  if decide (phase = Some "1") then Some "2a"
  else if decide (phase = Some "2a") then Some "2b"
  else if decide (phase = Some "2b") then Some "3"
  else if decide (phase = Some "3") then Some "4"
  else phase.

(** The position of a code value in the order; values outside it have
    none. *)
Definition phase_rank (phase : option string) : option nat :=
  match phase with
  | Some p =>
      if String.eqb p "1" then Some 0%nat
      else if String.eqb p "2a" then Some 1%nat
      else if String.eqb p "2b" then Some 2%nat
      else if String.eqb p "3" then Some 3%nat
      else if String.eqb p "4" then Some 4%nat
      else None
  | None => None
  end.

(** ** What a request can write to its row *)

(** The rows an end-of-phase command can leave in the table in place of
    [row]: [row] itself, or the result of the assignments of one exit
    branch, each committed from the phase of that branch only. *)
Inductive exit_write (E : env) (row : Intervention) : Intervention -> Prop :=
  | write_nothing : exit_write E row row
  | write_phase1 summary1 emotion joined trigger first second :
      current_phase row = Some "1" ->
      exit_write E row
        (update_phase1 E summary1 emotion joined trigger first second row)
  | write_phase1_prompts summary1 emotion joined trigger first second p2 p2b :
      current_phase row = Some "1" ->
      exit_write E row
        (store_prompts p2 p2b
           (update_phase1 E summary1 emotion joined trigger first second row))
  | write_prompts p2 p2b :
      current_phase row = Some "1" ->
      exit_write E row (store_prompts p2 p2b row)
  | write_phase2a summary2a emotion :
      current_phase row = Some "2a" ->
      exit_write E row (update_phase2a E summary2a emotion row)
  | write_phase2b summary2b emotion :
      current_phase row = Some "2b" ->
      exit_write E row (update_phase2b E summary2b emotion row)
  | write_phase3 summary3 emotion duration transcript :
      current_phase row = Some "3" ->
      exit_write E row (update_phase3 E summary3 emotion duration transcript row).

(** Nothing stands in the way of an exit: the classifier and the summary
    generator answer, the triggers are a list of texts, the sub-decision
    answers a key of the template table, the exit commit succeeds and the
    duration can be computed. *)
Record exits_succeed (E : env) : Prop := {
  emotion_answers :
    forall h, exists emotion confidence,
      identify_emotion_plutchik E h = Ok (emotion, confidence);
  triggers_answer :
    forall h, exists l ss,
      extract_trigger_types E h = Ok (PList l) /\ all_strings l = Some ss;
  subtype_answers :
    forall h, exists key,
      decide_reappraisal_subtype E h = Ok (PStr key) /\
      In key ["Attentional Deployment"; "Situation Modification";
              "Agency Cognitive Change"; "Positive Cognitive Change";
              "Response Modulation"; "Situation Selection"];
  summary_answers :
    forall tag h e t f s, exists summary,
      context_builder E h e t f s tag = Ok summary;
  exit_commits : commit_ok E CommitExit = true;
  times_naive : stored_times_naive E = true
}.

(** The recorded emotion of the exit of each phase: the column the exit
    writes the classified emotion to. *)
Definition emotion_snapshot (phase : option string) (row : Intervention)
    : pyval :=
  if decide (phase = Some "1") then emotion_before row
  else if decide (phase = Some "2a") then emotion_after_phase2a row
  else if decide (phase = Some "2b") then emotion_after_phase2b row
  else emotion_after_phase3 row.

(** ** Definitions written from the specification *)

(** The strategy selection table of the specification (section 4.2, step
    2), written from its rows: the pair of strategy ids for a coarse
    category and the result of the reappraisal-subtype decision. *)
Definition spec_strategy_table (category : string) (subtype : pyval)
    : pyval * pyval :=
  if existsb (String.eqb category) ["fear"; "surprise"; "sadness"; "anger"]
  then (PStr "Attentional Deployment", subtype)
  else if existsb (String.eqb category) ["joy"; "trust"]
  then (PStr "Attentional Deployment", PStr "Response Modulation")
  else if String.eqb category "disgust"
  then (PStr "Situation Modification", subtype)
  else (PStr "Attentional Deployment", subtype).

(** The nine coarse categories of the specification. *)
Definition coarse_categories : list string :=
  ["anger"; "anticipation"; "joy"; "trust"; "fear"; "surprise"; "sadness";
   "disgust"; "neutral"].

(** The fine-grained labels the classifier is told to answer with, each
    with its category, as the prompt of [identify_emotion_plutchik] lists
    them (lines 181-189). *)
Definition plutchik_labels : list (string * string) :=
  [("rage", "anger"); ("anger", "anger"); ("annoyance", "anger");
   ("vigilance", "anticipation"); ("anticipation", "anticipation");
   ("interest", "anticipation");
   ("ecstasy", "joy"); ("joy", "joy"); ("serenity", "joy");
   ("admiration", "trust"); ("trust", "trust"); ("acceptance", "trust");
   ("terror", "fear"); ("fear", "fear"); ("apprehension", "fear");
   ("shame", "fear"); ("guilt", "fear");
   ("amazement", "surprise"); ("surprise", "surprise");
   ("distraction", "surprise");
   ("grief", "sadness"); ("sadness", "sadness"); ("pensiveness", "sadness");
   ("loathing", "disgust"); ("disgust", "disgust"); ("boredom", "disgust");
   ("calm", "neutral"); ("neutral", "neutral")].

(** The two labels of the reappraisal-subtype decision. *)
Definition reappraisal_subtypes : list string :=
  ["Agency Cognitive Change"; "Positive Cognitive Change"].

(** [needle in haystack] for two strings. *)
Fixpoint contains (needle haystack : string) : bool :=
  String.prefix needle haystack
  || match haystack with
     | String _ rest => contains needle rest
     | EmptyString => false
     end.

(** ** Environments and tables of the worked examples *)

(** [json.loads] on the two answers the examples use: the text "EMOTION"
    stands for a JSON object naming sadness with confidence 0.9, and the
    text "TRIGGERS" for a JSON list with one trigger; everything else does
    not parse. *)
Definition example_json_loads (text : string) : option pyval :=
  if String.eqb text "EMOTION"
  then Some (PDict [("emotion", PStr "sadness"); ("confidence", PNum (9 # 10))])
  else if String.eqb text "TRIGGERS"
  then Some (PList [PStr "relationship trigger"])
  else None.

(** An environment whose clients are initialised, whose four completions
    and commits are given, whose summaries are the text "SUMMARY", and
    whose table defaults are those of a new session. *)
Definition example_env (emotion trigger subtype : outcome (option string))
    (reply : list message -> outcome (option string))
    (commits : commit_site -> bool) : env :=
  {| openai_client := true;
     gemini_client := true;
     emotion_completion := fun _ => emotion;
     trigger_completion := fun _ => trigger;
     subtype_completion := fun _ => subtype;
     reply_completion := reply;
     generate_content := fun _ _ _ _ _ _ => Returns "SUMMARY";
     json_loads := example_json_loads;
     commit_ok := commits;
     now := 1000;
     latest_heart_rate := Some 72%Z;
     werkzeug_shutdown := true;
     stored_times_naive := true;
     default_current_phase := Some "1";
     default_insert_system_prompt := Some "initial" |}.

(** Every model answers well and every commit succeeds. *)
Definition fair_env : env :=
  example_env (Returns (Some "EMOTION")) (Returns (Some "TRIGGERS"))
    (Returns (Some "Positive Cognitive Change"))
    (fun _ => Returns (Some "REPLY")) (fun _ => true).

(** A table with the one session of participant "P001", in the given phase
    and with the given marker, and with the texts "P2A", "P2B" and "P3" as
    stored prompts. *)
Definition example_row (phase marker : string) : Intervention :=
  store_prompts (Text "P2A") (Text "P2B")
    (new_intervention 0 (Some phase) (Some marker)).

Definition example_db (phase marker : string) : store :=
  {[ ("P001", 1%Z) := example_row phase marker ]}.

Definition example_request (text : string) : request :=
  {| req_message := text; req_history := []; req_participant_id := "P001";
     req_is_new_session := false; req_intervention_id := 1 |}.

(** A reply model that answers with the text of the system message that
    opens the conversation it is sent, and with "NO PROMPT" when the
    conversation does not open with one. *)
Definition reveal_prompt (api : list message) : outcome (option string) :=
  match api with
  | Message "system" (Text prompt) :: _ => Returns (Some prompt)
  | _ => Returns (Some "NO PROMPT")
  end.

(** The commit of an exit fails, every other commit succeeds. *)
Definition exit_commit_fails (site : commit_site) : bool :=
  match site with CommitExit => false | _ => true end.

(** ** What a request addresses and what an answer carries *)

(** The key of the row a request works on: the intervention id computed
    for a new session (lines 1058-1059), or the one the client sent
    (line 1075). *)
Definition session_key (db : store) (req : request) : string * Z :=
  (req_participant_id req,
   if req_is_new_session req
   then (default 0 (max_intervention_id db (req_participant_id req)) + 1)%Z
   else req_intervention_id req).

(** The value under the key ['history'] of an answer, when it has one. *)
Definition response_history (r : response) : option (list message) :=
  match r with
  | ExitReply _ h _ _ | ClientNotInitialized _ h _ _
  | ContinueReply _ h _ _ | CompletionFailed _ h _ _ => Some h
  | _ => None
  end.

(** The columns written by the exit of phase "1" and by nothing else. *)
Definition identification_columns (row : Intervention) :=
  (summary_phase1 row, emotion_before row, triggers row, primary_trigger row,
   first_strategy row, second_strategy row, phase2a_start_time row,
   phase2_prompt row, phase2b_prompt row).

(** A table with two sessions: the one of [example_db] in phase "1", and
    one of participant "P002" in phase "3". *)
Definition two_sessions_db : store :=
  <[("P002", 1%Z) := example_row "3" "phase3"]> (example_db "1" "initial").

(** ** The classification calls of an exit *)

(** [current_history_for_api] when the command is dispatched, lines
    1107-1167: the initial system prompt when the marker asks for it, the
    history of the client and the message of the request. *)
Definition current_history_for_api (E : env) (row : Intervention)
    (req : request) : list message :=
  initial_prefix E row ++ req_history req ++ [user (req_message req)].

(** The history the exit of the phase of [row] passes to
    [identify_emotion_plutchik] (lines 1183, 1293, 1373 and 1413): the
    exits of phases "2a" and "2b" append the system prompt of the next
    phase before the call (lines 1286 and 1365). *)
Definition emotion_call_history (E : env) (row : Intervention)
    (req : request) : list message :=
  let api := current_history_for_api E row req in
  if decide (current_phase row = Some "2a")
  then api ++ [system (phase2b_prompt row)]
  else if decide (current_phase row = Some "2b")
  then api ++ [system Phase3SystemPrompt]
  else api.

(** The emotion call on [chat_history] answers, and [json.loads] raises on
    the answer (a missing content makes it raise as well). *)
Definition emotion_unparseable (E : env) (chat_history : list message) : Prop :=
  exists answer,
    emotion_completion E (tail chat_history) = Returns answer
    /\ forall text, answer = Some text -> json_loads E text = None.

(** The same for the trigger call, whose answer is stripped and has its
    apostrophes replaced before it is parsed. *)
Definition triggers_unparseable (E : env) (chat_history : list message) : Prop :=
  exists answer,
    trigger_completion E chat_history = Returns answer
    /\ forall text, answer = Some text ->
                    json_loads E (replace_quotes (strip text)) = None.

(** The steps of an exit other than the two classification calls succeed:
    the sub-decision answers a key of the template table, the summary
    generator answers, the exit commit succeeds and the duration can be
    computed. *)
Record other_steps_succeed (E : env) : Prop := {
  subtype_step :
    forall h, exists key,
      decide_reappraisal_subtype E h = Ok (PStr key) /\
      In key ["Attentional Deployment"; "Situation Modification";
              "Agency Cognitive Change"; "Positive Cognitive Change";
              "Response Modulation"; "Situation Selection"];
  summary_step :
    forall tag h e t f s, exists summary,
      context_builder E h e t f s tag = Ok summary;
  commit_step : commit_ok E CommitExit = true;
  duration_step : stored_times_naive E = true
}.

(** An environment like [fair_env], over a table whose declaration gives
    the columns [current_phase] and [insert_system_prompt] no default. *)
Definition null_defaults_env : env :=
  {| openai_client := true;
     gemini_client := true;
     emotion_completion := fun _ => Returns (Some "EMOTION");
     trigger_completion := fun _ => Returns (Some "TRIGGERS");
     subtype_completion := fun _ => Returns (Some "Positive Cognitive Change");
     reply_completion := reveal_prompt;
     generate_content := fun _ _ _ _ _ _ => Returns "SUMMARY";
     json_loads := example_json_loads;
     commit_ok := fun _ => true;
     now := 1000;
     latest_heart_rate := None;
     werkzeug_shutdown := true;
     stored_times_naive := true;
     default_current_phase := None;
     default_insert_system_prompt := None |}.

(** * Properties *)

(** ** The work list of the matcher empties *)


Section MatcherTotal.
Context {A : Type} `{EqDecision A}.
Variables a b : list A.

Lemma scan_js_window alo i blo bhi j2len js :
  (alo <= i)%Z ->
  lens_below (i - alo) j2len ->
  forall newj2len best,
    lens_below (i - alo + 1) newj2len ->
    in_window alo (i + 1) best ->
    let r := difflib.scan_js i blo bhi j2len js newj2len best in
    lens_below (i - alo + 1) (fst r) /\ in_window alo (i + 1) (snd r).
Proof.
  intros Hi Hprev. induction js as [|j js IH]; intros newj2len best Hnew Hbest.
  - simpl. auto.
  - simpl. destruct (j <? blo)%Z; [apply IH; assumption|].
    destruct (bhi <=? j)%Z; [simpl; auto|].
    destruct best as [[bi bj] bs].
    assert (Hk : (1 <= default 0 (j2len !! (j - 1)) + 1 <= i - alo + 1)%Z).
    { destruct (j2len !! (j - 1)%Z) as [v|] eqn:E; simpl.
      - apply Hprev in E. lia.
      - lia. }
    apply IH.
    + intros j' v. rewrite lookup_insert. case_decide.
      * intros [= <-]. exact Hk.
      * apply Hnew.
    + destruct (bs <? _)%Z; [|exact Hbest]. simpl. lia.
Qed.

Lemma scan_is_window alo blo bhi n :
  forall i j2len best,
    (alo <= i)%Z ->
    lens_below (i - alo) j2len ->
    in_window alo i best ->
    in_window alo (i + Z.of_nat n) (difflib.scan_is a b n i blo bhi j2len best).
Proof.
  induction n as [|n IH]; intros i j2len best Hi Hprev Hbest.
  - simpl. replace (i + Z.of_nat 0)%Z with i by lia. exact Hbest.
  - cbn [difflib.scan_is].
    set (js := match a !! Z.to_nat i with Some x => difflib.b2j b x | None => [] end).
    assert (Hw : in_window alo (i + 1) best).
    { destruct best as [[bi bj] bs]. simpl in *. lia. }
    assert (He : lens_below (i - alo + 1) (∅ : gmap Z Z)).
    { intros j v. rewrite lookup_empty. discriminate. }
    pose proof (scan_js_window alo i blo bhi j2len js Hi Hprev ∅ best He Hw) as [H1 H2].
    destruct (difflib.scan_js i blo bhi j2len js ∅ best) as [newj2len best'].
    simpl in H1, H2.
    replace (i + Z.of_nat (S n))%Z with ((i + 1) + Z.of_nat n)%Z by lia.
    apply IH; [lia| |exact H2].
    replace (i + 1 - alo)%Z with (i - alo + 1)%Z by lia. exact H1.
Qed.

Lemma find_longest_match_window alo ahi blo bhi :
  let '(i, j, k) := difflib.find_longest_match a b alo ahi blo bhi in
  (0 <= k /\ alo <= i /\ (0 < k -> i + k <= ahi))%Z.
Proof.
  unfold difflib.find_longest_match.
  assert (He : lens_below (alo - alo) (∅ : gmap Z Z)).
  { intros j v. rewrite lookup_empty. discriminate. }
  assert (H0 : in_window alo alo (alo, blo, 0%Z)) by (simpl; lia).
  pose proof (scan_is_window alo blo bhi (Z.to_nat (ahi - alo)) alo ∅ _
                (Z.le_refl alo) He H0) as H.
  destruct (difflib.scan_is a b _ alo blo bhi ∅ _) as [[i j] k].
  simpl in H. lia.
Qed.

Lemma queue_step_decreases q queue blocks :
  total (fst (difflib.queue_step a b (q :: queue) blocks)) < total (q :: queue).
Proof.
  destruct q as [[[alo ahi] blo] bhi]. cbn [difflib.queue_step].
  pose proof (find_longest_match_window alo ahi blo bhi) as Hw.
  destruct (difflib.find_longest_match a b alo ahi blo bhi) as [[i j] k].
  destruct (k =? 0)%Z eqn:Ek.
  - simpl. lia.
  - apply Z.eqb_neq in Ek.
    destruct ((alo <? i) && (blo <? j))%Z, ((i + k <? ahi) && (j + k <? bhi))%Z;
      simpl; lia.
Qed.

Lemma queue_loop_total r :
  forall queue blocks,
    total queue <= r -> fst (difflib.queue_loop a b r queue blocks) = [].
Proof.
  induction r as [|r IH]; intros queue blocks Hle.
  - destruct queue as [|q queue]; [reflexivity|].
    destruct q as [[[alo ahi] blo] bhi]. simpl in Hle. lia.
  - destruct queue as [|q queue]; [reflexivity|].
    cbn [difflib.queue_loop].
    pose proof (queue_step_decreases q queue blocks) as Hd.
    destruct (difflib.queue_step a b (q :: queue) blocks) as [queue' blocks'].
    apply IH. cbn [fst] in Hd. lia.
Qed.

(** The rounds given to [get_matching_blocks] always empty its queue: the
    model of the [while queue] loop never stops early. *)
Lemma queue_loop_exhausts :
  fst (difflib.queue_loop a b (difflib.rounds a)
         [(0%Z, difflib.la a, 0%Z, difflib.lb b)] []) = [].
Proof.
  apply queue_loop_total. unfold difflib.rounds, difflib.la. simpl. lia.
Qed.
End MatcherTotal.

(** ** The command matcher *)




(** ** The strategy decision engine *)

Lemma base_category_coarse e : In (base_category e) coarse_categories.
Proof.
  unfold base_category, coarse_categories.
  repeat match goal with |- context [if ?c then _ else _] => destruct c end;
    simpl; tauto.
Qed.

Lemma decide_reappraisal_subtype_hashable E h v :
  decide_reappraisal_subtype E h = Ok v -> py_hashable v = true.
Proof.
  unfold decide_reappraisal_subtype.
  destruct (openai_client E); simpl.
  - destruct (subtype_completion E h) as [e|[text|]]; try discriminate.
    intros [= <-]. reflexivity.
  - intros [= <-]. reflexivity.
Qed.

(** The engine once the category is known to need the sub-decision and the
    sub-decision has answered [second]. *)
Lemma decide_strategy_with_subtype E e t h second :
  ~ In (base_category e) ["joy"; "trust"] ->
  decide_reappraisal_subtype E h = Ok second ->
  decide_strategy E e t h =
    (let first := fst (spec_strategy_table (base_category e) second) in
     first_prompt ← dict_getitem (strategies e) first;
     fallback ← dict_getitem (strategies e) second;
     mret (first, first_prompt, second,
           match second with
           | PStr s => default fallback (strategies e !! s)
           | _ => fallback
           end)).
Proof.
  intros Hbase Hsub. unfold decide_strategy.
  pose proof (base_category_coarse e) as Hin.
  destruct Hin as [Hb|[Hb|[Hb|[Hb|[Hb|[Hb|[Hb|[Hb|[Hb|[]]]]]]]]]];
    rewrite <- Hb in *; try (exfalso; apply Hbase; simpl; tauto);
    unfold choose_strategies, spec_strategy_table; simpl;
    rewrite Hsub; reflexivity.
Qed.

Lemma decide_strategy_joy_trust E e t h :
  In (base_category e) ["joy"; "trust"] ->
  decide_strategy E e t h =
    Ok (PStr "Attentional Deployment", AttentionalDeploymentPrompt e,
        PStr "Response Modulation", ResponseModulationPrompt e).
Proof.
  intros [Hb|[Hb|[]]]; unfold decide_strategy; rewrite <- Hb;
    unfold choose_strategies; reflexivity.
Qed.

(** C3. The pair of strategy ids is a function of the coarse category and
    of the result of the reappraisal-subtype decision: every label maps to
    one of the nine categories, the listed fine-grained labels to their
    own and every other value to neutral; with a subtype result that is one
    of the two labels the engine returns the pair the table of the
    specification gives (joy and trust need no sub-decision at all). In
    particular sadness with Positive Cognitive Change gives Attentional
    Deployment and Positive Cognitive Change. *)
Theorem decide_strategy_table :
  (forall e, In (base_category e) coarse_categories)
  /\ (forall label category,
        In (label, category) plutchik_labels ->
        base_category (PStr label) = category)
  /\ (forall e,
        (forall label category,
            In (label, category) plutchik_labels -> e <> PStr label) ->
        base_category e = "neutral")
  /\ (forall E e t h subtype,
        In subtype reappraisal_subtypes ->
        decide_reappraisal_subtype E h = Ok (PStr subtype) ->
        exists first second first_prompt second_prompt,
          spec_strategy_table (base_category e) (PStr subtype)
            = (PStr first, PStr second) /\
          strategies e !! first = Some first_prompt /\
          strategies e !! second = Some second_prompt /\
          decide_strategy E e t h =
            Ok (PStr first, first_prompt, PStr second, second_prompt))
  /\ (forall E e t h,
        In (base_category e) ["joy"; "trust"] ->
        decide_strategy E e t h =
          Ok (PStr "Attentional Deployment", AttentionalDeploymentPrompt e,
              PStr "Response Modulation", ResponseModulationPrompt e))
  /\ (forall E t h,
        decide_reappraisal_subtype E h = Ok (PStr "Positive Cognitive Change") ->
        decide_strategy E (PStr "sadness") t h =
          Ok (PStr "Attentional Deployment",
              AttentionalDeploymentPrompt (PStr "sadness"),
              PStr "Positive Cognitive Change", PositiveCognitiveChangePrompt)).
Proof.
  split; [exact base_category_coarse|].
  split.
  { intros label category Hin. simpl in Hin.
    repeat (destruct Hin as [[= <- <-]|Hin]; [reflexivity|]). destruct Hin. }
  split.
  { intros e Hnot.
    assert (Hno : forall l, (forall s, In s l -> exists c, In (s, c) plutchik_labels) ->
                            py_in e l = false).
    { intros l Hl. unfold py_in. apply not_true_iff_false. intros Hex.
      apply existsb_exists in Hex. destruct Hex as [s [Hs Heq]].
      destruct (Hl s Hs) as [c Hc]. apply (Hnot s c Hc).
      destruct e; simpl in Heq; try discriminate.
      apply String.eqb_eq in Heq. congruence. }
    unfold base_category.
    rewrite !Hno; [reflexivity|..]; intros s Hs; simpl in Hs;
      repeat (destruct Hs as [<-|Hs]; [eexists; simpl; eauto 40|]); destruct Hs. }
  split.
  { intros E e t h subtype Hin Hsub.
    destruct (In_dec string_dec (base_category e) ["joy"; "trust"]) as [Hjt|Hjt].
    - rewrite (decide_strategy_joy_trust E e t h Hjt).
      destruct Hjt as [Hb|[Hb|[]]]; rewrite <- Hb;
        eexists _, _, _, _; repeat split; reflexivity.
    - rewrite (decide_strategy_with_subtype E e t h _ Hjt Hsub).
      pose proof (base_category_coarse e) as Hc.
      destruct Hc as [Hb|[Hb|[Hb|[Hb|[Hb|[Hb|[Hb|[Hb|[Hb|[]]]]]]]]]];
        rewrite <- Hb in *; try (exfalso; apply Hjt; simpl; tauto);
        destruct Hin as [<-|[<-|[]]];
        eexists _, _, _, _; repeat split; reflexivity. }
  split; [exact decide_strategy_joy_trust|].
  intros E t h Hsub.
  assert (Hjt : ~ In (base_category (PStr "sadness")) ["joy"; "trust"])
    by (simpl; intuition discriminate).
  rewrite (decide_strategy_with_subtype E (PStr "sadness") t h _ Hjt Hsub).
  reflexivity.
Qed.

Lemma decide_strategy_table_witness :
  decide_reappraisal_subtype fair_env [] = Ok (PStr "Positive Cognitive Change")
  /\ decide_strategy fair_env (PStr "sadness") (PStr "relationship trigger") [] =
       Ok (PStr "Attentional Deployment",
           AttentionalDeploymentPrompt (PStr "sadness"),
           PStr "Positive Cognitive Change", PositiveCognitiveChangePrompt)
  /\ base_category (PStr "loathing") = "disgust"
  /\ exists first second first_prompt second_prompt,
       spec_strategy_table (base_category (PStr "loathing"))
         (PStr "Positive Cognitive Change") = (PStr first, PStr second)
       /\ strategies (PStr "loathing") !! first = Some first_prompt
       /\ strategies (PStr "loathing") !! second = Some second_prompt
       /\ decide_strategy fair_env (PStr "loathing") (PStr "somatic trigger") []
          = Ok (PStr first, first_prompt, PStr second, second_prompt).
Proof.
  assert (Hsub : decide_reappraisal_subtype fair_env []
                 = Ok (PStr "Positive Cognitive Change")) by reflexivity.
  split; [exact Hsub|]. split; [|split].
  - apply (proj2 (proj2 (proj2 (proj2 (proj2 decide_strategy_table))))), Hsub.
  - apply (proj1 (proj2 decide_strategy_table)). simpl. tauto.
  - apply (proj1 (proj2 (proj2 (proj2 decide_strategy_table)))); [|exact Hsub].
    simpl. tauto.
Defined.

(** C10, counterexample. The sub-decision answers "Situation Selection",
    which is neither of the two reappraisal labels, and the engine returns
    without error: the answer is a key of the template table. *)
Lemma decide_strategy_other_key_counterexample :
  let E := example_env (Returns None) (Returns None)
             (Returns (Some "Situation Selection"))
             (fun _ => Returns None) (fun _ => true) in
  decide_reappraisal_subtype E [] = Ok (PStr "Situation Selection")
  /\ ~ In "Situation Selection" reappraisal_subtypes
  /\ decide_strategy E (PStr "sadness") (PStr "relationship trigger") [] =
       Ok (PStr "Attentional Deployment",
           AttentionalDeploymentPrompt (PStr "sadness"),
           PStr "Situation Selection", SituationSelectionPrompt).
Proof.
  repeat split; try reflexivity.
  simpl. intuition discriminate.
Qed.

(** C10, amended. [decide_strategy] returns when the reappraisal-subtype
    call answers one of the two labels, and more generally any key of the
    template table, and for the categories joy and trust, where the call
    is not made; it raises [KeyError] at the last line when the call is
    made and answers a value that is not a key of the table, such as a
    label with extra words or the error tuple of an uninitialised client. *)
Theorem decide_strategy_key_error :
  forall E e t h,
    (forall subtype,
        In subtype reappraisal_subtypes ->
        decide_reappraisal_subtype E h = Ok (PStr subtype) ->
        exists first first_prompt second second_prompt,
          decide_strategy E e t h = Ok (first, first_prompt, second, second_prompt))
    /\ (forall key prompt,
          decide_reappraisal_subtype E h = Ok (PStr key) ->
          strategies e !! key = Some prompt ->
          exists first first_prompt second second_prompt,
            decide_strategy E e t h = Ok (first, first_prompt, second, second_prompt))
    /\ (forall second,
          ~ In (base_category e) ["joy"; "trust"] ->
          decide_reappraisal_subtype E h = Ok second ->
          (forall key, second = PStr key -> strategies e !! key = None) ->
          decide_strategy E e t h = Raise KeyError)
    /\ (~ In (base_category e) ["joy"; "trust"] ->
        openai_client E = false ->
        decide_strategy E e t h = Raise KeyError)
    /\ (In (base_category e) ["joy"; "trust"] ->
        exists first first_prompt second second_prompt,
          decide_strategy E e t h = Ok (first, first_prompt, second, second_prompt)).
Proof.
  intros E e t h.
  assert (Hfirst : forall second,
             exists p, dict_getitem (strategies e)
                         (fst (spec_strategy_table (base_category e) second)) = Ok p).
  { intros second. pose proof (base_category_coarse e) as Hc.
    destruct Hc as [Hb|[Hb|[Hb|[Hb|[Hb|[Hb|[Hb|[Hb|[Hb|[]]]]]]]]]];
      rewrite <- Hb; eexists; reflexivity. }
  assert (Hkey : forall key prompt,
             decide_reappraisal_subtype E h = Ok (PStr key) ->
             strategies e !! key = Some prompt ->
             exists first first_prompt second second_prompt,
               decide_strategy E e t h = Ok (first, first_prompt, second, second_prompt)).
  { intros key prompt Hsub Hk.
    destruct (In_dec string_dec (base_category e) ["joy"; "trust"]) as [Hjt|Hjt].
    - rewrite (decide_strategy_joy_trust E e t h Hjt). eauto 10.
    - rewrite (decide_strategy_with_subtype E e t h _ Hjt Hsub).
      destruct (Hfirst (PStr key)) as [p Hp]. cbn zeta. rewrite Hp.
      unfold dict_getitem at 1. simpl. rewrite Hk. simpl. eauto 10. }
  assert (Hraise : forall second,
             ~ In (base_category e) ["joy"; "trust"] ->
             decide_reappraisal_subtype E h = Ok second ->
             (forall key, second = PStr key -> strategies e !! key = None) ->
             decide_strategy E e t h = Raise KeyError).
  { intros second Hjt Hsub Hno.
    rewrite (decide_strategy_with_subtype E e t h _ Hjt Hsub).
    destruct (Hfirst second) as [p Hp]. cbn zeta. rewrite Hp.
    pose proof (decide_reappraisal_subtype_hashable E h second Hsub) as Hh.
    unfold dict_getitem at 1. rewrite Hh. simpl.
    destruct second; try reflexivity.
    rewrite (Hno s eq_refl). reflexivity. }
  split.
  { intros subtype Hin Hsub.
    destruct Hin as [<-|[<-|[]]]; eapply Hkey; try exact Hsub; reflexivity. }
  split; [exact Hkey|].
  split; [exact Hraise|].
  split.
  - intros Hjt Hclient. apply (Hraise error_openai_not_init Hjt).
    + unfold decide_reappraisal_subtype. rewrite Hclient. reflexivity.
    + intros key [=].
  - intros Hjt. rewrite (decide_strategy_joy_trust E e t h Hjt). eauto 10.
Qed.

Lemma decide_strategy_key_error_witness :
  let E := example_env (Returns None) (Returns None)
             (Returns (Some "Positive Cognitive Change, I think"))
             (fun _ => Returns None) (fun _ => true) in
  ~ In (base_category (PStr "sadness")) ["joy"; "trust"]
  /\ decide_reappraisal_subtype E [] = Ok (PStr "Positive Cognitive Change, I think")
  /\ decide_strategy E (PStr "sadness") (PStr "relationship trigger") [] =
       Raise KeyError
  /\ exists first first_prompt second second_prompt,
       decide_strategy fair_env (PStr "sadness") (PStr "relationship trigger") []
       = Ok (first, first_prompt, second, second_prompt).
Proof.
  assert (Hjt : ~ In (base_category (PStr "sadness")) ["joy"; "trust"])
    by (simpl; intuition discriminate).
  split; [exact Hjt|]. split; [reflexivity|]. split.
  - eapply (proj1 (proj2 (proj2 (decide_strategy_key_error _ _ _ _))) _ Hjt).
    + reflexivity.
    + intros key [= <-]. reflexivity.
  - apply (proj1 (decide_strategy_key_error fair_env _ _ [])
             "Positive Cognitive Change"); [simpl; tauto|reflexivity].
Defined.

(** ** The request handler: what it writes *)

Lemma set_insert_system_prompt_same (marker : string) (row : Intervention) :
  insert_system_prompt row = Some marker ->
  set_insert_system_prompt marker row = row.
Proof. destruct row; simpl; intros ->; reflexivity. Qed.

Lemma commit_or_rollback_same (E : env) (site : commit_site) (db : store)
    (key : string * Z) (row : Intervention) :
  db !! key = Some row ->
  commit_or_rollback E site db key row = (db, row).
Proof.
  intros Hrow. unfold commit_or_rollback.
  destruct (commit_ok E site).
  - rewrite (insert_id db key row Hrow). reflexivity.
  - rewrite Hrow. reflexivity.
Qed.

Lemma initial_block_same (E : env) (db : store) (key : string * Z)
    (row : Intervention) :
  db !! key = Some row -> initial_block E db key row = (db, row).
Proof.
  intros Hrow. unfold initial_block. case_decide as Hm; [|reflexivity].
  rewrite (set_insert_system_prompt_same _ _ Hm).
  apply commit_or_rollback_same, Hrow.
Qed.

Lemma pending_prompt_store (E : env) (db : store) (key : string * Z)
    (row : Intervention) (api : list message) :
  db !! key = Some row ->
  fst (pending_prompt E db key row (insert_system_prompt row) api) = db.
Proof.
  intros Hrow. unfold pending_prompt.
  repeat case_decide; try reflexivity;
    rewrite set_insert_system_prompt_same by assumption;
    rewrite (commit_or_rollback_same _ _ _ _ _ Hrow); reflexivity.
Qed.

Lemma continue_turn_eq (E : env) (db : store) (key : string * Z)
    (row : Intervention) (api to_send : list message) :
  db !! key = Some row ->
  continue_turn E db key row (insert_system_prompt row) api to_send =
    (db, reply_of (reply_completion E
                     (outgoing_request E db key row (insert_system_prompt row) api))
           to_send key).
Proof.
  intros Hrow. unfold continue_turn, outgoing_request.
  pose proof (pending_prompt_store E db key row api Hrow) as Hdb.
  destruct (pending_prompt E db key row (insert_system_prompt row) api) as [db1 api1].
  simpl in Hdb. subst db1. reflexivity.
Qed.

(** The recurring case of a request that leaves the row as it is. *)
Ltac row_kept Hrow :=
  eexists; split; [symmetry; apply insert_id, Hrow | constructor].

(** The table after the exit of each phase is the table before it with
    one row written (possibly with itself). *)
Lemma exit_phase1_write (E : env) (db : store) (key : string * Z)
    (row : Intervention) (api to_send : list message) :
  db !! key = Some row ->
  current_phase row = Some "1" ->
  exists row', fst (exit_phase1 E db key row api to_send) = <[key := row']> db
               /\ exit_write E row row'.
Proof.
  intros Hrow Hphase. unfold exit_phase1.
  match goal with |- context [match ?p with Ok _ => _ | Raise _ => _ end] =>
    destruct p as [[[[[triggers trigger] emotion] [[[first fp] second] sp]] summary1]|e]
  end.
  2: { row_kept Hrow. }
  unfold commit_or_rollback. rewrite Hrow.
  destruct (join_triggers triggers) as [joined|e];
    [destruct (commit_ok E CommitExit)|];
    destruct (commit_ok E CommitPrompts); simpl.
  - eexists. split; [apply insert_insert_eq|]. apply write_phase1_prompts, Hphase.
  - eexists. split; [reflexivity|]. apply write_phase1, Hphase.
  - eexists. split; [reflexivity|]. apply write_prompts, Hphase.
  - row_kept Hrow.
  - eexists. split; [reflexivity|]. apply write_prompts, Hphase.
  - row_kept Hrow.
Qed.

Lemma exit_phase2a_write (E : env) (db : store) (key : string * Z)
    (row : Intervention) (api to_send : list message) :
  db !! key = Some row ->
  current_phase row = Some "2a" ->
  exists row', fst (exit_phase2a E db key row api to_send) = <[key := row']> db
               /\ exit_write E row row'.
Proof.
  intros Hrow Hphase. unfold exit_phase2a, commit_or_rollback.
  destruct (context_builder _ _ _ _ _ _ _) as [summary|e];
    [destruct (identify_emotion_plutchik _ _) as [[emotion c]|e];
       [destruct (commit_ok E CommitExit)|]|]; simpl;
    try row_kept Hrow.
  eexists. split; [reflexivity|]. apply write_phase2a, Hphase.
Qed.

Lemma exit_phase2b_write (E : env) (db : store) (key : string * Z)
    (row : Intervention) (api to_send : list message) :
  db !! key = Some row ->
  current_phase row = Some "2b" ->
  exists row', fst (exit_phase2b E db key row api to_send) = <[key := row']> db
               /\ exit_write E row row'.
Proof.
  intros Hrow Hphase. unfold exit_phase2b, commit_or_rollback.
  destruct (context_builder _ _ _ _ _ _ _) as [summary|e];
    [destruct (identify_emotion_plutchik _ _) as [[emotion c]|e];
       [destruct (commit_ok E CommitExit)|]|]; simpl;
    try row_kept Hrow.
  eexists. split; [reflexivity|]. apply write_phase2b, Hphase.
Qed.

Lemma exit_phase3_write (E : env) (db : store) (key : string * Z)
    (row : Intervention) (api to_send : list message) :
  db !! key = Some row ->
  current_phase row = Some "3" ->
  exists row', fst (exit_phase3 E db key row api to_send) = <[key := row']> db
               /\ exit_write E row row'.
Proof.
  intros Hrow Hphase. unfold exit_phase3, commit_or_rollback.
  destruct (context_builder _ _ _ _ _ _ _) as [summary|e];
    [destruct (identify_emotion_plutchik _ _) as [[emotion c]|e];
       [destruct (conversation_start_time row);
          [destruct (stored_times_naive E)|];
          try destruct (commit_ok E CommitExit);
          try destruct (werkzeug_shutdown E)|]|]; simpl;
    try row_kept Hrow;
    (eexists; split; [reflexivity|]; apply write_phase3, Hphase).
Qed.

Lemma end_phase_write (E : env) (db : store) (key : string * Z)
    (row : Intervention) (api to_send : list message) :
  db !! key = Some row ->
  exists row', fst (end_phase E db key row api to_send) = <[key := row']> db
               /\ exit_write E row row'.
Proof.
  intros Hrow. unfold end_phase.
  repeat case_decide.
  - apply exit_phase1_write; assumption.
  - apply exit_phase2a_write; assumption.
  - apply exit_phase2b_write; assumption.
  - apply exit_phase3_write; assumption.
  - row_kept Hrow.
Qed.

Lemma dispatch_write (E : env) (db : store) (key : string * Z)
    (row : Intervention) (api to_send : list message) (msg : string) :
  db !! key = Some row ->
  exists row',
    fst (dispatch E db key row (insert_system_prompt row) api to_send msg)
      = <[key := row']> db
    /\ exit_write E row row'
    /\ (is_endphase_command_default msg = false -> row' = row).
Proof.
  intros Hrow. unfold dispatch.
  destruct (is_endphase_command_default msg).
  - destruct (end_phase_write E db key row api to_send Hrow) as [row' [Hdb Hw]].
    exists row'. destruct (end_phase E db key row api to_send) as [db1 [resp|e]];
      simpl in *; (split; [exact Hdb|split; [exact Hw|discriminate]]).
  - exists row. split; [|split; [constructor|reflexivity]].
    destruct (negb (openai_client E)); simpl.
    + symmetry. apply insert_id, Hrow.
    + rewrite (continue_turn_eq E db key row api to_send Hrow). simpl.
      symmetry. apply insert_id, Hrow.
Qed.


(** The answers of the end-of-phase branch. *)
Lemma end_phase_answers (E : env) (db : store) (key : string * Z)
    (row : Intervention) (api to_send : list message) :
  match snd (end_phase E db key row api to_send) with
  | Ok resp =>
      resp = ServerShuttingDown
      \/ exists reply,
           resp = ExitReply [reply] (to_send ++ [assistant reply]) key.1 key.2
  | Raise e =>
      fst (end_phase E db key row api to_send) = db
      \/ current_phase row = Some "3" /\ werkzeug_shutdown E = false
         /\ e = RuntimeError
  end.
Proof.
  unfold end_phase. repeat case_decide.
  - unfold exit_phase1.
    match goal with |- context [match ?p with Ok _ => _ | Raise _ => _ end] =>
      destruct p as [[[[[? ?] ?] [[[? ?] ?] ?]] ?]|?]
    end; simpl; [|auto].
    destruct (join_triggers _); [destruct (commit_or_rollback _ _ _ _ _)|];
      simpl; eauto.
  - unfold exit_phase2a.
    destruct (context_builder _ _ _ _ _ _ _); simpl; [|auto].
    destruct (identify_emotion_plutchik _ _) as [[? ?]|?]; simpl; [|auto].
    destruct (commit_or_rollback _ _ _ _ _); simpl. eauto.
  - unfold exit_phase2b.
    destruct (context_builder _ _ _ _ _ _ _); simpl; [|auto].
    destruct (identify_emotion_plutchik _ _) as [[? ?]|?]; simpl; [|auto].
    destruct (commit_or_rollback _ _ _ _ _); simpl. eauto.
  - unfold exit_phase3.
    destruct (context_builder _ _ _ _ _ _ _); simpl; [|auto].
    destruct (identify_emotion_plutchik _ _) as [[? ?]|?]; simpl; [|auto].
    destruct (conversation_start_time row);
      [destruct (stored_times_naive E); simpl; [|auto]|];
      destruct (commit_or_rollback _ _ _ _ _);
      destruct (werkzeug_shutdown E); simpl; auto.
  - simpl. eauto.
Qed.


(** [chat] once the session handling has settled the row of the request. *)
Lemma chat_after_handling (E : env) (db db0 : store) (req : request)
    (iid : Z) (row : Intervention) :
  req_participant_id req <> "" ->
  session_handling E db req = inr (db0, iid) ->
  db0 !! (req_participant_id req, iid) = Some row ->
  chat E db req =
    dispatch E db0 (req_participant_id req, iid) row (insert_system_prompt row)
      (initial_prefix E row ++ req_history req ++ [user (req_message req)])
      (req_history req ++ [user (req_message req)]) (req_message req).
Proof.
  intros Hpid Hsession Hrow. unfold chat.
  apply String.eqb_neq in Hpid. rewrite Hpid, Hsession, Hrow.
  rewrite (initial_block_same E db0 _ row Hrow). reflexivity.
Qed.

Lemma session_handling_existing (E : env) (db : store) (req : request)
    (row : Intervention) :
  req_is_new_session req = false ->
  req_intervention_id req <> 0%Z ->
  db !! (req_participant_id req, req_intervention_id req) = Some row ->
  session_handling E db req = inr (db, req_intervention_id req).
Proof.
  intros Hnew Hiid Hrow. unfold session_handling.
  apply Z.eqb_neq in Hiid. rewrite Hnew, Hiid, Hrow. reflexivity.
Qed.

(** [chat] on a request for a session whose row is in the table. *)
Lemma chat_existing (E : env) (db : store) (req : request) (row : Intervention) :
  req_participant_id req <> "" ->
  req_is_new_session req = false ->
  req_intervention_id req <> 0%Z ->
  db !! (req_participant_id req, req_intervention_id req) = Some row ->
  chat E db req =
    dispatch E db (req_participant_id req, req_intervention_id req) row
      (insert_system_prompt row)
      (initial_prefix E row ++ req_history req ++ [user (req_message req)])
      (req_history req ++ [user (req_message req)]) (req_message req).
Proof.
  intros Hpid Hnew Hiid Hrow.
  apply chat_after_handling; [assumption| |assumption].
  eapply session_handling_existing; eassumption.
Qed.

(** The new intervention id is not in the table. *)
Lemma max_intervention_id_bound (db : store) (participant_id : string)
    (i : Z) (row : Intervention) :
  db !! (participant_id, i) = Some row ->
  exists m, max_intervention_id db participant_id = Some m /\ (i <= m)%Z.
Proof.
  intros Hrow. apply elem_of_map_to_list in Hrow.
  unfold max_intervention_id.
  induction (map_to_list db) as [|[[p j] r] l IH]; [inversion Hrow|].
  apply elem_of_cons in Hrow as [Heq|Hin]; simpl.
  - injection Heq as <- <- <-. rewrite decide_True by reflexivity.
    destruct (foldr _ None l); eexists; split; try reflexivity; lia.
  - destruct (IH Hin) as [m [Hm Hle]]. rewrite Hm.
    case_decide; eexists; split; try reflexivity; lia.
Qed.

Lemma new_intervention_id_fresh (db : store) (participant_id : string) :
  db !! (participant_id,
         (default 0 (max_intervention_id db participant_id) + 1)%Z) = None.
Proof.
  destruct (db !! (participant_id, _)) as [row|] eqn:Hrow; [|reflexivity].
  apply max_intervention_id_bound in Hrow as [m [Hm Hle]].
  rewrite Hm in Hle. simpl in Hle. lia.
Qed.

(** The table after any request: unchanged, or one row written; a row
    that was there before is overwritten only by what an exit of the phase
    it is in writes. *)
Lemma chat_store_cases (E : env) (db : store) (req : request) :
  (exists key row',
      chat_store E db req = <[key := row']> db
      /\ match db !! key with
         | Some row =>
             exit_write E row row'
             /\ (is_endphase_command_default (req_message req) = false -> row' = row)
         | None => True
         end)
  \/ chat_store E db req = db.
Proof.
  unfold chat_store.
  destruct (String.eqb (req_participant_id req) "") eqn:Hpid.
  { right. unfold chat. rewrite Hpid. reflexivity. }
  apply String.eqb_neq in Hpid.
  destruct (session_handling E db req) as [resp|[db0 iid]] eqn:Hsession.
  { right. unfold chat. apply String.eqb_neq in Hpid. rewrite Hpid, Hsession.
    reflexivity. }
  assert (Hcases :
    db0 = db /\ (exists row, db !! (req_participant_id req, iid) = Some row)
    \/ exists new, db !! (req_participant_id req, iid) = None
                   /\ db0 = <[(req_participant_id req, iid) := new]> db).
  { unfold session_handling in Hsession.
    destruct (req_is_new_session req).
    - destruct (commit_ok E CommitNewSession); [|discriminate].
      injection Hsession as <- <-. right. eexists. split; [|reflexivity].
      apply new_intervention_id_fresh.
    - destruct (req_intervention_id req =? 0)%Z; [discriminate|].
      destruct (db !! (req_participant_id req, req_intervention_id req))
        as [row|] eqn:Hrow.
      + injection Hsession as <- <-. left. eauto.
      + destruct (commit_ok E CommitRecovery); [|discriminate].
        injection Hsession as <- <-. right. eauto. }
  left. exists (req_participant_id req, iid).
  destruct Hcases as [[-> [row Hrow]]|[new [Hnone ->]]].
  - rewrite (chat_after_handling E db db req iid row Hpid Hsession Hrow).
    destruct (dispatch_write E db _ row
                (initial_prefix E row ++ req_history req ++ [user (req_message req)])
                (req_history req ++ [user (req_message req)]) (req_message req) Hrow)
      as [row' [Hdb [Hw Hsame]]].
    exists row'. rewrite Hrow. auto.
  - assert (Hrow : (<[(req_participant_id req, iid) := new]> db)
                     !! (req_participant_id req, iid) = Some new)
      by apply lookup_insert_eq.
    rewrite (chat_after_handling E db _ req iid new Hpid Hsession Hrow).
    destruct (dispatch_write E _ _ new
                (initial_prefix E new ++ req_history req ++ [user (req_message req)])
                (req_history req ++ [user (req_message req)]) (req_message req) Hrow)
      as [row' [Hdb [Hw Hsame]]].
    exists row'. rewrite Hdb, insert_insert_eq, Hnone. auto.
Qed.

(** ** Exits that nothing hinders *)

Lemma strategies_has_key (e : pyval) (key : string) :
  In key ["Attentional Deployment"; "Situation Modification";
          "Agency Cognitive Change"; "Positive Cognitive Change";
          "Response Modulation"; "Situation Selection"] ->
  exists prompt, strategies e !! key = Some prompt.
Proof.
  intros Hin. simpl in Hin.
  repeat (destruct Hin as [<-|Hin]; [eexists; reflexivity|]). destruct Hin.
Qed.

Lemma first_prompt_found (e second : pyval) :
  exists prompt,
    dict_getitem (strategies e)
      (fst (spec_strategy_table (base_category e) second)) = Ok prompt.
Proof.
  pose proof (base_category_coarse e) as Hc.
  destruct Hc as [Hb|[Hb|[Hb|[Hb|[Hb|[Hb|[Hb|[Hb|[Hb|[]]]]]]]]]];
    rewrite <- Hb; eexists; reflexivity.
Qed.

Lemma decide_strategy_returns (E : env) (e t : pyval) (h : list message)
    (key : string) (prompt : instruction) :
  decide_reappraisal_subtype E h = Ok (PStr key) ->
  strategies e !! key = Some prompt ->
  exists first first_prompt second second_prompt,
    decide_strategy E e t h = Ok (first, first_prompt, second, second_prompt).
Proof.
  intros Hsub Hk.
  destruct (In_dec string_dec (base_category e) ["joy"; "trust"]) as [Hjt|Hjt].
  - rewrite (decide_strategy_joy_trust E e t h Hjt). eauto 10.
  - rewrite (decide_strategy_with_subtype E e t h _ Hjt Hsub).
    destruct (first_prompt_found e (PStr key)) as [p Hp]. cbn zeta. rewrite Hp.
    unfold dict_getitem at 1. simpl. rewrite Hk. simpl. eauto 10.
Qed.

(** The exit of phase "1" when every step of it succeeds. *)
Lemma exit_phase1_commits (E : env) (db : store) (key : string * Z)
    (row : Intervention) (api to_send : list message)
    (triggers trigger emotion confidence first second : pyval)
    (first_prompt second_prompt : instruction) (summary : string)
    (joined : rendered) :
  extract_trigger_types E api = Ok triggers ->
  first_trigger triggers = Ok trigger ->
  identify_emotion_plutchik E api = Ok (emotion, confidence) ->
  decide_strategy E emotion trigger api
    = Ok (first, first_prompt, second, second_prompt) ->
  context_builder E api emotion trigger first second Tag1 = Ok summary ->
  join_triggers triggers = Ok joined ->
  commit_ok E CommitExit = true ->
  exists row',
    fst (exit_phase1 E db key row api to_send) !! key = Some row'
    /\ (row' = update_phase1 E summary emotion joined trigger first second row
        \/ row' = store_prompts
                    (Phase2SystemPrompt emotion trigger first first_prompt)
                    (Phase2bSystemPrompt emotion trigger second second_prompt)
                    (update_phase1 E summary emotion joined trigger first second row))
    /\ snd (exit_phase1 E db key row api to_send)
       = Ok (ExitReply [summary] (to_send ++ [assistant summary]) key.1 key.2).
Proof.
  intros Ht Hf He Hd Hs Hj Hc. unfold exit_phase1.
  rewrite Ht. simpl. rewrite Hf. simpl. rewrite He. simpl. rewrite Hd. simpl.
  rewrite Hs. simpl. rewrite Hj. unfold commit_or_rollback. rewrite Hc.
  destruct (commit_ok E CommitPrompts); simpl; rewrite lookup_insert_eq;
    eexists; (split; [reflexivity|]); auto.
Qed.

Lemma exit_phase2a_commits (E : env) (db : store) (key : string * Z)
    (row : Intervention) (api to_send : list message)
    (emotion confidence : pyval) (summary : string) :
  context_builder E api (emotion_before row) (primary_trigger row)
    (first_strategy row) (second_strategy row) Tag2a = Ok summary ->
  identify_emotion_plutchik E (api ++ [system (phase2b_prompt row)])
    = Ok (emotion, confidence) ->
  commit_ok E CommitExit = true ->
  exit_phase2a E db key row api to_send =
    (<[key := update_phase2a E summary emotion row]> db,
     Ok (ExitReply [doing_great] (to_send ++ [assistant doing_great]) key.1 key.2)).
Proof.
  intros Hs He Hc. unfold exit_phase2a, commit_or_rollback.
  rewrite Hs, He, Hc. reflexivity.
Qed.

Lemma exit_phase2b_commits (E : env) (db : store) (key : string * Z)
    (row : Intervention) (api to_send : list message)
    (emotion confidence : pyval) (summary : string) :
  context_builder E api (emotion_before row) (primary_trigger row)
    (first_strategy row) (second_strategy row) Tag2b = Ok summary ->
  identify_emotion_plutchik E (api ++ [system Phase3SystemPrompt])
    = Ok (emotion, confidence) ->
  commit_ok E CommitExit = true ->
  exit_phase2b E db key row api to_send =
    (<[key := update_phase2b E summary emotion row]> db,
     Ok (ExitReply [summary] (to_send ++ [assistant summary]) key.1 key.2)).
Proof.
  intros Hs He Hc. unfold exit_phase2b, commit_or_rollback.
  rewrite Hs, He, Hc. reflexivity.
Qed.

Lemma exit_phase3_commits (E : env) (db : store) (key : string * Z)
    (row : Intervention) (api to_send : list message)
    (emotion confidence : pyval) (summary : string) :
  context_builder E api (emotion_before row) (primary_trigger row)
    (first_strategy row) (second_strategy row) Tag3 = Ok summary ->
  identify_emotion_plutchik E api = Ok (emotion, confidence) ->
  stored_times_naive E = true ->
  commit_ok E CommitExit = true ->
  fst (exit_phase3 E db key row api to_send) =
    <[key := update_phase3 E summary emotion
               (option_map (fun start => (now E - start)%Z)
                  (conversation_start_time row))
               (insert_before_last (system SessionEndSystemPrompt) to_send
                  ++ [assistant summary]) row]> db.
Proof.
  intros Hs He Hn Hc. unfold exit_phase3, commit_or_rollback.
  rewrite Hs, He, Hn, Hc.
  destruct (conversation_start_time row); destruct (werkzeug_shutdown E);
    reflexivity.
Qed.

(** With nothing in its way, the exit of a phase leaves the next phase in
    the row, and the emotion it classified in the column of that exit. *)
Lemma end_phase_advances (E : env) (db : store) (key : string * Z)
    (row : Intervention) (api to_send : list message) :
  exits_succeed E ->
  db !! key = Some row ->
  exists row',
    fst (end_phase E db key row api to_send) !! key = Some row'
    /\ current_phase row' = next_phase (current_phase row)
    /\ (In (current_phase row) [Some "1"; Some "2a"; Some "2b"; Some "3"] ->
        exists h confidence,
          identify_emotion_plutchik E h
            = Ok (emotion_snapshot (current_phase row) row', confidence))
    /\ (current_phase row = Some "1" ->
        exists h found joined,
          extract_trigger_types E h = Ok found
          /\ first_trigger found = Ok (primary_trigger row')
          /\ join_triggers found = Ok joined
          /\ triggers row' = Some joined).
Proof.
  intros Hok Hrow. unfold end_phase.
  destruct (decide (current_phase row = Some "1")) as [H1|H1].
  { destruct (triggers_answer E Hok api) as [l [ss [Ht Hss]]].
    assert (Hf : exists trigger, first_trigger (PList l) = Ok trigger).
    { destruct l as [|[] l]; simpl in *; try discriminate; eauto. }
    destruct Hf as [trigger Hf].
    destruct (emotion_answers E Hok api) as [emotion [confidence He]].
    destruct (subtype_answers E Hok api) as [k [Hsub Hin]].
    destruct (strategies_has_key emotion k Hin) as [prompt Hk].
    destruct (decide_strategy_returns E emotion trigger api k prompt Hsub Hk)
      as [first [fp [second [sp Hd]]]].
    destruct (summary_answers E Hok Tag1 api emotion trigger first second)
      as [summary Hs].
    assert (Hj : join_triggers (PList l) = Ok (Plain (String.concat ", " ss)))
      by (simpl; rewrite Hss; reflexivity).
    destruct (exit_phase1_commits E db key row api to_send _ _ _ _ _ _ _ _ _ _
                Ht Hf He Hd Hs Hj (exit_commits E Hok)) as [row' [Hl [Hr _]]].
    exists row'. split; [exact Hl|]. rewrite H1.
    destruct Hr as [-> | ->]; (split; [reflexivity|]);
      (split; [intros _; exists api, confidence; exact He|]);
      intros _; exists api, (PList l), (Plain (String.concat ", " ss)); auto. }
  destruct (decide (current_phase row = Some "2a")) as [H2|H2].
  { destruct (summary_answers E Hok Tag2a api (emotion_before row)
                (primary_trigger row) (first_strategy row) (second_strategy row))
      as [summary Hs].
    destruct (emotion_answers E Hok (api ++ [system (phase2b_prompt row)]))
      as [emotion [confidence He]].
    rewrite (exit_phase2a_commits E db key row api to_send _ _ _ Hs He
               (exit_commits E Hok)).
    simpl. rewrite lookup_insert_eq. eexists. split; [reflexivity|].
    rewrite H2. split; [reflexivity|]. split; [intros _; eauto|discriminate]. }
  destruct (decide (current_phase row = Some "2b")) as [H3|H3].
  { destruct (summary_answers E Hok Tag2b api (emotion_before row)
                (primary_trigger row) (first_strategy row) (second_strategy row))
      as [summary Hs].
    destruct (emotion_answers E Hok (api ++ [system Phase3SystemPrompt]))
      as [emotion [confidence He]].
    rewrite (exit_phase2b_commits E db key row api to_send _ _ _ Hs He
               (exit_commits E Hok)).
    simpl. rewrite lookup_insert_eq. eexists. split; [reflexivity|].
    rewrite H3. split; [reflexivity|]. split; [intros _; eauto|discriminate]. }
  destruct (decide (current_phase row = Some "3")) as [H4|H4].
  { destruct (summary_answers E Hok Tag3 api (emotion_before row)
                (primary_trigger row) (first_strategy row) (second_strategy row))
      as [summary Hs].
    destruct (emotion_answers E Hok api) as [emotion [confidence He]].
    rewrite (exit_phase3_commits E db key row api to_send _ _ _ Hs He
               (times_naive E Hok) (exit_commits E Hok)).
    rewrite lookup_insert_eq. eexists. split; [reflexivity|].
    rewrite H4. split; [reflexivity|]. split; [intros _; eauto|discriminate]. }
  simpl. exists row. split; [exact Hrow|]. split; [|split].
  - unfold next_phase. rewrite !decide_False by assumption. reflexivity.
  - intros Hin. simpl in Hin. intuition congruence.
  - intros Hp. congruence.
Qed.

(** The same for a whole request of an existing session. *)
Lemma chat_exit_advances (E : env) (db : store) (req : request)
    (row : Intervention) :
  exits_succeed E ->
  req_participant_id req <> "" ->
  req_is_new_session req = false ->
  req_intervention_id req <> 0%Z ->
  db !! (req_participant_id req, req_intervention_id req) = Some row ->
  is_endphase_command_default (req_message req) = true ->
  exists row',
    chat_store E db req !! (req_participant_id req, req_intervention_id req)
      = Some row'
    /\ current_phase row' = next_phase (current_phase row)
    /\ (In (current_phase row) [Some "1"; Some "2a"; Some "2b"; Some "3"] ->
        exists h confidence,
          identify_emotion_plutchik E h
            = Ok (emotion_snapshot (current_phase row) row', confidence))
    /\ (current_phase row = Some "1" ->
        exists h found joined,
          extract_trigger_types E h = Ok found
          /\ first_trigger found = Ok (primary_trigger row')
          /\ join_triggers found = Ok joined
          /\ triggers row' = Some joined).
Proof.
  intros Hok Hpid Hnew Hiid Hrow Hcmd. unfold chat_store.
  rewrite (chat_existing E db req row Hpid Hnew Hiid Hrow).
  unfold dispatch. rewrite Hcmd.
  destruct (end_phase_advances E db (req_participant_id req, req_intervention_id req)
              row
              (initial_prefix E row ++ req_history req ++ [user (req_message req)])
              (req_history req ++ [user (req_message req)]) Hok Hrow)
    as [row' Hrow'].
  exists row'.
  destruct (end_phase E db _ row _ _) as [db1 [resp|e]]; exact Hrow'.
Qed.

(** ** The order of the phases *)

Lemma exit_write_phase (E : env) (row row' : Intervention) :
  exit_write E row row' ->
  current_phase row' = current_phase row
  \/ current_phase row' = next_phase (current_phase row).
Proof.
  intros Hw. destruct Hw as [|? ? ? ? ? ? H|? ? ? ? ? ? ? ? H|? ? H|? ? H|? ? H|? ? ? ? H];
    simpl; rewrite ?H; auto.
Qed.

Lemma exit_write_strategies (E : env) (row row' : Intervention) :
  exit_write E row row' ->
  current_phase row <> Some "1" ->
  first_strategy row' = first_strategy row
  /\ second_strategy row' = second_strategy row.
Proof.
  intros Hw Hp. destruct Hw; simpl; auto; congruence.
Qed.

Lemma next_phase_not_first (phase : option string) :
  next_phase phase <> Some "1".
Proof. unfold next_phase. repeat case_decide; congruence. Qed.

Lemma phase_rank_cases (phase : option string) (r : nat) :
  phase_rank phase = Some r ->
  In (phase, r) [(Some "1", 0); (Some "2a", 1); (Some "2b", 2); (Some "3", 3);
                 (Some "4", 4)].
Proof.
  unfold phase_rank. destruct phase as [p|]; [|intros [=]].
  repeat match goal with
         | |- context [String.eqb p ?s] =>
             destruct (String.eqb_spec p s) as [->|_];
             [intros [= <-]; simpl; tauto|]
         end.
  intros [=].
Qed.

Lemma phase_rank_next (phase : option string) (r : nat) :
  phase_rank phase = Some r ->
  phase_rank (next_phase phase) = Some (Nat.min (S r) 4).
Proof.
  intros Hr. apply phase_rank_cases in Hr. simpl in Hr.
  repeat (destruct Hr as [[= <- <-]|Hr]; [reflexivity|]). destruct Hr.
Qed.

Lemma phase_rank_iter (n : nat) (phase : option string) (r : nat) :
  phase_rank phase = Some r ->
  exists r', phase_rank (Nat.iter n next_phase phase) = Some r'
             /\ r <= r' <= 4.
Proof.
  intros Hr.
  assert (r <= 4).
  { apply phase_rank_cases in Hr. simpl in Hr.
    repeat (destruct Hr as [[= <- <-]|Hr]; [lia|]). destruct Hr. }
  induction n as [|n [r' [Hr' Hle]]]; simpl.
  - exists r. split; [exact Hr|lia].
  - exists (Nat.min (S r') 4). split; [apply phase_rank_next, Hr'|lia].
Qed.

(** One request, seen from any row of the table. *)
Lemma chat_row_step (E : env) (db : store) (req : request)
    (key : string * Z) (row : Intervention) :
  db !! key = Some row ->
  exists row',
    chat_store E db req !! key = Some row'
    /\ (current_phase row' = current_phase row
        \/ current_phase row' = next_phase (current_phase row))
    /\ (is_endphase_command_default (req_message req) = false ->
        current_phase row' = current_phase row).
Proof.
  intros Hrow.
  destruct (chat_store_cases E db req) as [[k [r [Hdb Hk]]]| ->];
    [|exists row; auto].
  rewrite Hdb. destruct (decide (k = key)) as [->|Hne].
  - rewrite Hrow in Hk. destruct Hk as [Hw Hsame].
    exists r. rewrite lookup_insert_eq. split; [reflexivity|].
    split; [eapply exit_write_phase, Hw|].
    intros Hcmd. rewrite (Hsame Hcmd). reflexivity.
  - exists row. rewrite lookup_insert_ne by assumption. auto.
Qed.

(** C2. The phase of a session only moves forward through
    "1" < "2a" < "2b" < "3" < "4": a request leaves the phase of every
    stored session where it is or moves it to the immediate successor, a
    message that is not a command never changes it, an exit that nothing
    hinders moves it to the successor, and over any sequence of requests
    the phase is an iterate of the successor, so its rank never decreases
    and no phase is skipped or entered again. *)
Theorem phase_forward_only :
  (forall E (db : store) req key row,
      db !! key = Some row ->
      exists row',
        chat_store E db req !! key = Some row'
        /\ (current_phase row' = current_phase row
            \/ current_phase row' = next_phase (current_phase row))
        /\ (is_endphase_command_default (req_message req) = false ->
            current_phase row' = current_phase row))
  /\ (forall E (db : store) req row,
        exits_succeed E ->
        req_participant_id req <> "" ->
        req_is_new_session req = false ->
        req_intervention_id req <> 0%Z ->
        db !! (req_participant_id req, req_intervention_id req) = Some row ->
        is_endphase_command_default (req_message req) = true ->
        exists row',
          chat_store E db req !! (req_participant_id req, req_intervention_id req)
            = Some row'
          /\ current_phase row' = next_phase (current_phase row))
  /\ (forall reqs (db : store) key row,
        db !! key = Some row ->
        exists row' n,
          serve db reqs !! key = Some row'
          /\ n <= length reqs
          /\ current_phase row' = Nat.iter n next_phase (current_phase row))
  /\ (forall phase r,
        phase_rank phase = Some r ->
        phase_rank (next_phase phase) = Some (Nat.min (S r) 4))
  /\ (forall reqs (db : store) key row r,
        db !! key = Some row ->
        phase_rank (current_phase row) = Some r ->
        exists row' r',
          serve db reqs !! key = Some row'
          /\ phase_rank (current_phase row') = Some r'
          /\ r <= r' <= 4).
Proof.
  assert (Htrace : forall reqs (db : store) key row,
             db !! key = Some row ->
             exists row' n,
               serve db reqs !! key = Some row'
               /\ n <= length reqs
               /\ current_phase row' = Nat.iter n next_phase (current_phase row)).
  { induction reqs as [|[E req] reqs IH]; intros db key row Hrow.
    - exists row, 0. simpl. auto.
    - destruct (chat_row_step E db req key row Hrow) as [row1 [Hrow1 [Hstep _]]].
      destruct (IH _ key row1 Hrow1) as [row' [n [Hrow' [Hn Hp]]]].
      simpl. destruct Hstep as [Heq|Heq]; rewrite Heq in Hp.
      + exists row', n. split; [exact Hrow'|]. split; [lia|exact Hp].
      + exists row', (S n). split; [exact Hrow'|]. split; [lia|].
        rewrite Hp. symmetry. apply Nat.iter_succ_r. }
  split; [intros; apply chat_row_step; assumption|].
  split.
  { intros E db req row Hok Hpid Hnew Hiid Hrow Hcmd.
    destruct (chat_exit_advances E db req row Hok Hpid Hnew Hiid Hrow Hcmd)
      as [row' [Hl [Hp _]]]. eauto. }
  split; [exact Htrace|].
  split; [exact phase_rank_next|].
  intros reqs db key row r Hrow Hr.
  destruct (Htrace reqs db key row Hrow) as [row' [n [Hrow' [_ Hp]]]].
  destruct (phase_rank_iter n _ r Hr) as [r' [Hr' Hle]].
  exists row', r'. rewrite Hp. auto.
Qed.

Lemma fair_env_exits_succeed : exits_succeed fair_env.
Proof.
  split; intros; simpl.
  - exists (PStr "sadness"), (PNum (9 # 10)). reflexivity.
  - exists [PStr "relationship trigger"], ["relationship trigger"]. auto.
  - exists "Positive Cognitive Change". split; [reflexivity|]. simpl. tauto.
  - exists "SUMMARY". reflexivity.
  - reflexivity.
  - reflexivity.
Qed.

Lemma phase_forward_only_witness :
  let db := example_db "2a" "phase2a" in
  let req := example_request "endphase()" in
  db !! ("P001", 1%Z) = Some (example_row "2a" "phase2a")
  /\ (exists row',
        chat_store fair_env db req !! ("P001", 1%Z) = Some row'
        /\ (current_phase row' = Some "2a" \/ current_phase row' = Some "2b")
        /\ (is_endphase_command_default "endphase()" = false ->
            current_phase row' = Some "2a"))
  /\ (exists row',
        chat_store fair_env db req !! ("P001", 1%Z) = Some row'
        /\ current_phase row' = Some "2b")
  /\ (exists row' r',
        serve db [(fair_env, req); (fair_env, example_request "hello")]
          !! ("P001", 1%Z) = Some row'
        /\ phase_rank (current_phase row') = Some r' /\ 1 <= r' <= 4).
Proof.
  intros db req.
  assert (H : db !! ("P001", 1%Z) = Some (example_row "2a" "phase2a"))
    by reflexivity.
  split; [exact H|]. split; [|split].
  - exact (proj1 phase_forward_only fair_env db req _ _ H).
  - apply (proj1 (proj2 phase_forward_only) fair_env db req
             (example_row "2a" "phase2a") fair_env_exits_succeed);
      try reflexivity; discriminate.
  - apply (proj2 (proj2 (proj2 (proj2 phase_forward_only))) _ db _
             (example_row "2a" "phase2a") 1 H).
    reflexivity.
Defined.

(** ** Two commands in succession *)

(** C1, counterexample. A session in phase "1" receives the command twice
    in succession: the first request leaves it in "2a" and the second in
    "2b", two advances. *)
Lemma two_end_commands_counterexample :
  let db := example_db "1" "initial" in
  let req := example_request "endphase()" in
  current_phase <$> (db !! ("P001", 1%Z)) = Some (Some "1")
  /\ current_phase <$> (serve db [(fair_env, req)] !! ("P001", 1%Z))
     = Some (Some "2a")
  /\ current_phase <$> (serve db [(fair_env, req); (fair_env, req)] !! ("P001", 1%Z))
     = Some (Some "2b").
Proof. vm_compute. auto. Qed.

(** C1, amended. Every end-of-phase command whose exit nothing hinders
    advances the phase by one step, the second of two commands in
    succession as much as the first: after both the phase is the successor
    of the successor (and "4" stays "4"). The strategies are computed by
    the exit of phase "1" only, so the second command leaves the committed
    strategy ids as the first left them. *)
Theorem two_end_commands_advance_twice :
  forall E1 E2 (db : store) req1 req2 row,
    exits_succeed E1 ->
    exits_succeed E2 ->
    req_participant_id req1 <> "" ->
    req_is_new_session req1 = false ->
    req_intervention_id req1 <> 0%Z ->
    req_participant_id req2 = req_participant_id req1 ->
    req_is_new_session req2 = false ->
    req_intervention_id req2 = req_intervention_id req1 ->
    db !! (req_participant_id req1, req_intervention_id req1) = Some row ->
    is_endphase_command_default (req_message req1) = true ->
    is_endphase_command_default (req_message req2) = true ->
    exists row1 row2,
      serve db [(E1, req1)] !! (req_participant_id req1, req_intervention_id req1)
        = Some row1
      /\ current_phase row1 = next_phase (current_phase row)
      /\ serve db [(E1, req1); (E2, req2)]
           !! (req_participant_id req1, req_intervention_id req1) = Some row2
      /\ current_phase row2 = next_phase (next_phase (current_phase row))
      /\ first_strategy row2 = first_strategy row1
      /\ second_strategy row2 = second_strategy row1.
Proof.
  intros E1 E2 db req1 req2 row Hok1 Hok2 Hpid Hnew Hiid Hpid2 Hnew2 Hiid2 Hrow
    Hcmd1 Hcmd2.
  destruct (chat_exit_advances E1 db req1 row Hok1 Hpid Hnew Hiid Hrow Hcmd1)
    as [row1 [Hrow1 [Hp1 _]]].
  assert (Hpid' : req_participant_id req2 <> "") by congruence.
  assert (Hiid' : req_intervention_id req2 <> 0%Z) by congruence.
  rewrite <- Hpid2, <- Hiid2 in Hrow1.
  remember (chat_store E1 db req1) as db1 eqn:Hdb1.
  destruct (chat_exit_advances E2 db1 req2 row1 Hok2 Hpid' Hnew2 Hiid' Hrow1 Hcmd2)
    as [row2 [Hrow2 [Hp2 _]]].
  exists row1, row2. simpl. rewrite <- Hpid2, <- Hiid2, <- Hdb1.
  split; [exact Hrow1|]. split; [exact Hp1|]. split; [exact Hrow2|].
  split; [rewrite Hp2, Hp1; reflexivity|].
  unfold chat_store in Hrow2.
  rewrite (chat_existing E2 db1 req2 row1 Hpid' Hnew2 Hiid' Hrow1) in Hrow2.
  destruct (dispatch_write E2 db1
              (req_participant_id req2, req_intervention_id req2) row1
              (initial_prefix E2 row1 ++ req_history req2 ++ [user (req_message req2)])
              (req_history req2 ++ [user (req_message req2)]) (req_message req2) Hrow1)
    as [row2' [Hdb [Hw _]]].
  rewrite Hdb, lookup_insert_eq in Hrow2. injection Hrow2 as ->.
  apply (exit_write_strategies E2 row1 row2 Hw).
  rewrite Hp1. apply next_phase_not_first.
Qed.

Lemma two_end_commands_advance_twice_witness :
  let db := example_db "2a" "phase2a" in
  let req := example_request "endphase()" in
  exists row1 row2,
    serve db [(fair_env, req)] !! ("P001", 1%Z) = Some row1
    /\ current_phase row1 = next_phase (Some "2a")
    /\ serve db [(fair_env, req); (fair_env, req)] !! ("P001", 1%Z) = Some row2
    /\ current_phase row2 = next_phase (next_phase (Some "2a"))
    /\ first_strategy row2 = first_strategy row1
    /\ second_strategy row2 = second_strategy row1.
Proof.
  apply (two_end_commands_advance_twice fair_env fair_env
           (example_db "2a" "phase2a") (example_request "endphase()")
           (example_request "endphase()") (example_row "2a" "phase2a"));
    try reflexivity; try exact fair_env_exits_succeed; discriminate.
Defined.

(** ** A command in the last phase *)

(** C5, counterexample. A session in phase "4" receives the command: the
    reply is the text for a phase the handler does not know, which asks to
    start the section again and says nothing of an ended session; a value
    that is no phase at all gets the same reply. *)
Lemma closed_end_command_counterexample :
  let req := example_request "endphase()" in
  snd (chat fair_env (example_db "4" "phase3") req)
    = ExitReply [lost_my_place] [user "endphase()"; assistant lost_my_place]
        "P001" 1
  /\ snd (chat fair_env (example_db "banana" "phase3") req)
     = snd (chat fair_env (example_db "4" "phase3") req)
  /\ contains "end" lost_my_place = false
  /\ contains "conclu" lost_my_place = false
  /\ contains "session" lost_my_place = false
  /\ contains "starting this section again" lost_my_place = true.
Proof. vm_compute. auto 10. Qed.

(** C5, amended. For a session in phase "4" an end-of-phase command
    changes nothing in the table and is answered, with status 200, by the
    reply of an unknown phase, "I seem to have lost my place in our
    conversation. Could we try starting this section again?"; no exit
    runs and the handler returns normally. *)
Theorem closed_end_command_noop :
  forall E (db : store) req row,
    req_participant_id req <> "" ->
    req_is_new_session req = false ->
    req_intervention_id req <> 0%Z ->
    db !! (req_participant_id req, req_intervention_id req) = Some row ->
    current_phase row = Some "4" ->
    is_endphase_command_default (req_message req) = true ->
    chat E db req =
      (db, ExitReply [lost_my_place]
             ((req_history req ++ [user (req_message req)])
                ++ [assistant lost_my_place])
             (req_participant_id req) (req_intervention_id req))
    /\ status (snd (chat E db req)) = 200%Z.
Proof.
  intros E db req row Hpid Hnew Hiid Hrow Hphase Hcmd.
  rewrite (chat_existing E db req row Hpid Hnew Hiid Hrow).
  unfold dispatch, end_phase. rewrite Hcmd, Hphase. simpl. auto.
Qed.

Lemma closed_end_command_noop_witness :
  let db := example_db "4" "phase3" in
  let req := example_request "endphase()" in
  chat fair_env db req =
    (db, ExitReply [lost_my_place]
           (([] ++ [user "endphase()"]) ++ [assistant lost_my_place]) "P001" 1)
  /\ status (snd (chat fair_env db req)) = 200%Z.
Proof.
  apply (closed_end_command_noop fair_env (example_db "4" "phase3")
           (example_request "endphase()") (example_row "4" "phase3"));
    try reflexivity; discriminate.
Defined.

(** ** A commit that fails at the exit of phase "2b" *)

(** C8, counterexample. The commit of the exit of phase "2b" fails: the
    table is as before, but the answer is the ordinary reply with the
    summary of the phase, status 200, not an error. *)
Lemma failed_commit_counterexample :
  let E := example_env (Returns (Some "EMOTION")) (Returns (Some "TRIGGERS"))
             (Returns (Some "Positive Cognitive Change"))
             (fun _ => Returns (Some "REPLY")) exit_commit_fails in
  let db := example_db "2b" "phase2b" in
  let req := example_request "endphase()" in
  commit_ok E CommitExit = false
  /\ chat E db req =
       (db, ExitReply ["SUMMARY"] [user "endphase()"; assistant "SUMMARY"] "P001" 1)
  /\ status (snd (chat E db req)) = 200%Z
  /\ snd (chat E db req) = snd (chat fair_env db req).
Proof. vm_compute. auto. Qed.

(** C8, amended. When the commit of the exit of phase "2b" fails, the
    session is rolled back and the table is exactly as before the request,
    so the phase still reads "2b"; the failure is only printed, and the
    caller receives the ordinary reply of the exit, the summary of the
    phase with status 200. *)
Theorem failed_commit_rolled_back :
  forall E (db : store) req row,
    req_participant_id req <> "" ->
    req_is_new_session req = false ->
    req_intervention_id req <> 0%Z ->
    db !! (req_participant_id req, req_intervention_id req) = Some row ->
    current_phase row = Some "2b" ->
    is_endphase_command_default (req_message req) = true ->
    commit_ok E CommitExit = false ->
    chat_store E db req = db
    /\ current_phase <$>
         (chat_store E db req !! (req_participant_id req, req_intervention_id req))
       = Some (Some "2b")
    /\ (forall summary emotion confidence,
          let api := initial_prefix E row ++ req_history req
                       ++ [user (req_message req)] in
          context_builder E api (emotion_before row) (primary_trigger row)
            (first_strategy row) (second_strategy row) Tag2b = Ok summary ->
          identify_emotion_plutchik E (api ++ [system Phase3SystemPrompt])
            = Ok (emotion, confidence) ->
          snd (chat E db req) =
            ExitReply [summary]
              ((req_history req ++ [user (req_message req)]) ++ [assistant summary])
              (req_participant_id req) (req_intervention_id req)
          /\ status (snd (chat E db req)) = 200%Z).
Proof.
  intros E db req row Hpid Hnew Hiid Hrow Hphase Hcmd Hfail.
  assert (Hdb : chat_store E db req = db).
  { unfold chat_store. rewrite (chat_existing E db req row Hpid Hnew Hiid Hrow).
    unfold dispatch, end_phase. rewrite Hcmd, Hphase. simpl.
    unfold exit_phase2b, commit_or_rollback. rewrite Hfail.
    destruct (context_builder _ _ _ _ _ _ _) as [summary|e];
      [destruct (identify_emotion_plutchik _ _) as [[emotion c]|e]|];
      reflexivity. }
  split; [exact Hdb|]. split; [rewrite Hdb, Hrow; simpl; congruence|].
  intros summary emotion confidence api Hs He.
  rewrite (chat_existing E db req row Hpid Hnew Hiid Hrow).
  unfold dispatch, end_phase. rewrite Hcmd, Hphase. simpl.
  unfold exit_phase2b, commit_or_rollback. fold api. rewrite Hs, He, Hfail.
  simpl. auto.
Qed.

Lemma failed_commit_rolled_back_witness :
  let E := example_env (Returns (Some "EMOTION")) (Returns (Some "TRIGGERS"))
             (Returns (Some "Positive Cognitive Change"))
             (fun _ => Returns (Some "REPLY")) exit_commit_fails in
  let db := example_db "2b" "phase2b" in
  let req := example_request "endphase()" in
  chat_store E db req = db
  /\ current_phase <$> (chat_store E db req !! ("P001", 1%Z)) = Some (Some "2b")
  /\ snd (chat E db req)
     = ExitReply ["SUMMARY"] (([] ++ [user "endphase()"]) ++ [assistant "SUMMARY"])
         "P001" 1
  /\ status (snd (chat E db req)) = 200%Z.
Proof.
  intros E db req.
  pose proof (failed_commit_rolled_back E db req (example_row "2b" "phase2b")) as H.
  destruct H as [H1 [H2 H3]]; try reflexivity; try discriminate.
  split; [exact H1|]. split; [exact H2|].
  apply (H3 "SUMMARY" (PStr "sadness") (PNum (9 # 10))); reflexivity.
Defined.

(** ** The pending system prompt *)






(** ** A request for a session that is not in the table *)



(** The code at the failing input: the table is empty and declares no
    default for the two columns. The command is answered with the reply
    of an unknown phase and the row created has no phase; an ordinary
    message reaches the reply model with no system prompt in front. *)
Lemma recovery_with_null_defaults :
  let E := null_defaults_env in
  snd (chat E ∅ (example_request "endphase()"))
    = ExitReply [lost_my_place] [user "endphase()"; assistant lost_my_place] "P001" 1
  /\ current_phase <$> (chat_store E ∅ (example_request "endphase()") !! ("P001", 1%Z))
     = Some None
  /\ snd (chat E ∅ (example_request "hello"))
     = ContinueReply ["NO PROMPT"] [user "hello"; assistant "NO PROMPT"] "P001" 1
  /\ insert_system_prompt <$> (chat_store E ∅ (example_request "hello") !! ("P001", 1%Z))
     = Some None.
Proof. vm_compute. auto. Qed.


(** ** Classification that fails *)

Lemma identify_emotion_unparseable (E : env) (h : list message) :
  openai_client E = true ->
  emotion_unparseable E h ->
  identify_emotion_plutchik E h = Ok (PStr "neutral", PNum (1 # 2)).
Proof.
  intros Hclient [answer [Hcall Hparse]]. unfold identify_emotion_plutchik.
  rewrite Hclient, Hcall. cbn [negb].
  destruct answer as [text|]; [|reflexivity].
  rewrite (Hparse text eq_refl). reflexivity.
Qed.

Lemma extract_triggers_unparseable (E : env) (h : list message) :
  openai_client E = true ->
  triggers_unparseable E h ->
  extract_trigger_types E h = Ok (PList []).
Proof.
  intros Hclient [answer [Hcall Hparse]]. unfold extract_trigger_types.
  rewrite Hclient, Hcall. cbn [negb].
  destruct answer as [text|]; [|reflexivity].
  rewrite (Hparse text eq_refl). reflexivity.
Qed.

Lemma identify_emotion_raises (E : env) (h : list message) (e : exn) :
  openai_client E = true ->
  emotion_completion E (tail h) = Raises e ->
  identify_emotion_plutchik E h = Raise e.
Proof.
  intros Hclient Hcall. unfold identify_emotion_plutchik.
  rewrite Hclient, Hcall. reflexivity.
Qed.

Lemma extract_triggers_raises (E : env) (h : list message) (e : exn) :
  openai_client E = true ->
  trigger_completion E h = Raises e ->
  extract_trigger_types E h = Raise e.
Proof.
  intros Hclient Hcall. unfold extract_trigger_types.
  rewrite Hclient, Hcall. reflexivity.
Qed.

(** The command of a request for a session that has its row goes to the
    end-of-phase branch, with the history built for the models. *)
Lemma chat_command (E : env) (db : store) (req : request) (row : Intervention) :
  req_participant_id req <> "" ->
  req_is_new_session req = false ->
  req_intervention_id req <> 0%Z ->
  db !! (req_participant_id req, req_intervention_id req) = Some row ->
  is_endphase_command_default (req_message req) = true ->
  chat E db req =
    match end_phase E db (req_participant_id req, req_intervention_id req) row
            (current_history_for_api E row req)
            (req_history req ++ [user (req_message req)]) with
    | (db1, Ok resp) => (db1, resp)
    | (db1, Raise e) => (db1, UnhandledError e (req_participant_id req))
    end.
Proof.
  intros Hpid Hnew Hiid Hrow Hcmd.
  rewrite (chat_existing E db req row Hpid Hnew Hiid Hrow).
  unfold dispatch. rewrite Hcmd. reflexivity.
Qed.

(** An exit whose emotion call is answered with [emotion], and whose other
    steps succeed, leaves the next phase and that emotion in the row. *)
Lemma end_phase_classified (E : env) (db : store) (key : string * Z)
    (row : Intervention) (req : request) (to_send : list message)
    (emotion confidence : pyval) (l : list pyval) (ss : list string) :
  other_steps_succeed E ->
  In (current_phase row) [Some "1"; Some "2a"; Some "2b"; Some "3"] ->
  identify_emotion_plutchik E (emotion_call_history E row req)
    = Ok (emotion, confidence) ->
  (current_phase row = Some "1" ->
   extract_trigger_types E (current_history_for_api E row req) = Ok (PList l)
   /\ all_strings l = Some ss) ->
  exists row',
    fst (end_phase E db key row (current_history_for_api E row req) to_send) !! key
      = Some row'
    /\ current_phase row' = next_phase (current_phase row)
    /\ emotion_snapshot (current_phase row) row' = emotion
    /\ (current_phase row = Some "1" ->
        first_trigger (PList l) = Ok (primary_trigger row')
        /\ triggers row' = Some (Plain (String.concat ", " ss))).
Proof.
  intros Hok Hin He Htr. unfold end_phase, emotion_call_history in *.
  set (api := current_history_for_api E row req) in *.
  destruct (decide (current_phase row = Some "1")) as [H1|H1].
  { rewrite decide_False in He by congruence.
    rewrite decide_False in He by congruence.
    destruct (Htr H1) as [Ht Hss].
    assert (Hf : exists trigger, first_trigger (PList l) = Ok trigger).
    { destruct l as [|[] l]; simpl in *; try discriminate; eauto. }
    destruct Hf as [trigger Hf].
    destruct (subtype_step E Hok api) as [k [Hsub Hk]].
    destruct (strategies_has_key emotion k Hk) as [prompt Hp].
    destruct (decide_strategy_returns E emotion trigger api k prompt Hsub Hp)
      as [first [fp [second [sp Hd]]]].
    destruct (summary_step E Hok Tag1 api emotion trigger first second)
      as [summary Hs].
    assert (Hj : join_triggers (PList l) = Ok (Plain (String.concat ", " ss)))
      by (simpl; rewrite Hss; reflexivity).
    destruct (exit_phase1_commits E db key row api to_send _ _ _ _ _ _ _ _ _ _
                Ht Hf He Hd Hs Hj (commit_step E Hok)) as [row' [Hl [Hr _]]].
    exists row'. split; [exact Hl|]. rewrite H1.
    destruct Hr as [-> | ->]; (split; [reflexivity|]);
      (split; [reflexivity|]); intros _; (split; [exact Hf|reflexivity]). }
  destruct (decide (current_phase row = Some "2a")) as [H2|H2].
  { destruct (summary_step E Hok Tag2a api (emotion_before row)
                (primary_trigger row) (first_strategy row) (second_strategy row))
      as [summary Hs].
    rewrite (exit_phase2a_commits E db key row api to_send _ _ _ Hs He
               (commit_step E Hok)).
    simpl. rewrite lookup_insert_eq. eexists. split; [reflexivity|].
    rewrite H2. split; [reflexivity|]. split; [reflexivity|discriminate]. }
  destruct (decide (current_phase row = Some "2b")) as [H3|H3].
  { destruct (summary_step E Hok Tag2b api (emotion_before row)
                (primary_trigger row) (first_strategy row) (second_strategy row))
      as [summary Hs].
    rewrite (exit_phase2b_commits E db key row api to_send _ _ _ Hs He
               (commit_step E Hok)).
    simpl. rewrite lookup_insert_eq. eexists. split; [reflexivity|].
    rewrite H3. split; [reflexivity|]. split; [reflexivity|discriminate]. }
  destruct (decide (current_phase row = Some "3")) as [H4|H4].
  { destruct (summary_step E Hok Tag3 api (emotion_before row)
                (primary_trigger row) (first_strategy row) (second_strategy row))
      as [summary Hs].
    rewrite (exit_phase3_commits E db key row api to_send _ _ _ Hs He
               (duration_step E Hok) (commit_step E Hok)).
    rewrite lookup_insert_eq. eexists. split; [reflexivity|].
    rewrite H4. split; [reflexivity|]. split; [reflexivity|discriminate]. }
  simpl in Hin. exfalso. intuition congruence.
Qed.

(** An exit whose emotion call raises writes nothing and raises. *)
Lemma end_phase_emotion_raises (E : env) (db : store) (key : string * Z)
    (row : Intervention) (req : request) (to_send : list message) (e : exn) :
  In (current_phase row) [Some "1"; Some "2a"; Some "2b"; Some "3"] ->
  identify_emotion_plutchik E (emotion_call_history E row req) = Raise e ->
  exists e',
    end_phase E db key row (current_history_for_api E row req) to_send
      = (db, Raise e').
Proof.
  intros Hin He. unfold end_phase, emotion_call_history in *.
  set (api := current_history_for_api E row req) in *.
  destruct (decide (current_phase row = Some "1")) as [H1|H1].
  { rewrite decide_False in He by congruence.
    rewrite decide_False in He by congruence.
    unfold exit_phase1.
    destruct (extract_trigger_types E api) as [found|e0]; simpl; [|eauto].
    destruct (first_trigger found) as [trigger|e0]; simpl; [|eauto].
    rewrite He. simpl. eauto. }
  destruct (decide (current_phase row = Some "2a")) as [H2|H2].
  { unfold exit_phase2a.
    destruct (context_builder _ _ _ _ _ _ _); [|eauto]. rewrite He. eauto. }
  destruct (decide (current_phase row = Some "2b")) as [H3|H3].
  { unfold exit_phase2b.
    destruct (context_builder _ _ _ _ _ _ _); [|eauto]. rewrite He. eauto. }
  destruct (decide (current_phase row = Some "3")) as [H4|H4].
  { unfold exit_phase3.
    destruct (context_builder _ _ _ _ _ _ _); [|eauto]. rewrite He. eauto. }
  simpl in Hin. exfalso. intuition congruence.
Qed.

(** C7, counterexample. During the exit of phase "1" the call that
    classifies the emotion raises, and in a second environment the call
    that extracts the triggers raises: no default is put in place, the
    request is answered with status 500 and the session stays in phase
    "1". *)
Lemma classification_failure_counterexample :
  let E1 := example_env (Raises APIError) (Returns (Some "TRIGGERS"))
              (Returns (Some "Positive Cognitive Change"))
              (fun _ => Returns (Some "REPLY")) (fun _ => true) in
  let E2 := example_env (Returns (Some "EMOTION")) (Raises APIError)
              (Returns (Some "Positive Cognitive Change"))
              (fun _ => Returns (Some "REPLY")) (fun _ => true) in
  let db := example_db "1" "initial" in
  let req := example_request "endphase()" in
  identify_emotion_plutchik E1 [] = Raise APIError
  /\ extract_trigger_types E2 [] = Raise APIError
  /\ chat E1 db req = (db, UnhandledError APIError "P001")
  /\ chat E2 db req = (db, UnhandledError APIError "P001")
  /\ status (snd (chat E1 db req)) = 500%Z
  /\ current_phase <$> (chat_store E1 db req !! ("P001", 1%Z)) = Some (Some "1").
Proof. vm_compute. auto 10. Qed.

(** C7, amended. Each of the two calls is taken on its own, at the history
    the exit sends it. When the emotion call answers and its answer cannot
    be parsed, the wrapper returns "neutral" with confidence 0.5, and the
    exit of any of the four phases, its other steps succeeding, leaves the
    next phase and the emotion "neutral" in the row, whatever the triggers
    extracted are. When the trigger call answers and its answer cannot be
    parsed, the wrapper returns the empty list, and the exit of phase "1",
    its other steps succeeding, leaves phase "2a", the primary trigger
    "unknown" and an empty trigger text in the row, whatever the emotion
    classified is. When the emotion call raises, the wrapper raises, the
    request is answered with status 500 and the table is as it was; when
    the trigger call raises in phase "1", the answer carries its
    exception. *)
Theorem unparseable_classification_neutral :
  forall E (db : store) req row,
    openai_client E = true ->
    req_participant_id req <> "" ->
    req_is_new_session req = false ->
    req_intervention_id req <> 0%Z ->
    db !! (req_participant_id req, req_intervention_id req) = Some row ->
    In (current_phase row) [Some "1"; Some "2a"; Some "2b"; Some "3"] ->
    is_endphase_command_default (req_message req) = true ->
    let key := (req_participant_id req, req_intervention_id req) in
    let api := current_history_for_api E row req in
    let h := emotion_call_history E row req in
    (forall h0, emotion_unparseable E h0 ->
                identify_emotion_plutchik E h0 = Ok (PStr "neutral", PNum (1 # 2)))
    /\ (forall h0, triggers_unparseable E h0 ->
                   extract_trigger_types E h0 = Ok (PList []))
    /\ (emotion_unparseable E h ->
        other_steps_succeed E ->
        (current_phase row = Some "1" ->
         exists l ss, extract_trigger_types E api = Ok (PList l)
                      /\ all_strings l = Some ss) ->
        exists row',
          chat_store E db req !! key = Some row'
          /\ current_phase row' = next_phase (current_phase row)
          /\ current_phase row' <> current_phase row
          /\ emotion_snapshot (current_phase row) row' = PStr "neutral")
    /\ (triggers_unparseable E api ->
        current_phase row = Some "1" ->
        other_steps_succeed E ->
        (exists emotion confidence,
            identify_emotion_plutchik E api = Ok (emotion, confidence)) ->
        exists row',
          chat_store E db req !! key = Some row'
          /\ current_phase row' = Some "2a"
          /\ primary_trigger row' = PStr "unknown"
          /\ triggers row' = Some (Plain ""))
    /\ (forall e, emotion_completion E (tail h) = Raises e ->
          identify_emotion_plutchik E h = Raise e
          /\ status (snd (chat E db req)) = 500%Z
          /\ chat_store E db req = db)
    /\ (forall e, trigger_completion E api = Raises e ->
          current_phase row = Some "1" ->
          extract_trigger_types E api = Raise e
          /\ chat E db req = (db, UnhandledError e (req_participant_id req))).
Proof.
  intros E db req row Hclient Hpid Hnew Hiid Hrow Hin Hcmd key api h.
  subst key api h.
  pose proof (chat_command E db req row Hpid Hnew Hiid Hrow Hcmd) as Hchat.
  assert (Hnext : next_phase (current_phase row) <> current_phase row).
  { simpl in Hin. destruct Hin as [<-|[<-|[<-|[<-|[]]]]]; discriminate. }
  split; [intros h0; apply identify_emotion_unparseable, Hclient|].
  split; [intros h0; apply extract_triggers_unparseable, Hclient|].
  split; [|split; [|split]].
  - intros Hun Hok Htr.
    pose proof (identify_emotion_unparseable E _ Hclient Hun) as He.
    assert (Htr' : exists l ss,
               current_phase row = Some "1" ->
               extract_trigger_types E (current_history_for_api E row req)
                 = Ok (PList l)
               /\ all_strings l = Some ss).
    { destruct (decide (current_phase row = Some "1")) as [H1|H1].
      - destruct (Htr H1) as [l [ss Hl]]. exists l, ss. auto.
      - exists [], []. intros H. contradiction. }
    destruct Htr' as [l [ss Htr']].
    destruct (end_phase_classified E db
                (req_participant_id req, req_intervention_id req) row req
                (req_history req ++ [user (req_message req)])
                _ _ l ss Hok Hin He Htr') as [row' [Hl [Hp [Hs _]]]].
    exists row'. unfold chat_store. rewrite Hchat.
    destruct (end_phase E db _ row _ _) as [db1 [resp|e]]; cbn [fst] in *;
      (split; [exact Hl|]); (split; [exact Hp|]); (split; [congruence|exact Hs]).
  - intros Hun H1 Hok [emotion [confidence He]].
    pose proof (extract_triggers_unparseable E _ Hclient Hun) as Ht.
    assert (He' : identify_emotion_plutchik E (emotion_call_history E row req)
                  = Ok (emotion, confidence)).
    { unfold emotion_call_history. rewrite !decide_False by congruence.
      exact He. }
    destruct (end_phase_classified E db
                (req_participant_id req, req_intervention_id req) row req
                (req_history req ++ [user (req_message req)])
                _ _ [] [] Hok Hin He' (fun _ => conj Ht eq_refl))
      as [row' [Hl [Hp [_ Hcol]]]].
    destruct (Hcol H1) as [Hfirst Htext]. injection Hfirst as Hfirst.
    exists row'. unfold chat_store. rewrite Hchat.
    destruct (end_phase E db _ row _ _) as [db1 [resp|e]]; cbn [fst] in *;
      (split; [exact Hl|]); (split; [rewrite Hp, H1; reflexivity|]); auto.
  - intros e Hcall.
    pose proof (identify_emotion_raises E _ e Hclient Hcall) as He.
    split; [exact He|].
    destruct (end_phase_emotion_raises E db
                (req_participant_id req, req_intervention_id req) row req
                (req_history req ++ [user (req_message req)]) e Hin He)
      as [e' Hend].
    unfold chat_store. rewrite Hchat, Hend.
    split; reflexivity.
  - intros e Hcall H1.
    pose proof (extract_triggers_raises E _ e Hclient Hcall) as Ht.
    split; [exact Ht|].
    rewrite Hchat. unfold end_phase. rewrite decide_True by exact H1.
    unfold exit_phase1. rewrite Ht. reflexivity.
Qed.

Lemma unparseable_classification_neutral_witness :
  let E := example_env (Returns (Some "not json")) (Returns (Some "TRIGGERS"))
             (Returns (Some "Positive Cognitive Change"))
             (fun _ => Returns (Some "REPLY")) (fun _ => true) in
  let db := example_db "1" "initial" in
  let req := example_request "endphase()" in
  identify_emotion_plutchik E [] = Ok (PStr "neutral", PNum (1 # 2))
  /\ exists row',
       chat_store E db req !! ("P001", 1%Z) = Some row'
       /\ current_phase row' = Some "2a"
       /\ emotion_before row' = PStr "neutral".
Proof.
  intros E db req.
  assert (Hun : forall h, emotion_unparseable E h).
  { intros h. exists (Some "not json"). split; [reflexivity|].
    intros text [= <-]. reflexivity. }
  assert (Hok : other_steps_succeed E).
  { split.
    - intros h. exists "Positive Cognitive Change". split; [reflexivity|].
      simpl. tauto.
    - intros tag h e t f s0. exists "SUMMARY". reflexivity.
    - reflexivity.
    - reflexivity. }
  pose proof (unparseable_classification_neutral E db req
                (example_row "1" "initial")) as H.
  cbv zeta in H.
  destruct H as [H1 [_ [H3 _]]].
  - reflexivity.
  - discriminate.
  - reflexivity.
  - discriminate.
  - reflexivity.
  - simpl. tauto.
  - reflexivity.
  - split; [apply H1, Hun|].
    destruct (H3 (Hun _) Hok) as [row' [Hrow [Hp [_ Hs]]]].
    + intros _. exists [PStr "relationship trigger"], ["relationship trigger"].
      split; reflexivity.
    + exists row'. split; [exact Hrow|]. split; [exact Hp|exact Hs].
Defined.

(** * Further properties of the code *)

(** ** Which row a request writes *)

Lemma chat_store_key (E : env) (db : store) (req : request) :
  chat_store E db req = db
  \/ exists row',
       chat_store E db req = <[session_key db req := row']> db
       /\ match db !! session_key db req with
          | Some row =>
              req_is_new_session req = false
              /\ exit_write E row row'
              /\ (is_endphase_command_default (req_message req) = false ->
                  row' = row)
          | None => True
          end.
Proof.
  unfold chat_store.
  destruct (String.eqb (req_participant_id req) "") eqn:Hpid.
  { left. unfold chat. rewrite Hpid. reflexivity. }
  apply String.eqb_neq in Hpid.
  destruct (session_handling E db req) as [resp|[db0 iid]] eqn:Hsession.
  { left. unfold chat. apply String.eqb_neq in Hpid. rewrite Hpid, Hsession.
    reflexivity. }
  right.
  assert (Hcases :
    (req_participant_id req, iid) = session_key db req
    /\ (db0 = db /\ req_is_new_session req = false
        /\ (exists row, db !! session_key db req = Some row)
        \/ exists new, db !! session_key db req = None
                       /\ db0 = <[session_key db req := new]> db)).
  { unfold session_handling in Hsession. unfold session_key.
    destruct (req_is_new_session req).
    - destruct (commit_ok E CommitNewSession); [|discriminate].
      injection Hsession as <- <-. split; [reflexivity|]. right.
      eexists. split; [|reflexivity]. apply new_intervention_id_fresh.
    - destruct (req_intervention_id req =? 0)%Z; [discriminate|].
      destruct (db !! (req_participant_id req, req_intervention_id req))
        as [row|] eqn:Hrow.
      + injection Hsession as <- <-. split; [reflexivity|]. left. eauto.
      + destruct (commit_ok E CommitRecovery); [|discriminate].
        injection Hsession as <- <-. split; [reflexivity|]. right. eauto. }
  destruct Hcases as [Hkey Hcases]. rewrite <- Hkey in *.
  destruct Hcases as [[-> [Hnew [row Hrow]]]|[new [Hnone ->]]].
  - rewrite (chat_after_handling E db db req iid row Hpid Hsession Hrow).
    destruct (dispatch_write E db _ row
                (initial_prefix E row ++ req_history req ++ [user (req_message req)])
                (req_history req ++ [user (req_message req)]) (req_message req) Hrow)
      as [row' [Hdb [Hw Hsame]]].
    exists row'. rewrite Hrow. auto.
  - assert (Hrow : (<[(req_participant_id req, iid) := new]> db)
                     !! (req_participant_id req, iid) = Some new)
      by apply lookup_insert_eq.
    rewrite (chat_after_handling E db _ req iid new Hpid Hsession Hrow).
    destruct (dispatch_write E _ _ new
                (initial_prefix E new ++ req_history req ++ [user (req_message req)])
                (req_history req ++ [user (req_message req)]) (req_message req) Hrow)
      as [row' [Hdb [Hw Hsame]]].
    exists row'. rewrite Hdb, insert_insert_eq, Hnone. auto.
Qed.

(** X1. A request writes at most the row of its own session: every row
    under another key is after the request what it was before, and a
    request that opens a new session leaves every row that was in the
    table as it was. *)
Theorem chat_other_sessions_untouched :
  forall E (db : store) req,
    (forall key, key <> session_key db req ->
                 chat_store E db req !! key = db !! key)
    /\ (req_is_new_session req = true ->
        forall key row, db !! key = Some row ->
                        chat_store E db req !! key = Some row).
Proof.
  intros E db req.
  destruct (chat_store_key E db req) as [->|[row' [Hdb Hk]]]; [auto|].
  split.
  - intros key Hne. rewrite Hdb. apply lookup_insert_ne. congruence.
  - intros Hnew key row Hrow. rewrite Hdb.
    destruct (decide (session_key db req = key)) as [<-|Hne].
    + rewrite Hrow in Hk. destruct Hk as [Hk _]. congruence.
    + rewrite lookup_insert_ne by assumption. exact Hrow.
Qed.

(** X2. A message that is not a command is read-only on the table: for a
    session that has its row, the table after the request is the table
    before it, whatever the marker, the clients and the models do. *)
Theorem continue_turn_read_only :
  forall E (db : store) req row,
    req_participant_id req <> "" ->
    req_is_new_session req = false ->
    req_intervention_id req <> 0%Z ->
    db !! (req_participant_id req, req_intervention_id req) = Some row ->
    is_endphase_command_default (req_message req) = false ->
    chat_store E db req = db.
Proof.
  intros E db req row Hpid Hnew Hiid Hrow Hcmd. unfold chat_store.
  rewrite (chat_existing E db req row Hpid Hnew Hiid Hrow).
  unfold dispatch. rewrite Hcmd.
  destruct (negb (openai_client E)); [reflexivity|].
  rewrite (continue_turn_eq E db _ row _ _ Hrow). reflexivity.
Qed.

Lemma continue_turn_read_only_witness :
  chat_store fair_env (example_db "2a" "phase2a") (example_request "hello")
  = example_db "2a" "phase2a".
Proof.
  apply (continue_turn_read_only fair_env (example_db "2a" "phase2a")
           (example_request "hello") (example_row "2a" "phase2a"));
    try reflexivity; discriminate.
Defined.

Lemma chat_other_sessions_untouched_witness :
  let req := example_request "endphase()" in
  let opening := {| req_message := "hi"; req_history := [];
                    req_participant_id := "P001"; req_is_new_session := true;
                    req_intervention_id := 0 |} in
  ("P002", 1%Z) <> session_key two_sessions_db req
  /\ chat_store fair_env two_sessions_db req !! ("P002", 1%Z)
     = two_sessions_db !! ("P002", 1%Z)
  /\ chat_store fair_env two_sessions_db opening !! ("P001", 1%Z)
     = Some (example_row "1" "initial").
Proof.
  intros req opening.
  assert (Hne : ("P002", 1%Z) <> session_key two_sessions_db req) by discriminate.
  split; [exact Hne|]. split.
  - apply (proj1 (chat_other_sessions_untouched fair_env two_sessions_db req)), Hne.
  - apply (proj2 (chat_other_sessions_untouched fair_env two_sessions_db opening));
      reflexivity.
Defined.

(** ** What the answers carry *)

(** The answers of the three-way branch. *)
Lemma dispatch_history (E : env) (db : store) (key : string * Z)
    (row : Intervention) (marker : option string)
    (api to_send : list message) (msg : string) (h : list message) :
  response_history (snd (dispatch E db key row marker api to_send msg)) = Some h ->
  exists reply, h = to_send ++ [assistant reply].
Proof.
  unfold dispatch. destruct (is_endphase_command_default msg).
  - pose proof (end_phase_answers E db key row api to_send) as Ha.
    destruct (end_phase E db key row api to_send) as [db1 [resp|e]]; simpl in *.
    + destruct Ha as [->|[reply ->]]; simpl; [discriminate|].
      intros [= <-]. eauto.
    + discriminate.
  - destruct (negb (openai_client E)); simpl.
    + intros [= <-]. eauto.
    + unfold continue_turn.
      destruct (pending_prompt E db key row marker api) as [db1 api1].
      simpl. unfold reply_of.
      destruct (reply_completion E api1) as [?|[?|]]; simpl;
        intros [= <-]; eauto.
Qed.

(** X3. Whenever an answer of [chat] carries a history, it is the history
    the client sent, followed by the message of the request and by exactly
    one assistant message: no system prompt that the handler puts into the
    conversation for the models is ever returned to the client. *)
Theorem returned_history_shape :
  forall E (db : store) req h,
    response_history (snd (chat E db req)) = Some h ->
    exists reply,
      h = req_history req ++ [user (req_message req); assistant reply]
      /\ Forall (fun m => In m (req_history req) \/ role m <> "system")
           h.
Proof.
  intros E db req h Hh.
  assert (Hshape : exists reply,
             h = (req_history req ++ [user (req_message req)]) ++ [assistant reply]).
  { unfold chat in Hh.
    destruct (String.eqb (req_participant_id req) ""); [discriminate|].
    destruct (session_handling E db req) as [resp|[db0 iid]] eqn:Hs.
    - unfold session_handling in Hs.
      destruct (req_is_new_session req).
      + destruct (commit_ok E CommitNewSession); [discriminate|].
        injection Hs as <-. discriminate.
      + destruct (req_intervention_id req =? 0)%Z;
          [injection Hs as <-; discriminate|].
        destruct (db !! _); [discriminate|].
        destruct (commit_ok E CommitRecovery); [discriminate|].
        injection Hs as <-. discriminate.
    - destruct (db0 !! _) as [row|]; [|discriminate].
      destruct (initial_block E db0 _ row) as [db1 row1].
      eapply dispatch_history, Hh. }
  destruct Hshape as [reply ->]. exists reply.
  rewrite <- app_assoc. split; [reflexivity|].
  apply Forall_app. split.
  - apply Forall_forall. intros m Hm. left.
    apply list_elem_of_In. exact Hm.
  - constructor; [right; discriminate|].
    constructor; [right; discriminate|]. constructor.
Qed.

Lemma returned_history_shape_witness :
  exists reply,
    [user "endphase()"; assistant "SUMMARY"]
    = [] ++ [user "endphase()"; assistant reply]
    /\ Forall (fun m => In m [] \/ role m <> "system")
         [user "endphase()"; assistant "SUMMARY"].
Proof.
  apply (returned_history_shape fair_env (example_db "1" "initial")
           (example_request "endphase()")).
  reflexivity.
Defined.

(** X4. [chat] answers with status 400 exactly when the participant id is
    missing, or the request continues a session and names no intervention
    id; such a request leaves the table unchanged, and so does every
    request whose session handling cannot commit. *)
Theorem bad_requests :
  forall E (db : store) req,
    (status (snd (chat E db req)) = 400%Z <->
     req_participant_id req = ""
     \/ req_is_new_session req = false /\ req_intervention_id req = 0%Z)
    /\ (status (snd (chat E db req)) = 400%Z -> chat_store E db req = db).
Proof.
  intros E db req.
  assert (Hdispatch : forall db0 key row marker api ts msg,
             status (snd (dispatch E db0 key row marker api ts msg)) <> 400%Z).
  { intros db0 key row marker api ts msg. unfold dispatch.
    destruct (is_endphase_command_default msg).
    - pose proof (end_phase_answers E db0 key row api ts) as Ha.
      destruct (end_phase E db0 key row api ts) as [db1 [resp|e]]; simpl in *.
      + destruct Ha as [->|[reply ->]]; discriminate.
      + discriminate.
    - destruct (negb (openai_client E)); simpl; [discriminate|].
      unfold continue_turn.
      destruct (pending_prompt E db0 key row marker api) as [db1 api1].
      simpl. unfold reply_of.
      destruct (reply_completion E api1) as [?|[?|]]; discriminate. }
  unfold chat_store, chat.
  destruct (String.eqb_spec (req_participant_id req) "") as [Hpid|Hpid].
  { simpl. split; [split; auto|auto]. }
  unfold session_handling.
  destruct (req_is_new_session req).
  - destruct (commit_ok E CommitNewSession).
    + rewrite lookup_insert_eq.
      destruct (initial_block _ _ _ _) as [db1 row1].
      split; [split|]; intros H; try (exfalso; revert H; apply Hdispatch).
      destruct H as [H|[H _]]; [contradiction|discriminate].
    + simpl. split; [split|]; intros H; try discriminate.
      destruct H as [H|[H _]]; [contradiction|discriminate].
  - destruct (Z.eqb_spec (req_intervention_id req) 0) as [Hiid|Hiid].
    { simpl. split; [split; auto|auto]. }
    assert (Hno : ~ (req_participant_id req = ""
                     \/ false = false /\ req_intervention_id req = 0%Z))
      by (intros [H|[_ H]]; contradiction).
    destruct (db !! (req_participant_id req, req_intervention_id req))
      as [row|] eqn:Hrow.
    + rewrite Hrow. destruct (initial_block _ _ _ _) as [db1 row1].
      split; [split|]; intros H; try contradiction;
        exfalso; revert H; apply Hdispatch.
    + destruct (commit_ok E CommitRecovery).
      * rewrite lookup_insert_eq. destruct (initial_block _ _ _ _) as [db1 row1].
        split; [split|]; intros H; try contradiction;
          exfalso; revert H; apply Hdispatch.
      * simpl. split; [split|]; intros H; try contradiction; discriminate.
Qed.

Lemma bad_requests_witness :
  let req := {| req_message := "hi"; req_history := [];
                req_participant_id := "P001"; req_is_new_session := false;
                req_intervention_id := 0 |} in
  status (snd (chat fair_env two_sessions_db req)) = 400%Z
  /\ chat_store fair_env two_sessions_db req = two_sessions_db.
Proof.
  intros req.
  assert (H : status (snd (chat fair_env two_sessions_db req)) = 400%Z).
  { apply (proj1 (bad_requests fair_env two_sessions_db req)). right. auto. }
  split; [exact H|].
  apply (proj2 (bad_requests fair_env two_sessions_db req)), H.
Defined.

(** ** What is written once *)

Lemma exit_write_identification (E : env) (row row' : Intervention) :
  exit_write E row row' ->
  current_phase row <> Some "1" ->
  identification_columns row' = identification_columns row
  /\ current_phase row' <> Some "1".
Proof.
  intros Hw Hp.
  destruct Hw as [|? ? ? ? ? ? H|? ? ? ? ? ? ? ? H|? ? H|? ? H|? ? H|? ? ? ? H];
    try congruence; simpl;
    (split; [reflexivity|first [exact Hp|discriminate]]).
Qed.

(** X5. What the exit of phase "1" writes is written once: from the
    moment the row of a session is in another phase than "1", no sequence
    of requests changes its summary of phase 1, its emotion, its triggers,
    its primary trigger, its two strategy ids, the start time of phase 2a
    or its two stored strategy prompts, and the session never is in phase
    "1" again. *)
Theorem identification_written_once :
  forall reqs (db : store) key row,
    db !! key = Some row ->
    current_phase row <> Some "1" ->
    exists row',
      serve db reqs !! key = Some row'
      /\ identification_columns row' = identification_columns row
      /\ current_phase row' <> Some "1".
Proof.
  induction reqs as [|[E req] reqs IH]; intros db key row Hrow Hp.
  - exists row. auto.
  - simpl.
    assert (Hstep : exists row1,
               chat_store E db req !! key = Some row1
               /\ identification_columns row1 = identification_columns row
               /\ current_phase row1 <> Some "1").
    { destruct (chat_store_key E db req) as [->|[r [Hdb Hk]]]; [eauto|].
      rewrite Hdb. destruct (decide (session_key db req = key)) as [Heq|Hne].
      - rewrite Heq in *. rewrite Hrow in Hk. destruct Hk as [_ [Hw _]].
        exists r. rewrite lookup_insert_eq. split; [reflexivity|].
        apply (exit_write_identification E row r Hw Hp).
      - exists row. rewrite lookup_insert_ne by assumption. auto. }
    destruct Hstep as [row1 [Hrow1 [Hcols Hp1]]].
    destruct (IH _ key row1 Hrow1 Hp1) as [row' [Hrow' [Hcols' Hp']]].
    exists row'. split; [exact Hrow'|]. split; [congruence|exact Hp'].
Qed.

Lemma identification_written_once_witness :
  let db := example_db "2a" "phase2a" in
  let reqs := [(fair_env, example_request "endphase()");
               (fair_env, example_request "hello");
               (fair_env, example_request "endphase()")] in
  exists row',
    serve db reqs !! ("P001", 1%Z) = Some row'
    /\ identification_columns row'
       = identification_columns (example_row "2a" "phase2a")
    /\ current_phase row' <> Some "1".
Proof.
  apply (identification_written_once _ (example_db "2a" "phase2a")
           ("P001", 1%Z) (example_row "2a" "phase2a")).
  - reflexivity.
  - discriminate.
Defined.

(** ** Requests that raise *)

(** X6. An exit that raises writes nothing: when a request for a session
    that has its row is answered by the outer [except], the table is as it
    was before the request. The one exception is the last exit, which
    commits phase "4" first and raises afterwards when the server has no
    shutdown hook. *)
Theorem raising_request_writes_nothing :
  forall E (db : store) req row e participant_id,
    req_participant_id req <> "" ->
    req_is_new_session req = false ->
    req_intervention_id req <> 0%Z ->
    db !! (req_participant_id req, req_intervention_id req) = Some row ->
    snd (chat E db req) = UnhandledError e participant_id ->
    chat_store E db req = db
    \/ current_phase row = Some "3" /\ werkzeug_shutdown E = false
       /\ e = RuntimeError.
Proof.
  intros E db req row e p Hpid Hnew Hiid Hrow. unfold chat_store.
  rewrite (chat_existing E db req row Hpid Hnew Hiid Hrow).
  unfold dispatch. destruct (is_endphase_command_default (req_message req)).
  - match goal with |- context [end_phase E db ?k row ?a ?t] =>
      pose proof (end_phase_answers E db k row a t) as Ha;
      destruct (end_phase E db k row a t) as [db1 [resp|e']]
    end; simpl in *.
    + destruct Ha as [->|[reply ->]]; discriminate.
    + intros [= <- _]. exact Ha.
  - destruct (negb (openai_client E)); simpl; [discriminate|].
    rewrite (continue_turn_eq E db _ row _ _ Hrow). simpl.
    unfold reply_of. destruct (reply_completion E _) as [?|[?|]]; discriminate.
Qed.

Lemma raising_request_writes_nothing_witness :
  let E := example_env (Raises APIError) (Returns (Some "TRIGGERS"))
             (Returns (Some "Positive Cognitive Change"))
             (fun _ => Returns (Some "REPLY")) (fun _ => true) in
  let db := example_db "2a" "phase2a" in
  let req := example_request "endphase()" in
  snd (chat E db req) = UnhandledError APIError "P001"
  /\ (chat_store E db req = db
      \/ current_phase (example_row "2a" "phase2a") = Some "3"
         /\ werkzeug_shutdown E = false /\ APIError = RuntimeError).
Proof.
  intros E db req.
  assert (H : snd (chat E db req) = UnhandledError APIError "P001") by reflexivity.
  split; [exact H|].
  apply (raising_request_writes_nothing E db req (example_row "2a" "phase2a")
           APIError "P001"); try reflexivity; try discriminate.
Defined.



(** ** The strategies decided and the prompts delivered *)

Lemma dict_getitem_fallback (d : gmap string instruction) (second : pyval)
    (fallback : instruction) :
  dict_getitem d second = Ok fallback ->
  match second with
  | PStr s => default fallback (d !! s)
  | _ => fallback
  end = fallback.
Proof.
  unfold dict_getitem. destruct (negb (py_hashable second)); [discriminate|].
  destruct second; try reflexivity.
  destruct (d !! s); [intros [= ->]; reflexivity|discriminate].
Qed.

Lemma choose_strategies_first (E : env) (base : string) (h : list message)
    (first second : pyval) :
  choose_strategies E base h = Ok (first, second) ->
  first = PStr "Attentional Deployment" \/ first = PStr "Situation Modification".
Proof.
  unfold choose_strategies.
  repeat match goal with
         | |- context [if ?c then _ else _] => destruct c
         end;
    try (intros [= <- _]; auto);
    destruct (decide_reappraisal_subtype E h); simpl; intros [= <- _]; auto.
Qed.

(** X8. Whenever [decide_strategy] returns, the first strategy is
    Attentional Deployment or Situation Modification, and the two
    instruction bodies are the entries of the template table under the two
    ids it returns, instantiated with the emotion it was given. *)
Theorem decide_strategy_returns_table_entries :
  forall E e t h first first_prompt second second_prompt,
    decide_strategy E e t h = Ok (first, first_prompt, second, second_prompt) ->
    (first = PStr "Attentional Deployment" /\
     first_prompt = AttentionalDeploymentPrompt e
     \/ first = PStr "Situation Modification" /\
        first_prompt = SituationModificationPrompt)
    /\ exists key,
         second = PStr key /\ strategies e !! key = Some second_prompt.
Proof.
  intros E e t h first fp second sp. unfold decide_strategy.
  destruct (choose_strategies E (base_category e) h) as [[f s]|err] eqn:Hc;
    [|discriminate].
  simpl. apply choose_strategies_first in Hc.
  destruct (dict_getitem (strategies e) f) as [p1|] eqn:H1; [|discriminate].
  simpl. destruct (dict_getitem (strategies e) s) as [p2|] eqn:H2; [|discriminate].
  simpl. rewrite (dict_getitem_fallback _ _ _ H2).
  intros [= <- <- <- <-]. split.
  - destruct Hc as [-> | ->]; vm_compute in H1; injection H1 as <-; auto.
  - unfold dict_getitem in H2. destruct (negb (py_hashable s)); [discriminate|].
    destruct s; try discriminate.
    destruct (strategies e !! s) eqn:Hs; [|discriminate].
    injection H2 as <-. eauto.
Qed.

Lemma decide_strategy_returns_table_entries_witness :
  (PStr "Situation Modification" = PStr "Attentional Deployment" /\
   SituationModificationPrompt = AttentionalDeploymentPrompt (PStr "disgust")
   \/ PStr "Situation Modification" = PStr "Situation Modification" /\
      SituationModificationPrompt = SituationModificationPrompt)
  /\ exists key,
       PStr "Positive Cognitive Change" = PStr key
       /\ strategies (PStr "disgust") !! key = Some PositiveCognitiveChangePrompt.
Proof.
  apply (decide_strategy_returns_table_entries fair_env (PStr "disgust")
           (PStr "somatic trigger") []).
  reflexivity.
Defined.

Lemma decide_strategy_returns_first_second (E : env) (e t : pyval)
    (h : list message) (first : pyval) (first_prompt : instruction)
    (second : pyval) (second_prompt : instruction) :
  decide_strategy E e t h = Ok (first, first_prompt, second, second_prompt) ->
  exists key1 key2,
    first = PStr key1 /\ second = PStr key2
    /\ strategies e !! key1 = Some first_prompt
    /\ strategies e !! key2 = Some second_prompt.
Proof.
  unfold decide_strategy.
  destruct (choose_strategies E (base_category e) h) as [[f s]|err] eqn:Hc;
    [|discriminate].
  simpl. apply choose_strategies_first in Hc.
  destruct (dict_getitem (strategies e) f) as [p1|] eqn:H1; [|discriminate].
  simpl. destruct (dict_getitem (strategies e) s) as [p2|] eqn:H2; [|discriminate].
  simpl. rewrite (dict_getitem_fallback _ _ _ H2).
  intros [= <- <- <- <-].
  unfold dict_getitem in H2. destruct (negb (py_hashable s)); [discriminate|].
  destruct s; try discriminate.
  destruct (strategies e !! s) eqn:Hs; [|discriminate].
  injection H2 as <-.
  destruct Hc as [-> | ->]; vm_compute in H1; injection H1 as <-;
    eexists _, s; repeat split; try reflexivity; assumption.
Qed.

Lemma exit_phase1_stores_prompts (E : env) (db : store) (key : string * Z)
    (row : Intervention) (api to_send : list message)
    (found trigger emotion confidence first second : pyval)
    (first_prompt second_prompt : instruction) (summary : string)
    (joined : rendered) :
  extract_trigger_types E api = Ok found ->
  first_trigger found = Ok trigger ->
  identify_emotion_plutchik E api = Ok (emotion, confidence) ->
  decide_strategy E emotion trigger api
    = Ok (first, first_prompt, second, second_prompt) ->
  context_builder E api emotion trigger first second Tag1 = Ok summary ->
  join_triggers found = Ok joined ->
  commit_ok E CommitExit = true ->
  commit_ok E CommitPrompts = true ->
  fst (exit_phase1 E db key row api to_send) =
    <[key := store_prompts
               (Phase2SystemPrompt emotion trigger first first_prompt)
               (Phase2bSystemPrompt emotion trigger second second_prompt)
               (update_phase1 E summary emotion joined trigger first second row)]> db.
Proof.
  intros Ht Hf He Hd Hs Hj Hc Hp. unfold exit_phase1.
  rewrite Ht. simpl. rewrite Hf. simpl. rewrite He. simpl. rewrite Hd. simpl.
  rewrite Hs. simpl. rewrite Hj. unfold commit_or_rollback. rewrite Hc, Hp.
  simpl. apply insert_insert_eq.
Qed.

(** X9. The instructions computed at the exit of phase "1" are the ones
    delivered on the next turn. After an exit of phase "1" that nothing
    hinders and whose two commits succeed, the row holds the two strategy
    prompts built from the emotion, the primary trigger and the strategy
    ids of that row, with the template of each id; and the next message
    that is not a command is sent to the reply model behind the stored
    prompt of the first strategy. *)
Theorem phase1_exit_then_turn :
  forall E1 E2 (db : store) req1 req2 row,
    exits_succeed E1 ->
    commit_ok E1 CommitPrompts = true ->
    req_participant_id req1 <> "" ->
    req_is_new_session req1 = false ->
    req_intervention_id req1 <> 0%Z ->
    db !! (req_participant_id req1, req_intervention_id req1) = Some row ->
    current_phase row = Some "1" ->
    is_endphase_command_default (req_message req1) = true ->
    req_participant_id req2 = req_participant_id req1 ->
    req_is_new_session req2 = false ->
    req_intervention_id req2 = req_intervention_id req1 ->
    is_endphase_command_default (req_message req2) = false ->
    openai_client E2 = true ->
    let key := (req_participant_id req1, req_intervention_id req1) in
    exists row1 key1 key2 first_prompt second_prompt,
      chat_store E1 db req1 !! key = Some row1
      /\ first_strategy row1 = PStr key1
      /\ second_strategy row1 = PStr key2
      /\ strategies (emotion_before row1) !! key1 = Some first_prompt
      /\ strategies (emotion_before row1) !! key2 = Some second_prompt
      /\ phase2_prompt row1
         = Phase2SystemPrompt (emotion_before row1) (primary_trigger row1)
             (first_strategy row1) first_prompt
      /\ phase2b_prompt row1
         = Phase2bSystemPrompt (emotion_before row1) (primary_trigger row1)
             (second_strategy row1) second_prompt
      /\ chat E2 (chat_store E1 db req1) req2
         = (chat_store E1 db req1,
            reply_of
              (reply_completion E2
                 (system (phase2_prompt row1)
                    :: req_history req2 ++ [user (req_message req2)]))
              (req_history req2 ++ [user (req_message req2)]) key).
Proof.
  intros E1 E2 db req1 req2 row Hok Hprompts Hpid Hnew Hiid Hrow Hphase Hcmd
    Hpid2 Hnew2 Hiid2 Hcmd2 Hclient key.
  set (api := initial_prefix E1 row ++ req_history req1 ++ [user (req_message req1)]).
  destruct (triggers_answer E1 Hok api) as [l [ss [Ht Hss]]].
  assert (Hf : exists trigger, first_trigger (PList l) = Ok trigger).
  { destruct l as [|[] l]; simpl in *; try discriminate; eauto. }
  destruct Hf as [trigger Hf].
  destruct (emotion_answers E1 Hok api) as [emotion [confidence He]].
  destruct (subtype_answers E1 Hok api) as [k [Hsub Hin]].
  destruct (strategies_has_key emotion k Hin) as [prompt Hk].
  destruct (decide_strategy_returns E1 emotion trigger api k prompt Hsub Hk)
    as [first [fp [second [sp Hd]]]].
  destruct (summary_answers E1 Hok Tag1 api emotion trigger first second)
    as [summary Hs].
  assert (Hj : join_triggers (PList l) = Ok (Plain (String.concat ", " ss)))
    by (simpl; rewrite Hss; reflexivity).
  pose proof (exit_phase1_stores_prompts E1 db key row api
                (req_history req1 ++ [user (req_message req1)])
                _ _ _ _ _ _ _ _ _ _ Ht Hf He Hd Hs Hj (exit_commits E1 Hok) Hprompts)
    as Hfst.
  assert (Hstore : chat_store E1 db req1
                   = fst (exit_phase1 E1 db key row api
                            (req_history req1 ++ [user (req_message req1)]))).
  { unfold chat_store. rewrite (chat_existing E1 db req1 row Hpid Hnew Hiid Hrow).
    unfold dispatch, end_phase. rewrite Hcmd, Hphase. simpl. fold api key.
    destruct (exit_phase1 E1 db key row api _) as [db1 [resp|err]];
      reflexivity. }
  rewrite Hfst in Hstore. clear Hfst.
  destruct (decide_strategy_returns_first_second E1 emotion trigger api
              first fp second sp Hd) as [k1 [k2 [-> [-> [Hk1 Hk2]]]]].
  eexists _, k1, k2, fp, sp.
  split; [rewrite Hstore; apply lookup_insert_eq|].
  simpl. repeat (split; [first [reflexivity|assumption]|]).
  assert (Hpid' : req_participant_id req2 <> "") by congruence.
  assert (Hiid' : req_intervention_id req2 <> 0%Z) by congruence.
  assert (Hrow1 : chat_store E1 db req1
                    !! (req_participant_id req2, req_intervention_id req2)
                  = Some (store_prompts
                            (Phase2SystemPrompt emotion trigger (PStr k1) fp)
                            (Phase2bSystemPrompt emotion trigger (PStr k2) sp)
                            (update_phase1 E1 summary emotion
                               (Plain (String.concat ", " ss)) trigger
                               (PStr k1) (PStr k2) row))).
  { rewrite Hpid2, Hiid2, Hstore. apply lookup_insert_eq. }
  rewrite (chat_existing E2 _ req2 _ Hpid' Hnew2 Hiid' Hrow1).
  unfold dispatch. rewrite Hcmd2, Hclient. cbn [negb].
  rewrite (continue_turn_eq E2 _ _ _ _ _ Hrow1).
  rewrite Hpid2, Hiid2. fold key.
  unfold outgoing_request, pending_prompt, initial_prefix, insert_prompt.
  cbn [insert_system_prompt store_prompts update_phase1 phase2_prompt
       content_truthy].
  repeat case_decide; try congruence.
  destruct (commit_or_rollback _ _ _ _ _) as [db1 row1].
  cbn [snd app]. destruct (existsb is_system _); reflexivity.
Qed.

Lemma phase1_exit_then_turn_witness :
  let db := example_db "1" "initial" in
  let req1 := example_request "endphase()" in
  let req2 := example_request "hello" in
  exists row1 key1 key2 first_prompt second_prompt,
    chat_store fair_env db req1 !! ("P001", 1%Z) = Some row1
    /\ first_strategy row1 = PStr key1
    /\ second_strategy row1 = PStr key2
    /\ strategies (emotion_before row1) !! key1 = Some first_prompt
    /\ strategies (emotion_before row1) !! key2 = Some second_prompt
    /\ phase2_prompt row1
       = Phase2SystemPrompt (emotion_before row1) (primary_trigger row1)
           (first_strategy row1) first_prompt
    /\ phase2b_prompt row1
       = Phase2bSystemPrompt (emotion_before row1) (primary_trigger row1)
           (second_strategy row1) second_prompt
    /\ chat fair_env (chat_store fair_env db req1) req2
       = (chat_store fair_env db req1,
          reply_of
            (reply_completion fair_env
               (system (phase2_prompt row1) :: [] ++ [user "hello"]))
            ([] ++ [user "hello"]) ("P001", 1%Z)).
Proof.
  apply (phase1_exit_then_turn fair_env fair_env (example_db "1" "initial")
           (example_request "endphase()") (example_request "hello")
           (example_row "1" "initial"));
    try reflexivity; try exact fair_env_exits_succeed; discriminate.
Defined.

(** ** Clients that are not initialised *)

(** X10. Without the OpenAI client, a message that is not a command is
    answered with status 500 and the table is left as it is; a command in
    phase "1" cannot be carried out: the error markers returned by the
    wrappers lead [decide_strategy] to the lookup of a tuple in the
    template table, the [KeyError] reaches the outer [except] and nothing
    is written. A command in phase "2a" is carried out, and records the
    error marker as the emotion after the phase. *)
Theorem without_openai_client :
  forall E (db : store) req row,
    openai_client E = false ->
    req_participant_id req <> "" ->
    req_is_new_session req = false ->
    req_intervention_id req <> 0%Z ->
    db !! (req_participant_id req, req_intervention_id req) = Some row ->
    let key := (req_participant_id req, req_intervention_id req) in
    let to_send := req_history req ++ [user (req_message req)] in
    (is_endphase_command_default (req_message req) = false ->
     chat E db req =
       (db, ClientNotInitialized ["Error: OpenAI client not initialized."]
              (to_send ++ [assistant "Error: OpenAI client not initialized."])
              key.1 key.2))
    /\ (is_endphase_command_default (req_message req) = true ->
        current_phase row = Some "1" ->
        chat E db req = (db, UnhandledError KeyError key.1))
    /\ (is_endphase_command_default (req_message req) = true ->
        current_phase row = Some "2a" ->
        commit_ok E CommitExit = true ->
        forall summary,
          context_builder E (initial_prefix E row ++ to_send) (emotion_before row)
            (primary_trigger row) (first_strategy row) (second_strategy row) Tag2a
          = Ok summary ->
          chat E db req =
            (<[key := update_phase2a E summary (PStr "error_openai_not_init") row]> db,
             ExitReply [doing_great] (to_send ++ [assistant doing_great])
               key.1 key.2)).
Proof.
  intros E db req row Hclient Hpid Hnew Hiid Hrow key to_send.
  rewrite (chat_existing E db req row Hpid Hnew Hiid Hrow). fold key to_send.
  unfold dispatch. split; [|split].
  - intros ->. rewrite Hclient. reflexivity.
  - intros -> Hphase. unfold end_phase. rewrite Hphase. simpl.
    unfold exit_phase1, extract_trigger_types, identify_emotion_plutchik,
      decide_strategy, choose_strategies, decide_reappraisal_subtype.
    rewrite Hclient. reflexivity.
  - intros -> Hphase Hc summary Hs. unfold end_phase. rewrite Hphase. simpl.
    unfold to_send in *.
    rewrite (exit_phase2a_commits E db key row _ _
               (PStr "error_openai_not_init") (PNum 0) summary Hs); [reflexivity| |exact Hc].
    unfold identify_emotion_plutchik. rewrite Hclient. reflexivity.
Qed.

Lemma without_openai_client_witness :
  let E := {| openai_client := false; gemini_client := true;
              emotion_completion := fun _ => Returns (Some "EMOTION");
              trigger_completion := fun _ => Returns (Some "TRIGGERS");
              subtype_completion := fun _ => Returns (Some "Positive Cognitive Change");
              reply_completion := fun _ => Returns (Some "REPLY");
              generate_content := fun _ _ _ _ _ _ => Returns "SUMMARY";
              json_loads := example_json_loads;
              commit_ok := fun _ => true;
              now := 1000;
              latest_heart_rate := None;
              werkzeug_shutdown := true;
              stored_times_naive := true;
              default_current_phase := Some "1";
              default_insert_system_prompt := Some "initial" |} in
  chat E (example_db "1" "initial") (example_request "endphase()")
    = (example_db "1" "initial", UnhandledError KeyError "P001")
  /\ chat E (example_db "1" "initial") (example_request "hello")
     = (example_db "1" "initial",
        ClientNotInitialized ["Error: OpenAI client not initialized."]
          (([] ++ [user "hello"])
             ++ [assistant "Error: OpenAI client not initialized."]) "P001" 1)
  /\ (chat E (example_db "2a" "phase2a") (example_request "endphase()")).2
     = ExitReply [doing_great]
         (([] ++ [user "endphase()"]) ++ [assistant doing_great]) "P001" 1.
Proof.
  intros E.
  split; [|split].
  - apply (proj1 (proj2 (without_openai_client E (example_db "1" "initial")
                  (example_request "endphase()") (example_row "1" "initial")
                  eq_refl ltac:(discriminate) eq_refl ltac:(discriminate) eq_refl)));
      reflexivity.
  - apply (proj1 (without_openai_client E (example_db "1" "initial")
                  (example_request "hello") (example_row "1" "initial")
                  eq_refl ltac:(discriminate) eq_refl ltac:(discriminate) eq_refl)).
    reflexivity.
  - rewrite (proj2 (proj2 (without_openai_client E (example_db "2a" "phase2a")
                  (example_request "endphase()") (example_row "2a" "phase2a")
                  eq_refl ltac:(discriminate) eq_refl ltac:(discriminate) eq_refl))
               eq_refl eq_refl eq_refl "SUMMARY" eq_refl).
    reflexivity.
Defined.

(** X11. Without the Gemini client no summary is generated and no error is
    raised either: [context_builder] returns the text "Error: Gemini model
    not initialized.", and an exit of phase "2b" whose emotion call
    answers and whose commit succeeds advances the session to phase "3",
    stores that text as the summary of the phase and sends it to the user
    as the reply. *)
Theorem without_gemini_client :
  forall E (db : store) req row emotion confidence,
    gemini_client E = false ->
    req_participant_id req <> "" ->
    req_is_new_session req = false ->
    req_intervention_id req <> 0%Z ->
    db !! (req_participant_id req, req_intervention_id req) = Some row ->
    current_phase row = Some "2b" ->
    is_endphase_command_default (req_message req) = true ->
    commit_ok E CommitExit = true ->
    let key := (req_participant_id req, req_intervention_id req) in
    let to_send := req_history req ++ [user (req_message req)] in
    let text := "Error: Gemini model not initialized." in
    identify_emotion_plutchik E
      (initial_prefix E row ++ to_send ++ [system Phase3SystemPrompt])
      = Ok (emotion, confidence) ->
    chat E db req =
      (<[key := update_phase2b E text emotion row]> db,
       ExitReply [text] (to_send ++ [assistant text]) key.1 key.2)
    /\ (exists row', chat_store E db req !! key = Some row'
                     /\ current_phase row' = Some "3"
                     /\ summary_phase2b row' = Some text).
Proof.
  intros E db req row emotion confidence Hg Hpid Hnew Hiid Hrow Hphase Hcmd Hc
    key to_send text He.
  assert (Hchat : chat E db req =
            (<[key := update_phase2b E text emotion row]> db,
             ExitReply [text] (to_send ++ [assistant text]) key.1 key.2)).
  { rewrite (chat_existing E db req row Hpid Hnew Hiid Hrow). fold key to_send.
    unfold dispatch, end_phase. rewrite Hcmd, Hphase. simpl.
    rewrite (exit_phase2b_commits E db key row _ _ emotion confidence text);
      [reflexivity| | |exact Hc].
    - unfold context_builder. rewrite Hg. reflexivity.
    - rewrite <- He. f_equal. unfold to_send. rewrite <- !app_assoc. reflexivity. }
  split; [exact Hchat|].
  unfold chat_store. rewrite Hchat. simpl. rewrite lookup_insert_eq.
  eexists. split; [reflexivity|]. split; reflexivity.
Qed.

Lemma without_gemini_client_witness :
  let E := {| openai_client := true; gemini_client := false;
              emotion_completion := fun _ => Returns (Some "EMOTION");
              trigger_completion := fun _ => Returns (Some "TRIGGERS");
              subtype_completion := fun _ => Returns (Some "Positive Cognitive Change");
              reply_completion := fun _ => Returns (Some "REPLY");
              generate_content := fun _ _ _ _ _ _ => Returns "SUMMARY";
              json_loads := example_json_loads;
              commit_ok := fun _ => true;
              now := 1000;
              latest_heart_rate := None;
              werkzeug_shutdown := true;
              stored_times_naive := true;
              default_current_phase := Some "1";
              default_insert_system_prompt := Some "initial" |} in
  exists row',
    chat_store E (example_db "2b" "phase2b") (example_request "endphase()")
      !! ("P001", 1%Z) = Some row'
    /\ current_phase row' = Some "3"
    /\ summary_phase2b row' = Some "Error: Gemini model not initialized.".
Proof.
  intros E.
  apply (without_gemini_client E (example_db "2b" "phase2b")
           (example_request "endphase()") (example_row "2b" "phase2b")
           (PStr "sadness") (PNum (9 # 10)));
    try reflexivity; discriminate.
Defined.

(** ** Opening a session *)

Lemma max_intervention_id_none (db : store) (participant_id : string) :
  (forall i, db !! (participant_id, i) = None) ->
  max_intervention_id db participant_id = None.
Proof.
  intros Hnone. unfold max_intervention_id.
  assert (Hl : forall kv, kv ∈ map_to_list db -> kv.1.1 <> participant_id).
  { intros [[p i] r] Hin Heq. simpl in Heq. subst p.
    apply elem_of_map_to_list in Hin. rewrite Hnone in Hin. discriminate. }
  induction (map_to_list db) as [|kv l IH]; [reflexivity|].
  simpl. rewrite decide_False by (apply Hl; left).
  apply IH. intros kv' Hin. apply Hl. right. exact Hin.
Qed.

(** X12. A request that opens a session gets an intervention id that is
    above every id the participant has in the table (1 for a participant
    without rows), so that the row created never replaces one; the row is
    in phase "1" with the marker "initial", and the message of the request
    is served on it at once, with the initial system prompt, which quotes
    the latest heart rate, opening the conversation for the models. *)
Theorem new_session_opened :
  forall E (db : store) req,
    req_participant_id req <> "" ->
    req_is_new_session req = true ->
    commit_ok E CommitNewSession = true ->
    let key := session_key db req in
    let fresh := new_intervention (now E) (Some "1") (Some "initial") in
    let api := req_history req ++ [user (req_message req)] in
    db !! key = None
    /\ (forall i row, db !! (req_participant_id req, i) = Some row -> (i < key.2)%Z)
    /\ ((forall i, db !! (req_participant_id req, i) = None) -> key.2 = 1%Z)
    /\ chat E db req =
         dispatch E (<[key := fresh]> db) key fresh (Some "initial")
           (system (InitialSystemPrompt (latest_heart_rate E)) :: api) api
           (req_message req)
    /\ (exists row', chat_store E db req !! key = Some row'
                     /\ exit_write E fresh row')
    /\ (is_endphase_command_default (req_message req) = false ->
        openai_client E = true ->
        chat E db req =
          (<[key := fresh]> db,
           reply_of (reply_completion E
                       (system (InitialSystemPrompt (latest_heart_rate E)) :: api))
             api key)).
Proof.
  intros E db req Hpid Hnew Hc key fresh api.
  assert (Hkey : key = (req_participant_id req,
                        (default 0 (max_intervention_id db (req_participant_id req))
                         + 1)%Z)).
  { unfold key, session_key. rewrite Hnew. reflexivity. }
  assert (Hfresh : db !! key = None).
  { rewrite Hkey. apply new_intervention_id_fresh. }
  assert (Hs : session_handling E db req = inr (<[key := fresh]> db, key.2)).
  { unfold session_handling. rewrite Hnew, Hc, Hkey. reflexivity. }
  assert (Hrow : (<[key := fresh]> db) !! (req_participant_id req, key.2)
                 = Some fresh).
  { rewrite Hkey. simpl. rewrite <- Hkey. apply lookup_insert_eq. }
  assert (Hchat : chat E db req =
            dispatch E (<[key := fresh]> db) key fresh (Some "initial")
              (system (InitialSystemPrompt (latest_heart_rate E)) :: api) api
              (req_message req)).
  { rewrite (chat_after_handling E db _ req _ fresh Hpid Hs Hrow).
    rewrite Hkey. reflexivity. }
  assert (Hrow' : (<[key := fresh]> db) !! key = Some fresh)
    by apply lookup_insert_eq.
  split; [exact Hfresh|]. split.
  { intros i row Hi. apply max_intervention_id_bound in Hi as [m [Hm Hle]].
    rewrite Hkey, Hm. simpl. lia. }
  split.
  { intros Hnone. rewrite Hkey, (max_intervention_id_none db _ Hnone). reflexivity. }
  split; [exact Hchat|].
  destruct (dispatch_write E (<[key := fresh]> db) key fresh
              (system (InitialSystemPrompt (latest_heart_rate E)) :: api) api
              (req_message req) Hrow') as [row' [Hdb [Hw _]]].
  change (insert_system_prompt fresh) with (Some "initial") in Hdb.
  split.
  { exists row'. unfold chat_store. rewrite Hchat, Hdb, lookup_insert_eq. auto. }
  intros Hcmd Hclient. rewrite Hchat. unfold dispatch. rewrite Hcmd, Hclient.
  cbn [negb].
  pose proof (continue_turn_eq E _ key fresh
                (system (InitialSystemPrompt (latest_heart_rate E)) :: api) api Hrow')
    as Hct.
  change (insert_system_prompt fresh) with (Some "initial") in Hct.
  exact Hct.
Qed.

Lemma new_session_opened_witness :
  let req := {| req_message := "hi"; req_history := [];
                req_participant_id := "P001"; req_is_new_session := true;
                req_intervention_id := 0 |} in
  session_key two_sessions_db req = ("P001", 2%Z)
  /\ two_sessions_db !! ("P001", 2%Z) = None
  /\ exists row',
       chat_store fair_env two_sessions_db req !! ("P001", 2%Z) = Some row'
       /\ exit_write fair_env
            (new_intervention (now fair_env) (Some "1") (Some "initial")) row'.
Proof.
  intros req.
  assert (Hk : session_key two_sessions_db req = ("P001", 2%Z))
    by (vm_compute; reflexivity).
  pose proof (new_session_opened fair_env two_sessions_db req) as H.
  cbv zeta in H. rewrite Hk in H.
  destruct H as [H1 [_ [_ [_ [H2 _]]]]].
  - discriminate.
  - reflexivity.
  - reflexivity.
  - split; [exact Hk|]. split; [exact H1|exact H2].
Defined.

(** ** The wrappers of the classifier *)

(** X13. The wrappers raise only what their API call raises. With the
    client initialised, [identify_emotion_plutchik] and
    [extract_trigger_types] raise exactly when the call does, whatever text
    it returns, and [decide_reappraisal_subtype] raises in addition
    [AttributeError] on an answer without content. Without the client all
    three return the error marker "error_openai_not_init" instead of
    raising, and not the neutral default. *)
Theorem wrappers_raise_with_the_call :
  forall E h e,
    (identify_emotion_plutchik E h = Raise e <->
     openai_client E = true /\ emotion_completion E (tail h) = Raises e)
    /\ (extract_trigger_types E h = Raise e <->
        openai_client E = true /\ trigger_completion E h = Raises e)
    /\ (decide_reappraisal_subtype E h = Raise e <->
        openai_client E = true
        /\ (subtype_completion E h = Raises e
            \/ subtype_completion E h = Returns None /\ e = AttributeError))
    /\ (openai_client E = false ->
        identify_emotion_plutchik E h = Ok (PStr "error_openai_not_init", PNum 0)
        /\ extract_trigger_types E h = Ok error_openai_not_init
        /\ decide_reappraisal_subtype E h = Ok error_openai_not_init).
Proof.
  intros E h e.
  unfold identify_emotion_plutchik, extract_trigger_types,
    decide_reappraisal_subtype.
  destruct (openai_client E); cbn [negb].
  - split; [|split; [|split]].
    + destruct (emotion_completion E (tail h)) as [e'|[text|]].
      * split; [intros [= ->]; auto|intros [_ [= ->]]; reflexivity].
      * split; [|intros [_ [=]]].
        destruct (json_loads E text) as [[]|]; intros [=].
      * split; [intros [=]|intros [_ [=]]].
    + destruct (trigger_completion E h) as [e'|[text|]].
      * split; [intros [= ->]; auto|intros [_ [= ->]]; reflexivity].
      * split; [|intros [_ [=]]].
        destruct (json_loads E _); intros [=].
      * split; [intros [=]|intros [_ [=]]].
    + destruct (subtype_completion E h) as [e'|[text|]].
      * split; [intros [= ->]; auto|].
        intros [_ [[= ->]|[[=] _]]]. reflexivity.
      * split; [intros [=]|intros [_ [[=]|[[=] _]]]].
      * split; [intros [= <-]; auto|].
        intros [_ [[=]|[_ ->]]]. reflexivity.
    + intros [=].
  - split; [|split; [|split]];
      try (split; [intros [=]|intros [[=] _]]).
    intros _. repeat split.
Qed.

Lemma wrappers_raise_with_the_call_witness :
  let E := example_env (Raises APIError) (Returns (Some "not json"))
             (Returns None) (fun _ => Returns None) (fun _ => true) in
  identify_emotion_plutchik E [] = Raise APIError
  /\ decide_reappraisal_subtype E [] = Raise AttributeError.
Proof.
  intros E. split.
  - apply (proj1 (wrappers_raise_with_the_call E [] APIError)). auto.
  - apply (proj1 (proj2 (proj2 (wrappers_raise_with_the_call E [] AttributeError)))).
    auto.
Defined.

(** ** Prompts that could not be stored *)

Lemma exit_phase1_prompts_lost (E : env) (db : store) (key : string * Z)
    (row : Intervention) (api to_send : list message)
    (found trigger emotion confidence first second : pyval)
    (first_prompt second_prompt : instruction) (summary : string)
    (joined : rendered) :
  extract_trigger_types E api = Ok found ->
  first_trigger found = Ok trigger ->
  identify_emotion_plutchik E api = Ok (emotion, confidence) ->
  decide_strategy E emotion trigger api
    = Ok (first, first_prompt, second, second_prompt) ->
  context_builder E api emotion trigger first second Tag1 = Ok summary ->
  join_triggers found = Ok joined ->
  commit_ok E CommitExit = true ->
  commit_ok E CommitPrompts = false ->
  fst (exit_phase1 E db key row api to_send) =
    <[key := update_phase1 E summary emotion joined trigger first second row]> db.
Proof.
  intros Ht Hf He Hd Hs Hj Hc Hp. unfold exit_phase1.
  rewrite Ht. simpl. rewrite Hf. simpl. rewrite He. simpl. rewrite Hd. simpl.
  rewrite Hs. simpl. rewrite Hj. unfold commit_or_rollback. rewrite Hc, Hp.
  reflexivity.
Qed.

(** X14. The exit of phase "1" commits the phase before it stores the two
    strategy prompts, in a second commit whose failure is only printed.
    When the first commit succeeds and the second fails, the session is in
    phase "2a" with the marker "phase2a", its prompts are as they were,
    and, when the row had none, the next message that is not a command is
    sent to the reply model with no system prompt in front of it. *)
Theorem prompts_commit_fails :
  forall E1 E2 (db : store) req1 req2 row,
    exits_succeed E1 ->
    commit_ok E1 CommitPrompts = false ->
    req_participant_id req1 <> "" ->
    req_is_new_session req1 = false ->
    req_intervention_id req1 <> 0%Z ->
    db !! (req_participant_id req1, req_intervention_id req1) = Some row ->
    current_phase row = Some "1" ->
    is_endphase_command_default (req_message req1) = true ->
    req_participant_id req2 = req_participant_id req1 ->
    req_is_new_session req2 = false ->
    req_intervention_id req2 = req_intervention_id req1 ->
    is_endphase_command_default (req_message req2) = false ->
    openai_client E2 = true ->
    let key := (req_participant_id req1, req_intervention_id req1) in
    exists row1,
      chat_store E1 db req1 !! key = Some row1
      /\ current_phase row1 = Some "2a"
      /\ insert_system_prompt row1 = Some "phase2a"
      /\ phase2_prompt row1 = phase2_prompt row
      /\ phase2b_prompt row1 = phase2b_prompt row
      /\ (phase2_prompt row = PyNone ->
          chat E2 (chat_store E1 db req1) req2
          = (chat_store E1 db req1,
             reply_of
               (reply_completion E2 (req_history req2 ++ [user (req_message req2)]))
               (req_history req2 ++ [user (req_message req2)]) key)).
Proof.
  intros E1 E2 db req1 req2 row Hok Hprompts Hpid Hnew Hiid Hrow Hphase Hcmd
    Hpid2 Hnew2 Hiid2 Hcmd2 Hclient key.
  set (api := initial_prefix E1 row ++ req_history req1 ++ [user (req_message req1)]).
  destruct (triggers_answer E1 Hok api) as [l [ss [Ht Hss]]].
  assert (Hf : exists trigger, first_trigger (PList l) = Ok trigger).
  { destruct l as [|[] l]; simpl in *; try discriminate; eauto. }
  destruct Hf as [trigger Hf].
  destruct (emotion_answers E1 Hok api) as [emotion [confidence He]].
  destruct (subtype_answers E1 Hok api) as [k [Hsub Hin]].
  destruct (strategies_has_key emotion k Hin) as [prompt Hk].
  destruct (decide_strategy_returns E1 emotion trigger api k prompt Hsub Hk)
    as [first [fp [second [sp Hd]]]].
  destruct (summary_answers E1 Hok Tag1 api emotion trigger first second)
    as [summary Hs].
  assert (Hj : join_triggers (PList l) = Ok (Plain (String.concat ", " ss)))
    by (simpl; rewrite Hss; reflexivity).
  set (row1 := update_phase1 E1 summary emotion (Plain (String.concat ", " ss))
                 trigger first second row).
  pose proof (exit_phase1_prompts_lost E1 db key row api
                (req_history req1 ++ [user (req_message req1)])
                _ _ _ _ _ _ _ _ _ _ Ht Hf He Hd Hs Hj (exit_commits E1 Hok) Hprompts)
    as Hfst.
  assert (Hstore : chat_store E1 db req1
                   = fst (exit_phase1 E1 db key row api
                            (req_history req1 ++ [user (req_message req1)]))).
  { unfold chat_store. rewrite (chat_existing E1 db req1 row Hpid Hnew Hiid Hrow).
    unfold dispatch, end_phase. rewrite Hcmd, Hphase. simpl. fold api key.
    destruct (exit_phase1 E1 db key row api _) as [db1 [resp|err]];
      reflexivity. }
  rewrite Hfst in Hstore. clear Hfst. fold row1 in Hstore.
  exists row1. rewrite Hstore, lookup_insert_eq.
  split; [reflexivity|]. repeat (split; [reflexivity|]).
  intros Hnone.
  assert (Hpid' : req_participant_id req2 <> "") by congruence.
  assert (Hiid' : req_intervention_id req2 <> 0%Z) by congruence.
  assert (Hrow1 : (<[key := row1]> db)
                    !! (req_participant_id req2, req_intervention_id req2)
                  = Some row1).
  { rewrite Hpid2, Hiid2. apply lookup_insert_eq. }
  rewrite (chat_existing E2 _ req2 _ Hpid' Hnew2 Hiid' Hrow1).
  unfold dispatch. rewrite Hcmd2, Hclient. cbn [negb].
  rewrite (continue_turn_eq E2 _ _ _ _ _ Hrow1).
  rewrite Hpid2, Hiid2. fold key.
  unfold outgoing_request, pending_prompt, initial_prefix.
  cbn [insert_system_prompt row1 update_phase1 phase2_prompt].
  rewrite Hnone. cbn [content_truthy].
  repeat case_decide; try congruence.
  destruct (commit_or_rollback _ _ _ _ _) as [db1 r1]. reflexivity.
Qed.

Lemma prompts_commit_fails_witness :
  let E1 := example_env (Returns (Some "EMOTION")) (Returns (Some "TRIGGERS"))
              (Returns (Some "Positive Cognitive Change"))
              (fun _ => Returns (Some "REPLY"))
              (fun site => match site with CommitPrompts => false | _ => true end) in
  let db : store :=
    {[ ("P001", 1%Z) := new_intervention 0 (Some "1") (Some "initial") ]} in
  let req1 := example_request "endphase()" in
  let req2 := example_request "hello" in
  exists row1,
    chat_store E1 db req1 !! ("P001", 1%Z) = Some row1
    /\ current_phase row1 = Some "2a"
    /\ phase2_prompt row1 = PyNone
    /\ chat fair_env (chat_store E1 db req1) req2
       = (chat_store E1 db req1,
          reply_of (reply_completion fair_env ([] ++ [user "hello"]))
            ([] ++ [user "hello"]) ("P001", 1%Z)).
Proof.
  intros E1 db req1 req2.
  assert (Hok : exits_succeed E1).
  { split; intros; simpl.
    - exists (PStr "sadness"), (PNum (9 # 10)). reflexivity.
    - exists [PStr "relationship trigger"], ["relationship trigger"]. auto.
    - exists "Positive Cognitive Change". split; [reflexivity|]. simpl. tauto.
    - exists "SUMMARY". reflexivity.
    - reflexivity.
    - reflexivity. }
  destruct (prompts_commit_fails E1 fair_env db req1 req2
              (new_intervention 0 (Some "1") (Some "initial")) Hok)
    as [row1 [H1 [H2 [_ [H3 [_ H4]]]]]]; try reflexivity; try discriminate.
  exists row1. split; [exact H1|]. split; [exact H2|]. split; [exact H3|].
  apply H4. reflexivity.
Defined.
